(** * CT/PET study selection: extraction and selection pipeline

    A shallow embedding of [src/gradient_selection/selection.py],
    [src/gradient_selection/llm.py] and [src/gradient_selection/extraction.py]
    together with the properties their specification states.

    Python values are modelled by the inductive type [pyval]; dictionaries
    with string keys are [gmap string pyval], Python sets of strings are
    [gset string].  Code that can raise returns a [result]; code that talks to
    the language-model API or sleeps threads a [world] through a small
    state-and-error monad.  Library functions that live outside the
    repository ([json.loads], [json.dumps], [repr], [int], [float], reading a
    file) are fields of the class [Runtime]: every theorem holds for every
    runtime, and [mini_runtime] is a concrete one used to run examples. *)

From Stdlib Require Import ZArith String Ascii List Bool Lia Permutation Sorted.
From stdpp Require Import base option list gmap sets strings sorting pretty.

Set Warnings "-register-all".

Local Open Scope string_scope.
Local Open Scope Z_scope.

(** ** Python values *)

Module Py.

(** A Python [float]: only what the code observes (truthiness, being a
    number) is needed, so a float is NaN, an infinity, or [m * 2^e]. *)
Inductive pyfloat : Type :=
  | FNaN
  | FInf (negative : bool)
  | FFinite (m e : Z).

Inductive pyval : Type :=
  | PNone
  | PBool (b : bool)
  | PInt (z : Z)
  | PFloat (f : pyfloat)
  | PStr (s : string)
  | PList (l : list pyval)
  | PDict (d : gmap string pyval).

(** The exceptions the modelled code can meet.  A [JSONDecodeError] carries
    the document that failed to parse (its [doc] attribute); [ApiError]
    stands for whatever the API client raises, with its message. *)
Inductive exn : Type :=
  | AttributeError
  | TypeError
  | ValueError
  | OverflowError
  | RuntimeError (msg : string)
  | JSONDecodeError (doc : string)
  | OSError (path : string)
  | ApiError (msg : string).

Inductive result (A : Type) : Type :=
  | Ok (a : A)
  | Raise (e : exn).
Arguments Ok {A} a.
Arguments Raise {A} e.

Definition bind {A B} (r : result A) (k : A -> result B) : result B :=
  match r with
  | Ok a => k a
  | Raise e => Raise e
  end.

Definition is_ok {A} (r : result A) : bool :=
  match r with Ok _ => true | Raise _ => false end.

End Py.
Export Py.

Notation "x <-? r ; k" := (Py.bind r (fun x => k))
  (at level 100, r at next level, right associativity).

(** ** Python strings

    A string is a sequence of code points below 256.  The operations follow
    [str.strip], [str.lower], [in], [str.find], [str.rfind] and slicing. *)

Module Str.

(** [str.isspace] on a single code point below 256. *)
Definition isspace (c : ascii) : bool :=
  let n := Z.of_N (N_of_ascii c) in
  ((9 <=? n) && (n <=? 13)) || ((28 <=? n) && (n <=? 32))
  || (n =? 133) || (n =? 160).

Fixpoint lstrip (s : string) : string :=
  match s with
  | String c s' => if isspace c then lstrip s' else s
  | EmptyString => EmptyString
  end.

Definition strip (s : string) : string :=
  String.rev (lstrip (String.rev (lstrip s))).

Definition lower_char (c : ascii) : ascii :=
  let n := Z.of_N (N_of_ascii c) in
  if ((65 <=? n) && (n <=? 90))
     || ((192 <=? n) && (n <=? 222) && negb (n =? 215))
  then ascii_of_N (N_of_ascii c + 32)
  else c.

Fixpoint lower (s : string) : string :=
  match s with
  | String c s' => String (lower_char c) (lower s')
  | EmptyString => EmptyString
  end.

(** [sub in s] *)
Fixpoint contains (sub s : string) : bool :=
  String.prefix sub s ||
  match s with
  | String _ s' => contains sub s'
  | EmptyString => false
  end.

(** [s.find(sub)], counting positions from [i]: the lowest index at which
    [sub] starts, or [-1]. *)
Fixpoint find_from (sub s : string) (i : Z) : Z :=
  if String.prefix sub s then i
  else match s with
       | String _ s' => find_from sub s' (i + 1)
       | EmptyString => -1
       end.

Definition find (s sub : string) : Z := find_from sub s 0.

(** [s.rfind(sub)]: the highest index at which [sub] starts, or [-1]. *)
Fixpoint rfind_from (sub s : string) (i : Z) : Z :=
  match s with
  | String _ s' =>
      let r := rfind_from sub s' (i + 1) in
      if r =? -1 then (if String.prefix sub s then i else -1) else r
  | EmptyString => if String.prefix sub EmptyString then i else -1
  end.

Definition rfind (s sub : string) : Z := rfind_from sub s 0.

Fixpoint drop (n : nat) (s : string) : string :=
  match n, s with
  | S n', String _ s' => drop n' s'
  | _, _ => s
  end.

Fixpoint take (n : nat) (s : string) : string :=
  match n, s with
  | S n', String c s' => String c (take n' s')
  | _, _ => EmptyString
  end.

(** A slice bound: negative bounds count from the end, and the bound is
    clamped to the string. *)
Definition clamp (len i : Z) : Z :=
  let i := if i <? 0 then i + len else i in
  Z.max 0 (Z.min len i).

(** [s[start:stop]] *)
Definition slice (s : string) (start stop : Z) : string :=
  let len := Z.of_nat (String.length s) in
  let a := clamp len start in
  let b := clamp len stop in
  take (Z.to_nat (b - a)) (drop (Z.to_nat a) s).

End Str.

(** ** The runtime: library functions the repository calls *)

Class Runtime : Type := {
  (** [json.loads] on a string; [None] when it raises [JSONDecodeError] *)
  json_loads : string -> option pyval;
  (** [json.dumps] (its default [ensure_ascii=True]) *)
  json_dumps : pyval -> string;
  (** [repr] of a float, a list or a dict *)
  py_repr : pyval -> string;
  (** [int] and [float] applied to a string, [float] applied to an int *)
  int_of_str : string -> result Z;
  float_of_str : string -> result pyfloat;
  float_of_int : Z -> pyfloat;
  (** [Path(path).read_text()] *)
  read_text : string -> result string;
  (** [str(exc)] of an exception *)
  exn_str : exn -> string;
}.

Section Builtins.
Context `{Runtime}.

(** Truth value of an object, as tested by [if], [not] and [or]. *)
Definition truthy (v : pyval) : bool :=
  match v with
  | PNone => false
  | PBool b => b
  | PInt z => negb (z =? 0)
  | PFloat (FFinite m _) => negb (m =? 0)
  | PFloat _ => true
  | PStr s => negb (String.eqb s "")
  | PList l => negb (Nat.eqb (length l) 0)
  | PDict d => negb (bool_decide (d = ∅))
  end.

(** [str(v)] *)
Definition py_str (v : pyval) : string :=
  match v with
  | PStr s => s
  | PNone => "None"
  | PBool true => "True"
  | PBool false => "False"
  | PInt z => pretty z
  | _ => py_repr v
  end.

(** [int(v)] *)
Definition py_int (v : pyval) : result Z :=
  match v with
  | PInt z => Ok z
  | PBool b => Ok (if b then 1 else 0)
  | PStr s => int_of_str s
  | PFloat (FFinite m e) =>
      Ok (if 0 <=? e then m * 2 ^ e else Z.quot m (2 ^ (- e)))
  | PFloat FNaN => Raise ValueError
  | PFloat (FInf _) => Raise OverflowError
  | _ => Raise TypeError
  end.

(** [float(v)] *)
Definition py_float (v : pyval) : result pyfloat :=
  match v with
  | PFloat f => Ok f
  | PInt z => Ok (float_of_int z)
  | PBool b => Ok (float_of_int (if b then 1 else 0))
  | PStr s => float_of_str s
  | _ => Raise TypeError
  end.

(** [json.loads(s)] on a string, raising where it fails. *)
Definition loads (s : string) : result pyval :=
  match json_loads s with
  | Some v => Ok v
  | None => Raise (JSONDecodeError s)
  end.

(** [range(a, b)] *)
Definition py_range (a b : Z) : list Z :=
  (fun i => a + Z.of_nat i) <$> seq 0 (Z.to_nat (b - a)).

(** [[f(x) for x in l]] where [f] can raise. *)
Fixpoint map_result {A B} (f : A -> result B) (l : list A) : result (list B) :=
  match l with
  | [] => Ok []
  | x :: l' => y <-? f x; ys <-? map_result f l'; Ok (y :: ys)
  end.

(** [d.get(key, default)] on a mapping. *)
Definition map_get (d : gmap string pyval) (key : string) (default : pyval) : pyval :=
  match d !! key with
  | Some v => v
  | None => default
  end.

(** [v.get(key, default)] on any object: only a dict has the method. *)
Definition dict_get (v : pyval) (key : string) (default : pyval) : result pyval :=
  match v with
  | PDict d => Ok (map_get d key default)
  | _ => Raise AttributeError
  end.

(** [v.keys()] as a set. *)
Definition dict_keys (v : pyval) : result (gset string) :=
  match v with
  | PDict d => Ok (dom d)
  | _ => Raise AttributeError
  end.

(** The items a [for] loop draws from [v]: the elements of a list, the
    one-character strings of a string, the keys of a dict. *)
Definition py_iter (v : pyval) : result (list pyval) :=
  match v with
  | PList l => Ok l
  | PStr s => Ok ((fun c => PStr (String c EmptyString)) <$> list_ascii_of_string s)
  | PDict d => Ok (PStr <$> elements (dom d))
  | _ => Raise TypeError
  end.

(** [v in s] / [v not in s] for a set of strings: the lookup hashes [v],
    which raises for a list or a dict, and then compares. *)
Definition set_contains (s : gset string) (v : pyval) : result bool :=
  match v with
  | PStr x => Ok (bool_decide (x ∈ s))
  | PList _ | PDict _ => Raise TypeError
  | _ => Ok false
  end.

(** Objects a set lookup can hash: everything but lists and dicts. *)
Definition hashable (v : pyval) : bool :=
  match v with
  | PList _ | PDict _ => false
  | _ => true
  end.

(** [isinstance(v, str)] *)
Definition is_str (v : pyval) : bool :=
  match v with
  | PStr _ => true
  | _ => false
  end.

(** [isinstance(v, dict)] *)
Definition is_dict (v : pyval) : bool :=
  match v with
  | PDict _ => true
  | _ => false
  end.

(** [l.append(x)] *)
Definition append {A} (l : list A) (x : A) : list A := (l ++ [x])%list.

(** [v == []] *)
Definition eq_empty_list (v : pyval) : bool :=
  match v with
  | PList [] => true
  | _ => false
  end.

End Builtins.

(** ** Configuration ([config.py]) *)

Record Config : Type := {
  cfg_paths : gmap string pyval;
  cfg_bigquery : gmap string pyval;
  cfg_selection : gmap string pyval;
  cfg_llm : gmap string pyval;
}.

(** ** Selection engine ([selection.py]) *)

Module Selection.
Section Defs.
Context `{Runtime}.

Definition _ALLOWED_DIAGNOSES : gset string :=
  {[ "Primary Lung Cancer"; "No Cancer" ]}.
Definition _ALLOWED_REASONS : gset string :=
  {[ "Indeterminate Pulmonary Nodule" ]}.

(** One row of the table, a [pd.Series]; [row.get(name)] is [None] for a
    column the row does not have.  An empty cell of a table read back from
    a CSV file is the float NaN. *)
Definition Row : Type := gmap string pyval.

Definition row_get (row : Row) (name : string) : pyval :=
  map_get row name PNone.

Definition _parse_json_cell (value : pyval) : pyval :=
  match value with
  | PNone => PDict ∅
  | PDict _ => value
  | _ =>
      match json_loads (py_str value) with
      | Some parsed => parsed
      | None => PDict ∅
      end
  end.

(** [json.loads(value)] raises [TypeError] unless [value] is a string; the
    [except Exception] clause swallows that and the decoding error alike. *)
Definition _list_empty (value : pyval) : bool :=
  match value with
  | PNone => true
  | PList l => Nat.eqb (length l) 0
  | PStr s =>
      match json_loads s with
      | Some (PList parsed) => Nat.eqb (length parsed) 0
      | _ => false
      end
  | _ => false
  end.

(** The body of the loop of [_contains_chest] over the items still to come:
    [r.lower()] exists on strings only, and the first match returns. *)
Fixpoint _contains_chest_loop (items : list pyval) : result bool :=
  match items with
  | [] => Ok false
  | PStr r :: rest =>
      if Str.contains "chest" (Str.lower r) then Ok true
      else _contains_chest_loop rest
  | _ :: _ => Raise AttributeError
  end.

Definition _contains_chest (regions : pyval) : result bool :=
  items <-? py_iter regions;
  _contains_chest_loop items.

(** [reasons.append(name)] when [failed]. *)
Definition append_if (failed : bool) (name : string) (reasons : list string)
  : list string :=
  if failed then append reasons name else reasons.

Definition evaluate_row (row : Row) (cfg : Config) : result (bool * list string) :=
  let reasons : list string := [] in
  if truthy (row_get row "extraction_error") then
    let reasons := append reasons "extraction_error" in
    Ok (false, reasons)
  else
    let ct := _parse_json_cell (row_get row "ct_json") in
    let pet := _parse_json_cell (row_get row "pet_json") in
    ct_regions <-? dict_get ct "CT_Regions" (PList []);
    ct_contrast <-? dict_get ct "CT_Contrast_Agent" (PStr "");
    lung_nodules <-? dict_get ct "Lung_Nodules" (PList []);
    chest <-? _contains_chest ct_regions;
    let reasons := append_if (negb chest) "ct_not_chest" reasons in
    let reasons :=
      append_if (negb (String.eqb (Str.lower (Str.strip (py_str ct_contrast))) "none"))
        "ct_contrast_present" reasons in
    let reasons :=
      append_if (negb (truthy lung_nodules) || eq_empty_list lung_nodules)
        "no_lung_nodules" reasons in
    clinical_reason <-? dict_get pet "Clinical_Reason" (PStr "");
    primary_dx <-? dict_get pet "Primary_Diagnosis" (PStr "");
    lymph_nodes <-? dict_get pet "Lymph_Nodes_Hypermetabolic_Regions" (PList []);
    other_hyper <-? dict_get pet "Other_Hypermetabolic_Regions" (PList []);
    reason_allowed <-? set_contains _ALLOWED_REASONS clinical_reason;
    let reasons :=
      append_if (negb reason_allowed) "pet_reason_not_indeterminate_nodule" reasons in
    dx_allowed <-? set_contains _ALLOWED_DIAGNOSES primary_dx;
    let reasons :=
      append_if (negb dx_allowed) "pet_primary_dx_not_allowed" reasons in
    let reasons :=
      append_if (negb (_list_empty lymph_nodes)) "pet_lymph_hypermetabolic" reasons in
    let reasons :=
      append_if (negb (_list_empty other_hyper)) "pet_other_hypermetabolic" reasons in
    Ok (Nat.eqb (length reasons) 0, reasons).

End Defs.
End Selection.

(** ** Language-model calls ([llm.py]) *)

Module Llm.

(** What [client.responses.create] is called with. *)
Record Request : Type := {
  req_model : pyval;
  req_prompt : string;
  req_report : string;
  req_temperature : pyfloat;
  req_max_output_tokens : Z;
}.

(** The API seen from one caller: the outcome of its [n]-th call (counting
    from 0) with a given request, namely the text
    [response.output[0].content[0].text] or the exception raised on the way
    to it. *)
Definition Client : Type := nat -> Request -> result string.

(** What a caller has done so far: the number of API calls made and the
    arguments of [time.sleep], oldest first. *)
Record World : Type := {
  api_calls : nat;
  slept : list Z;
}.

Definition M (A : Type) : Type := World -> result A * World.

Definition ret {A} (a : A) : M A := fun w => (Ok a, w).

Definition mbind {A B} (m : M A) (k : A -> M B) : M B :=
  fun w =>
    match m w with
    | (Ok a, w') => k a w'
    | (Raise e, w') => (Raise e, w')
    end.

Definition lift {A} (r : result A) : M A := fun w => (r, w).

Definition call_api (client : Client) (req : Request) : M string :=
  fun w => (client (api_calls w) req,
            {| api_calls := S (api_calls w); slept := slept w |}).

Definition sleep (seconds : Z) : M unit :=
  fun w => (Ok tt, {| api_calls := api_calls w; slept := append (slept w) seconds |}).

(** [try: body except Exception: handler] *)
Definition try_except {A} (body : M A) (handler : exn -> M A) : M A :=
  fun w =>
    match body w with
    | (Ok a, w') => (Ok a, w')
    | (Raise e, w') => handler e w'
    end.

Notation "x <- m ;; k" := (mbind m (fun x => k))
  (at level 100, m at next level, right associativity).

Section Defs.
Context `{Runtime}.

Definition _load_prompt (path : string) : result string := read_text path.

Definition _parse_json (text : string) : result pyval :=
  let text := Str.strip text in
  match loads text with
  | Ok parsed => Ok parsed
  | Raise (JSONDecodeError _ as e) =>
      let start := Str.find text "{" in
      let end_ := Str.rfind text "}" in
      if negb (start =? -1) && negb (end_ =? -1) && (end_ >? start) then
        loads (Str.slice text start (end_ + 1))
      else Raise e
  | Raise e => Raise e
  end.

(** The [for attempt in range(1, retries + 1)] loop over the attempts still
    to come, and the [return {}] after it. *)
Fixpoint retry_loop (client : Client) (req : Request) (retries : Z)
    (attempts : list Z) : M pyval :=
  match attempts with
  | [] => ret (PDict ∅)
  | attempt :: rest =>
      try_except
        (text <- call_api client req ;; lift (_parse_json text))
        (fun e =>
           if attempt =? retries then lift (Raise e)
           else (_ <- sleep (2 ^ attempt) ;; retry_loop client req retries rest))
  end.

Definition _extract_with_retry (client : Client) (prompt report_text : string)
    (cfg : Config) : M pyval :=
  retries <- lift (py_int (map_get (cfg_llm cfg) "retries" (PInt 3))) ;;
  temperature <-
    lift (py_float (map_get (cfg_llm cfg) "temperature"
                      (PFloat (FFinite 3602879701896397 (-54))))) ;;
  max_output_tokens <-
    lift (py_int (map_get (cfg_llm cfg) "max_output_tokens" (PInt 2000))) ;;
  let model := map_get (cfg_llm cfg) "model" (PStr "gpt-5.2") in
  let req := {| req_model := model; req_prompt := prompt;
                req_report := report_text; req_temperature := temperature;
                req_max_output_tokens := max_output_tokens |} in
  retry_loop client req retries (py_range 1 (retries + 1)).

End Defs.
End Llm.

(** ** Tables ([pd.DataFrame]) *)

Module Frame.

(** A table: the column names in order, and the rows in order, each with
    its index label.  [df.iterrows()] yields exactly [df_rows]. *)
Record DataFrame : Type := {
  df_cols : list string;
  df_rows : list (Z * gmap string pyval);
}.

(** [df.head(n)]: the first [n] rows, or all but the last [-n] for a
    negative [n]. *)
Definition head (n : Z) (df : DataFrame) : DataFrame :=
  let len := Z.of_nat (length (df_rows df)) in
  let k := if n <? 0 then Z.max 0 (len + n) else n in
  {| df_cols := df_cols df; df_rows := take (Z.to_nat k) (df_rows df) |}.

(** The columns after an assignment to [name]: a new name becomes the last
    column, an existing one keeps its place. *)
Definition add_col (cols : list string) (name : string) : list string :=
  if bool_decide (name ∈ cols) then cols else append cols name.

(** The table after [df[name] = values], the values attached by position. *)
Definition set_column (df : DataFrame) (name : string) (values : list pyval)
  : DataFrame :=
  {| df_cols := add_col (df_cols df) name;
     df_rows := zip_with (fun r v => (r.1, <[name := v]> r.2)) (df_rows df) values |}.

(** [df[name] = values]: as many values as rows, or [ValueError]. *)
Definition setitem (df : DataFrame) (name : string) (values : list pyval)
  : result DataFrame :=
  if Nat.eqb (length values) (length (df_rows df)) then Ok (set_column df name values)
  else Raise ValueError.

(** The cell of column [name] in the row at position [i]. *)
Definition cell (df : DataFrame) (i : nat) (name : string) : option pyval :=
  r ← df_rows df !! i; r.2 !! name.

Definition index (df : DataFrame) : list Z := fst <$> df_rows df.

End Frame.
Export Frame.

(** ** Extraction engine ([extraction.py]) *)

Module Extraction.

(** One entry of [results]: [(idx, ct_json, pet_json, error)]. *)
Record Entry : Type := {
  e_idx : Z;
  e_ct : pyval;
  e_pet : pyval;
  e_error : string;
}.

(** A file written with [Path.write_text]. *)
Record Written : Type := {
  w_dir : string;
  w_name : string;
  w_text : string;
}.

(** [sorted(l, key=...)] on integer keys: a stable sort, by insertion. *)
Fixpoint insert_by {A} (key : A -> Z) (x : A) (l : list A) : list A :=
  match l with
  | [] => [x]
  | y :: l' => if key x <=? key y then x :: y :: l'
               else y :: insert_by key x l'
  end.

Fixpoint sorted_by {A} (key : A -> Z) (l : list A) : list A :=
  match l with
  | [] => []
  | x :: l' => insert_by key x (sorted_by key l')
  end.

(** Order and strict order of the keys. *)
Definition key_le {A} (key : A -> Z) (x y : A) : Prop := key x <= key y.
Definition key_lt {A} (key : A -> Z) (x y : A) : Prop := key x < key y.

Section Defs.
Context `{Runtime}.

Definition _EXPECTED_CT_KEYS : list string :=
  ["CT_Regions"; "CT_Contrast_Agent"; "Lung_Nodules"].
Definition _EXPECTED_PET_KEYS : list string :=
  ["Lung_Hypermetabolic_Regions";
   "Lymph_Nodes_Hypermetabolic_Regions";
   "Other_Hypermetabolic_Regions";
   "PET_Tracer";
   "PET_Scan_Region";
   "PET_Blood_Glucose_Level";
   "PET_Waiting_Time";
   "Clinical_Reason";
   "Primary_Diagnosis"].

Definition _normalize_json_value (value : pyval) : pyval :=
  match value with
  | PNone => PStr ""
  | PDict _ | PList _ => PStr (json_dumps value)
  | _ => value
  end.

(** The set comprehension [{key for item in values for key in item.keys()}]. *)
Fixpoint discovered_keys (values : list pyval) : result (gset string) :=
  match values with
  | [] => Ok ∅
  | item :: rest =>
      keys <-? dict_keys item;
      more <-? discovered_keys rest;
      Ok (keys ∪ more)
  end.

(** [sorted] on the keys of a set, which are distinct, is the one sorted
    arrangement of them; strings compare by code point. *)
Definition _ordered_keys (values : list pyval) (expected : list string)
  : result (list string) :=
  discovered <-? discovered_keys values;
  let extras :=
    merge_sort String.le
      (filter (fun key => key ∉ expected) (elements discovered)) in
  Ok (filter (fun key => key ∈ discovered) expected ++ extras)%list.

Definition _extract_pair (client : Llm.Client)
    (ct_prompt pet_prompt ct_report pt_report : string) (cfg : Config)
  : Llm.M (pyval * pyval) :=
  Llm.mbind (Llm._extract_with_retry client ct_prompt ct_report cfg) (fun ct_json =>
  Llm.mbind (Llm._extract_with_retry client pet_prompt pt_report cfg) (fun pet_json =>
  Llm.ret (ct_json, pet_json))).

(** What [future.result()] gives for the task submitted for one row: the
    task runs [_extract_pair] against the API as that task sees it. *)
Definition future_result (client : Llm.Client) (ct_prompt pet_prompt : string)
    (cfg : Config) (row : gmap string pyval) : result (pyval * pyval) :=
  (_extract_pair client ct_prompt pet_prompt
     (py_str (map_get row "ct_report" (PStr "")))
     (py_str (map_get row "pt_report" (PStr "")))
     cfg {| Llm.api_calls := 0; Llm.slept := [] |}).1.

(** The body of the [for future in as_completed(futures)] loop. *)
Definition collect (idx : Z) (outcome : result (pyval * pyval)) : Entry :=
  match outcome with
  | Ok (ct_json, pet_json) =>
      {| e_idx := idx; e_ct := ct_json; e_pet := pet_json; e_error := "" |}
  | Raise exc =>
      {| e_idx := idx; e_ct := PDict ∅; e_pet := PDict ∅; e_error := exn_str exc |}
  end.

(** The loops [for key in ct_keys] and [for key in pet_keys]. *)
Fixpoint flatten (prefix : string) (keys : list string) (items : list pyval)
    (out_df : DataFrame) : result DataFrame :=
  match keys with
  | [] => Ok out_df
  | key :: rest =>
      column <-? map_result
                   (fun item => v <-? dict_get item key PNone;
                                Ok (_normalize_json_value v)) items;
      out_df <-? setitem out_df (prefix ++ key)%string column;
      flatten prefix rest items out_df
  end.

(** [path.write_text(text)]: the text must be a string. *)
Definition write_text (dir name : string) (text : pyval) : result Written :=
  match text with
  | PStr s => Ok {| w_dir := dir; w_name := name; w_text := s |}
  | _ => Raise TypeError
  end.

(** The loop writing the raw JSON of every row. *)
Fixpoint write_artifacts (ct_out_dir pet_out_dir : string)
    (rows : list (Z * gmap string pyval)) : result (list Written) :=
  match rows with
  | [] => Ok []
  | (_, row) :: rest =>
      let ct_uid := map_get row "ct_study_uid" (PStr "unknown") in
      let pt_uid := map_get row "pt_study_uid" (PStr "unknown") in
      ct_file <-? write_text ct_out_dir (py_str ct_uid ++ ".json")%string
                    (map_get row "ct_json" PNone);
      pet_file <-? write_text pet_out_dir (py_str pt_uid ++ ".json")%string
                     (map_get row "pet_json" PNone);
      more <-? write_artifacts ct_out_dir pet_out_dir rest;
      Ok (ct_file :: pet_file :: more)
  end.

(** [if max_rows: df = df.head(max_rows)]: zero is as false as [None]. *)
Definition truncate (max_rows : option Z) (df : DataFrame) : DataFrame :=
  match max_rows with
  | Some n => if negb (n =? 0) then head n df else df
  | None => df
  end.

(** The loop submitting one task per row: the futures in submission order,
    each with the index label of its row ([futures[...] = idx]).  [api p] is
    the API as seen by the task submitted for the row at position [p]. *)
Definition submit_all (api : nat -> Llm.Client) (ct_prompt pet_prompt : string)
    (cfg : Config) (df : DataFrame) : list (Z * result (pyval * pyval)) :=
  imap (fun p '(idx, row) =>
          (idx, future_result (api p) ct_prompt pet_prompt cfg row))
    (df_rows df).

(** The loop over [as_completed(futures)]: [completed] lists the positions
    of the tasks in the order in which their futures are yielded. *)
Definition gather (futures : list (Z * result (pyval * pyval)))
    (completed : list nat) : list Entry :=
  omap (fun p => '(idx, outcome) ← futures !! p; Some (collect idx outcome))
    completed.

(** The entries of all the tasks, in submission order. *)
Definition entries_of (futures : list (Z * result (pyval * pyval))) : list Entry :=
  (fun f => collect f.1 f.2) <$> futures.

(** The rest of [run_extraction], from the comment
    [attach results in original order] on. *)
Definition attach_results (df : DataFrame) (results : list Entry)
    (ct_out_dir pet_out_dir : string) : result (DataFrame * list Written) :=
  let results_sorted := sorted_by e_idx results in
  let ct_jsons := e_ct <$> results_sorted in
  let pet_jsons := e_pet <$> results_sorted in
  let errors := e_error <$> results_sorted in
  let out_df := df in
  out_df <-? setitem out_df "ct_json" ((fun x => PStr (json_dumps x)) <$> ct_jsons);
  out_df <-? setitem out_df "pet_json" ((fun x => PStr (json_dumps x)) <$> pet_jsons);
  out_df <-? setitem out_df "extraction_error" (PStr <$> errors);
  ct_keys <-? _ordered_keys ct_jsons _EXPECTED_CT_KEYS;
  pet_keys <-? _ordered_keys pet_jsons _EXPECTED_PET_KEYS;
  out_df <-? flatten "ct_" ct_keys ct_jsons out_df;
  out_df <-? flatten "pet_" pet_keys pet_jsons out_df;
  files <-? write_artifacts ct_out_dir pet_out_dir (df_rows out_df);
  Ok (out_df, files).

(** [run_extraction]: the returned table and the files written.  Creating
    the output directories is left out. *)
Definition run_extraction (api : nat -> Llm.Client) (completed : list nat)
    (df : DataFrame) (cfg : Config)
    (ct_prompt_path pet_prompt_path output_dir : string)
    (max_rows : option Z) : result (DataFrame * list Written) :=
  let api_key := map_get (cfg_llm cfg) "api_key" PNone in
  if negb (truthy api_key) then Raise (RuntimeError "OPENAI_API_KEY is not set")
  else
    ct_prompt <-? Llm._load_prompt ct_prompt_path;
    pet_prompt <-? Llm._load_prompt pet_prompt_path;
    let ct_out_dir := (output_dir ++ "/ct")%string in
    let pet_out_dir := (output_dir ++ "/pet")%string in
    max_workers <-? py_int (map_get (cfg_llm cfg) "concurrency" (PInt 6));
    let df := truncate max_rows df in
    if max_workers <=? 0 then Raise ValueError
    else
      let futures := submit_all api ct_prompt pet_prompt cfg df in
      let results := gather futures completed in
      attach_results df results ct_out_dir pet_out_dir.

End Defs.
End Extraction.

(** ** A concrete runtime

    [mini_runtime] implements the library functions on a fragment: JSON
    without fractional numbers and without [\u] escapes, integer-valued
    floats, decimal integer literals.  On that fragment it computes what the
    Python functions compute; it is what the examples below run on. *)

Module Mini.

Definition code (c : ascii) : Z := Z.of_N (N_of_ascii c).

Definition chr (n : Z) : ascii := ascii_of_N (Z.to_N n).

Definition is_ws (c : ascii) : bool :=
  (code c =? 32) || (code c =? 9) || (code c =? 10) || (code c =? 13).

Fixpoint skip_ws (cs : list ascii) : list ascii :=
  match cs with
  | c :: cs' => if is_ws c then skip_ws cs' else cs
  | [] => []
  end.

Definition is_digit (c : ascii) : bool := (48 <=? code c) && (code c <=? 57).

(** The rest of the input after the literal [lit], if the input starts
    with it. *)
Fixpoint after (lit : list ascii) (cs : list ascii) : option (list ascii) :=
  match lit, cs with
  | [], _ => Some cs
  | l :: lit', c :: cs' => if Ascii.eqb l c then after lit' cs' else None
  | _ :: _, [] => None
  end.

Fixpoint read_digits (cs : list ascii) (acc : Z) : Z * list ascii :=
  match cs with
  | c :: cs' => if is_digit c then read_digits cs' (10 * acc + (code c - 48))
                else (acc, cs)
  | [] => (acc, [])
  end.

(** An integer literal: [0] or a nonzero digit followed by digits; a
    fraction or an exponent after it is outside the fragment. *)
Definition read_int (cs : list ascii) : option (Z * list ascii) :=
  match cs with
  | c :: cs' =>
      if is_digit c then
        let '(n, rest) :=
          if code c =? 48 then (0, cs') else read_digits cs' (code c - 48) in
        match rest with
        | d :: _ =>
            if (code d =? 46) || (code d =? 69) || (code d =? 101) then None
            else Some (n, rest)
        | [] => Some (n, rest)
        end
      else None
  | [] => None
  end.

Definition unescape (c : ascii) : option ascii :=
  let n := code c in
  if (n =? 34) || (n =? 92) || (n =? 47) then Some c
  else if n =? 98 then Some (chr 8)
  else if n =? 102 then Some (chr 12)
  else if n =? 110 then Some (chr 10)
  else if n =? 114 then Some (chr 13)
  else if n =? 116 then Some (chr 9)
  else None.

(** The characters of a string literal after its opening quote, up to the
    closing quote. *)
Fixpoint read_string (cs : list ascii) (acc : list ascii)
  : option (string * list ascii) :=
  match cs with
  | [] => None
  | c :: cs' =>
      if code c =? 34 then Some (string_of_list_ascii (rev acc), cs')
      else if code c =? 92 then
        match cs' with
        | e :: cs'' =>
            match unescape e with
            | Some u => read_string cs'' (u :: acc)
            | None => None
            end
        | [] => None
        end
      else if code c <? 32 then None
      else read_string cs' (c :: acc)
  end.

Definition lit (s : string) : list ascii := list_ascii_of_string s.

Fixpoint parse_value (fuel : nat) (cs : list ascii) {struct fuel}
  : option (pyval * list ascii) :=
  match fuel with
  | O => None
  | S fuel =>
      let cs := skip_ws cs in
      match cs with
      | [] => None
      | c :: rest =>
          if code c =? 34 then
            '(s, rest) ← read_string rest []; Some (PStr s, rest)
          else if code c =? 91 then
            match skip_ws rest with
            | d :: rest' =>
                if code d =? 93 then Some (PList [], rest')
                else parse_elems fuel rest []
            | [] => None
            end
          else if code c =? 123 then
            match skip_ws rest with
            | d :: rest' =>
                if code d =? 125 then Some (PDict ∅, rest')
                else parse_members fuel rest ∅
            | [] => None
            end
          else if code c =? 45 then
            match after (lit "Infinity") rest with
            | Some rest' => Some (PFloat (FInf true), rest')
            | None => '(n, rest) ← read_int rest; Some (PInt (- n), rest)
            end
          else if is_digit c then
            '(n, rest) ← read_int cs; Some (PInt n, rest)
          else
            match after (lit "null") cs, after (lit "true") cs,
                  after (lit "false") cs, after (lit "NaN") cs,
                  after (lit "Infinity") cs with
            | Some rest, _, _, _, _ => Some (PNone, rest)
            | _, Some rest, _, _, _ => Some (PBool true, rest)
            | _, _, Some rest, _, _ => Some (PBool false, rest)
            | _, _, _, Some rest, _ => Some (PFloat FNaN, rest)
            | _, _, _, _, Some rest => Some (PFloat (FInf false), rest)
            | _, _, _, _, _ => None
            end
      end
  end
with parse_elems (fuel : nat) (cs : list ascii) (acc : list pyval) {struct fuel}
  : option (pyval * list ascii) :=
  match fuel with
  | O => None
  | S fuel =>
      '(v, rest) ← parse_value fuel cs;
      match skip_ws rest with
      | d :: rest' =>
          if code d =? 44 then parse_elems fuel rest' (v :: acc)
          else if code d =? 93 then Some (PList (rev (v :: acc)), rest')
          else None
      | [] => None
      end
  end
with parse_members (fuel : nat) (cs : list ascii) (acc : gmap string pyval)
    {struct fuel} : option (pyval * list ascii) :=
  match fuel with
  | O => None
  | S fuel =>
      match skip_ws cs with
      | q :: rest =>
          if code q =? 34 then
            '(k, rest) ← read_string rest [];
            match skip_ws rest with
            | colon :: rest =>
                if code colon =? 58 then
                  '(v, rest) ← parse_value fuel rest;
                  match skip_ws rest with
                  | d :: rest' =>
                      if code d =? 44 then parse_members fuel rest' (<[k := v]> acc)
                      else if code d =? 125 then Some (PDict (<[k := v]> acc), rest')
                      else None
                  | [] => None
                  end
                else None
            | [] => None
            end
          else None
      | [] => None
      end
  end.

Definition mini_loads (s : string) : option pyval :=
  let cs := list_ascii_of_string s in
  '(v, rest) ← parse_value (2 * length cs + 2) cs;
  match skip_ws rest with
  | [] => Some v
  | _ :: _ => None
  end.

(** *** Writing values *)

Definition dq : string := String (chr 34) "".
Definition sq : string := String (chr 39) "".
Definition bs : string := String (chr 92) "".

Definition hex_digit (n : Z) : ascii :=
  if n <? 10 then chr (48 + n) else chr (87 + n).

Definition hex2 (n : Z) : string :=
  String (hex_digit (n / 16)) (String (hex_digit (n mod 16)) "").

(** One character inside a JSON string literal, as [json.dumps] writes it. *)
Definition escape_char (c : ascii) : string :=
  let n := code c in
  if (n =? 34) || (n =? 92) then bs ++ String c ""
  else if n =? 10 then bs ++ "n"
  else if n =? 13 then bs ++ "r"
  else if n =? 9 then bs ++ "t"
  else if n =? 8 then bs ++ "b"
  else if n =? 12 then bs ++ "f"
  else if (n <? 32) || (127 <? n) then bs ++ "u00" ++ hex2 n
  else String c "".

Fixpoint escape (s : string) : string :=
  match s with
  | String c s' => escape_char c ++ escape s'
  | EmptyString => ""
  end.

Definition quote (s : string) : string := dq ++ escape s ++ dq.

Fixpoint join (sep : string) (l : list string) : string :=
  match l with
  | [] => ""
  | [x] => x
  | x :: l' => x ++ sep ++ join sep l'
  end.

Definition float_text (nan inf : string) (f : pyfloat) : string :=
  match f with
  | FNaN => nan
  | FInf false => inf
  | FInf true => "-" ++ inf
  | FFinite m e => pretty (m * 2 ^ e) ++ ".0"
  end.

Fixpoint mini_dumps (v : pyval) : string :=
  match v with
  | PNone => "null"
  | PBool true => "true"
  | PBool false => "false"
  | PInt z => pretty z
  | PFloat f => float_text "NaN" "Infinity" f
  | PStr s => quote s
  | PList l => "[" ++ join ", " (map mini_dumps l) ++ "]"
  | PDict d =>
      "{" ++ join ", "
               (map_fold (fun k x acc => (quote k ++ ": " ++ mini_dumps x) :: acc) [] d)
          ++ "}"
  end.

(** One character inside the [repr] of a string quoted with [q]. *)
Definition repr_char (q : ascii) (c : ascii) : string :=
  let n := code c in
  if (n =? 92) || Ascii.eqb c q then bs ++ String c ""
  else if n =? 10 then bs ++ "n"
  else if n =? 13 then bs ++ "r"
  else if n =? 9 then bs ++ "t"
  else if (n <? 32) || ((127 <=? n) && (n <=? 160)) || (n =? 173)
  then bs ++ "x" ++ hex2 n
  else String c "".

Fixpoint repr_chars (q : ascii) (s : string) : string :=
  match s with
  | String c s' => repr_char q c ++ repr_chars q s'
  | EmptyString => ""
  end.

Definition repr_str (s : string) : string :=
  if Str.contains sq s && negb (Str.contains dq s)
  then dq ++ repr_chars (chr 34) s ++ dq
  else sq ++ repr_chars (chr 39) s ++ sq.

Fixpoint mini_repr (v : pyval) : string :=
  match v with
  | PNone => "None"
  | PBool true => "True"
  | PBool false => "False"
  | PInt z => pretty z
  | PFloat f => float_text "nan" "inf" f
  | PStr s => repr_str s
  | PList l => "[" ++ join ", " (map mini_repr l) ++ "]"
  | PDict d =>
      "{" ++ join ", "
               (map_fold (fun k x acc => (repr_str k ++ ": " ++ mini_repr x) :: acc) [] d)
          ++ "}"
  end.

(** *** Reading numbers *)

Fixpoint all_digits (cs : list ascii) : bool :=
  match cs with
  | c :: cs' => is_digit c && all_digits cs'
  | [] => true
  end.

Definition read_decimal (cs : list ascii) : option Z :=
  match cs with
  | [] => None
  | _ :: _ => if all_digits cs then Some (read_digits cs 0).1 else None
  end.

Definition mini_int_of_str (s : string) : result Z :=
  let cs := list_ascii_of_string (Str.strip s) in
  let r :=
    match cs with
    | c :: cs' =>
        if code c =? 45 then Z.opp <$> read_decimal cs'
        else if code c =? 43 then read_decimal cs'
        else read_decimal cs
    | [] => None
    end in
  match r with
  | Some z => Ok z
  | None => Raise ValueError
  end.

Definition mini_float_of_str (s : string) : result pyfloat :=
  let t := Str.lower (Str.strip s) in
  if String.eqb t "nan" then Ok FNaN
  else if String.eqb t "inf" || String.eqb t "infinity" then Ok (FInf false)
  else if String.eqb t "-inf" || String.eqb t "-infinity" then Ok (FInf true)
  else match mini_int_of_str s with
       | Ok z => Ok (FFinite z 0)
       | Raise e => Raise e
       end.

(** *** Files and exceptions *)

(** A file system holding the two prompt files. *)
Definition mini_read_text (path : string) : result string :=
  if String.eqb path "prompts/ct_extraction_prompt.txt" then Ok "Extract the CT fields."
  else if String.eqb path "prompts/pet_extraction_prompt.txt" then Ok "Extract the PET fields."
  else Raise (OSError path).

Definition mini_exn_str (e : exn) : string :=
  match e with
  | AttributeError => "object has no such attribute"
  | TypeError => "unsupported type"
  | ValueError => "invalid value"
  | OverflowError => "cannot convert float infinity to integer"
  | RuntimeError msg => msg
  | JSONDecodeError _ => "Expecting value"
  | OSError path => "No such file or directory: " ++ path
  | ApiError msg => msg
  end.

#[export] Instance mini_runtime : Runtime := {|
  json_loads := mini_loads;
  json_dumps := mini_dumps;
  py_repr := mini_repr;
  int_of_str := mini_int_of_str;
  float_of_str := mini_float_of_str;
  float_of_int := fun z => FFinite z 0;
  read_text := mini_read_text;
  exn_str := mini_exn_str;
|}.

End Mini.

(** ** The rules in the words of the specification *)

Module Spec.
Section Defs.
Context `{Runtime}.

(** The seven rules of the selection engine after the extraction-error
    guard, each with the reason recorded when it fails: [(failed, name)] in
    the order of the specification.  [chest], [reason_allowed] and
    [dx_allowed] are the outcomes of the region test and of the two
    allow-list tests. *)
Definition rules (ct pet : gmap string pyval) (chest reason_allowed dx_allowed : bool)
  : list (bool * string) :=
  [ (negb chest, "ct_not_chest");
    (negb (String.eqb
             (Str.lower (Str.strip (py_str (map_get ct "CT_Contrast_Agent" (PStr "")))))
             "none"),
     "ct_contrast_present");
    (negb (truthy (map_get ct "Lung_Nodules" (PList []))), "no_lung_nodules");
    (negb reason_allowed, "pet_reason_not_indeterminate_nodule");
    (negb dx_allowed, "pet_primary_dx_not_allowed");
    (negb (Selection._list_empty (map_get pet "Lymph_Nodes_Hypermetabolic_Regions" (PList []))),
     "pet_lymph_hypermetabolic");
    (negb (Selection._list_empty (map_get pet "Other_Hypermetabolic_Regions" (PList []))),
     "pet_other_hypermetabolic") ].

(** The names of the failing rules, in order. *)
Definition failing (rs : list (bool * string)) : list string :=
  snd <$> filter (fun r => r.1 = true) rs.

(** Position [i] holds the first (the last) occurrence of the character
    [c] in [s]; [c] occurs in [s]. *)
Definition first_index (c : ascii) (s : string) (i : nat) : Prop :=
  String.get i s = Some c /\ forall k, (k < i)%nat -> String.get k s <> Some c.

Definition last_index (c : ascii) (s : string) (j : nat) : Prop :=
  String.get j s = Some c /\ forall k, (j < k)%nat -> String.get k s <> Some c.

Definition occurs (c : ascii) (s : string) : Prop :=
  exists k, String.get k s = Some c.

(** One attempt of [_extract_with_retry]: the API call made as call number
    [n] and the parse of its text. *)
Definition attempt_result (client : Llm.Client) (req : Llm.Request) (n : nat)
  : result pyval :=
  text <-? client n req; Llm._parse_json text.

(** The sleeps between the first [k + 1] attempts: 2, 4, ..., [2 ^ k]. *)
Definition backoff (k : nat) : list Z :=
  (fun i => 2 ^ (1 + Z.of_nat i)) <$> seq 0 k.

(** The keys observed across a list of extraction results. *)
Definition found (results : list (gmap string pyval)) : gset string :=
  ⋃ (dom <$> results).

(** The flattened column of [key]: every result's value, normalised, a
    missing one becoming the empty string. *)
Definition flat_column (key : string) (results : list (gmap string pyval))
  : list pyval :=
  (fun d => Extraction._normalize_json_value (map_get d key PNone)) <$> results.

(** The columns of the table before flattening. *)
Definition base_cols (df : DataFrame) : list string :=
  add_col (add_col (add_col (df_cols df) "ct_json") "pet_json") "extraction_error".

(** The keys of the flattened columns: the expected keys found, in their
    order, then the other keys found, sorted. *)
Definition ordered (results : list (gmap string pyval)) (expected : list string)
  : list string :=
  (filter (fun key => key ∈ found results) expected
   ++ merge_sort String.le (filter (fun key => key ∉ expected) (elements (found results))))%list.

(** The table after the columns of [keys] are assigned in turn. *)
Definition flat_all (prefix : string) (keys : list string)
    (results : list (gmap string pyval)) (df : DataFrame) : DataFrame :=
  foldl (fun df key => set_column df (prefix ++ key)%string (flat_column key results))
    df keys.

(** The table with the three result columns attached. *)
Definition with_results (df : DataFrame) (entries : list Extraction.Entry) : DataFrame :=
  set_column
    (set_column
       (set_column df "ct_json"
          ((fun x => PStr (json_dumps x)) <$> (Extraction.e_ct <$> entries)))
       "pet_json" ((fun x => PStr (json_dumps x)) <$> (Extraction.e_pet <$> entries)))
    "extraction_error" (PStr <$> (Extraction.e_error <$> entries)).

(** The returned table in closed form, for results that are mappings. *)
Definition table_of (df : DataFrame) (entries : list Extraction.Entry)
    (cts pets : list (gmap string pyval)) : DataFrame :=
  flat_all "pet_" (ordered pets Extraction._EXPECTED_PET_KEYS) pets
    (flat_all "ct_" (ordered cts Extraction._EXPECTED_CT_KEYS) cts
       (with_results df entries)).

(** The outcome of a task is well typed: an exception, or two mappings,
    neither with a key [json]. *)
Definition outcome_typed (outcome : result (pyval * pyval)) : bool :=
  match outcome with
  | Ok (PDict ct, PDict pet) =>
      negb (bool_decide ("json" ∈ dom ct)) && negb (bool_decide ("json" ∈ dom pet))
  | Ok _ => false
  | Raise _ => true
  end.

(** [keys] lists the expected keys that were found, in their fixed order,
    and then all the other keys found, sorted. *)
Definition keys_in_order (found : gset string) (expected keys : list string) : Prop :=
  exists extras,
    keys = (filter (fun key => key ∈ found) expected ++ extras)%list
    /\ Sorted String.le extras
    /\ NoDup extras
    /\ forall key, key ∈ extras <-> key ∈ found /\ key ∉ expected.

(** The column of [key] is materialised across all rows: the row of every
    result has in it the normalised value of the key, or the empty string
    when the result lacks the key. *)
Definition materialized (out : DataFrame) (prefix key : string)
    (results : list (gmap string pyval)) : Prop :=
  forall i d, results !! i = Some d ->
    Frame.cell out i (prefix ++ key)%string
    = Some match d !! key with
           | Some v => Extraction._normalize_json_value v
           | None => PStr ""
           end.

(** The two mappings of a well-typed outcome; a failed task counts for two
    empty ones. *)
Definition ct_of (outcome : result (pyval * pyval)) : gmap string pyval :=
  match outcome with
  | Ok (PDict ct, _) => ct
  | _ => ∅
  end.

Definition pet_of (outcome : result (pyval * pyval)) : gmap string pyval :=
  match outcome with
  | Ok (_, PDict pet) => pet
  | _ => ∅
  end.

(** The results attached by a run, in the order in which they are
    attached: the gathered entries sorted by index label. *)
Definition attached (api : nat -> Llm.Client) (completed : list nat)
    (df : DataFrame) (cfg : Config) (ct_prompt_path pet_prompt_path : string)
    (max_rows : option Z) : result (list Extraction.Entry) :=
  ct_prompt <-? Llm._load_prompt ct_prompt_path;
  pet_prompt <-? Llm._load_prompt pet_prompt_path;
  Ok (Extraction.sorted_by Extraction.e_idx
        (Extraction.gather
           (Extraction.submit_all api ct_prompt pet_prompt cfg
              (Extraction.truncate max_rows df))
           completed)).

(** A findings field is empty, as the specification words it: absent, the
    empty string, an empty list, or a string that parses to an empty list. *)
Definition empty_as_specified (field : option pyval) : Prop :=
  field = None \/ field = Some PNone \/ field = Some (PStr "")
  \/ field = Some (PList [])
  \/ exists s, field = Some (PStr s) /\ json_loads s = Some (PList []).

(** A findings field is empty, as the code decides it: the empty string is
    not, since it does not parse. *)
Definition findings_empty (field : option pyval) : Prop :=
  field = None \/ field = Some PNone \/ field = Some (PList [])
  \/ exists s, field = Some (PStr s) /\ json_loads s = Some (PList []).

(** The rows that a run processes, in the words of the specification: the
    first [n] rows for a positive [max_rows = n], every row for zero and
    for [None]. *)
Definition kept_rows {A : Type} (max_rows : option Z) (rows : list A) : list A :=
  match max_rows with
  | Some n => if 0 <? n then take (Z.to_nat n) rows else rows
  | None => rows
  end.

(** One extraction task per row, in row order: the task of the row at
    position [p], under that row's index label, is the extraction of its
    two reports against the API as that task sees it. *)
Definition tasks_of (api : nat -> Llm.Client) (ct_prompt pet_prompt : string)
    (cfg : Config) (rows : list (Z * gmap string pyval))
  : list (Z * result (pyval * pyval)) :=
  imap (fun p r => (r.1, Extraction.future_result (api p) ct_prompt pet_prompt cfg r.2))
    rows.

End Defs.
End Spec.

(** ** Example inputs *)

Module Examples.
Import Mini.

Definition cfg0 : Config :=
  {| cfg_paths := {[ "prompts_dir" := PStr "prompts" ]};
     cfg_bigquery := ∅;
     cfg_selection := ∅;
     cfg_llm := {[ "api_key" := PStr "sk-test" ]} |}.

(** The extraction of a chest CT without contrast showing one nodule. *)
Definition ct_good : gmap string pyval :=
  {[ "CT_Regions" := PList [PStr "Chest"; PStr "Abdomen"];
     "CT_Contrast_Agent" := PStr "None";
     "Lung_Nodules" := PList [PDict {[ "size_mm" := PStr "8" ]}] ]}.

(** The extraction of a PET study of an indeterminate nodule without other
    findings. *)
Definition pet_good : gmap string pyval :=
  {[ "Clinical_Reason" := PStr "Indeterminate Pulmonary Nodule";
     "Primary_Diagnosis" := PStr "No Cancer";
     "Lymph_Nodes_Hypermetabolic_Regions" := PList [];
     "Other_Hypermetabolic_Regions" := PList [] ]}.

Definition row_of (ct pet : pyval) (error : pyval) : Selection.Row :=
  {[ "ct_json" := ct; "pet_json" := pet; "extraction_error" := error ]}.

Definition row_good : Selection.Row :=
  row_of (PDict ct_good) (PDict pet_good) (PStr "").

(** No nodule on CT and a hypermetabolic lymph node on PET. *)
Definition row_two_failures : Selection.Row :=
  row_of (PDict (<[ "Lung_Nodules" := PList [] ]> ct_good))
         (PDict (<[ "Lymph_Nodes_Hypermetabolic_Regions" :=
                      PList [PDict {[ "size_mm" := PStr "5" ]}] ]> pet_good))
         (PStr "").

(** The lymph-node findings are the empty string. *)
Definition row_lymph_empty_string : Selection.Row :=
  row_of (PDict ct_good)
         (PDict (<[ "Lymph_Nodes_Hypermetabolic_Regions" := PStr "" ]> pet_good))
         (PStr "").

(** A failed extraction. *)
Definition row_failed : Selection.Row :=
  row_of (PStr "{}") (PStr "{}") (PStr "Connection error.").

(** The CT cell holds a JSON list, not an object. *)
Definition row_ct_list : Selection.Row :=
  row_of (PStr "[]") (PDict pet_good) (PStr "").

(** The CT regions hold a number. *)
Definition row_region_number : Selection.Row :=
  row_of (PDict (<[ "CT_Regions" := PList [PInt 1] ]> ct_good)) (PDict pet_good) (PStr "").

(** The clinical reason is a list. *)
Definition row_reason_list : Selection.Row :=
  row_of (PDict ct_good) (PDict (<[ "Clinical_Reason" := PList [] ]> pet_good)) (PStr "").

(** The CT cell is not JSON at all. *)
Definition row_ct_malformed : Selection.Row :=
  row_of (PStr "{not json") (PDict pet_good) (PStr "").

(** An API that fails twice and then answers with an empty JSON object
    wrapped in prose. *)
Definition client_flaky : Llm.Client :=
  fun n _ => if (n <? 2)%nat then Raise (ApiError "Request timed out.")
             else Ok "Here is the result: {} Done.".

(** An API that is down. *)
Definition client_down : Llm.Client :=
  fun n _ => Raise (ApiError ("Connection error, call " ++ pretty n)).

Definition world0 : Llm.World := {| Llm.api_calls := 0; Llm.slept := [] |}.

(** An API that answers every request with a JSON object repeating the
    report it was sent. *)
Definition client_echo : Llm.Client :=
  fun _ req => Ok (mini_dumps (PDict {[ "Seen" := PStr (Llm.req_report req) ]})).

(** Every task sees the echoing API; the task at position 1 sees an API
    that is down. *)
Definition api_echo : nat -> Llm.Client := fun _ => client_echo.

Definition api_second_down : nat -> Llm.Client :=
  fun p => if (p =? 1)%nat then client_down else client_echo.

Definition pair_row (patient ct_report pt_report : string) : gmap string pyval :=
  {[ "patient_id" := PStr patient;
     "ct_study_uid" := PStr ("ct-" ++ patient);
     "pt_study_uid" := PStr ("pt-" ++ patient);
     "ct_report" := PStr ct_report;
     "pt_report" := PStr pt_report ]}.

Definition pair_cols : list string :=
  ["patient_id"; "ct_study_uid"; "pt_study_uid"; "ct_report"; "pt_report"].

(** Three candidate pairs under the default index 0, 1, 2. *)
Definition df_three : DataFrame :=
  {| df_cols := pair_cols;
     df_rows := [ (0, pair_row "a" "CT of a" "PET of a");
                  (1, pair_row "b" "CT of b" "PET of b");
                  (2, pair_row "c" "CT of c" "PET of c") ] |}.

(** Two candidate pairs whose index labels are not increasing, as after
    sorting a table by another column. *)
Definition df_swapped : DataFrame :=
  {| df_cols := pair_cols;
     df_rows := [ (1, pair_row "a" "CT of a" "PET of a");
                  (0, pair_row "b" "CT of b" "PET of b") ] |}.

(** Two candidate pairs under the same index label, as after
    concatenating two tables. *)
Definition df_duplicate : DataFrame :=
  {| df_cols := pair_cols;
     df_rows := [ (0, pair_row "a" "CT of a" "PET of a");
                  (0, pair_row "b" "CT of b" "PET of b") ] |}.

Definition ct_path : string := "prompts/ct_extraction_prompt.txt".
Definition pet_path : string := "prompts/pet_extraction_prompt.txt".

(** The table and the files of a run, empty when the run raised. *)
Definition table_of_run (r : result (DataFrame * list Extraction.Written)) : DataFrame :=
  match r with
  | Ok (out, _) => out
  | Raise _ => {| df_cols := []; df_rows := [] |}
  end.

Definition files_of_run (r : result (DataFrame * list Extraction.Written))
  : list Extraction.Written :=
  match r with
  | Ok (_, files) => files
  | Raise _ => []
  end.

(** The run over the three pairs, the third task completing first. *)
Definition run_three : result (DataFrame * list Extraction.Written) :=
  Extraction.run_extraction api_echo [2; 0; 1]%nat df_three cfg0
    ct_path pet_path "out" None.

Definition table_three : DataFrame := table_of_run run_three.
Definition files_three : list Extraction.Written := files_of_run run_three.

(** The runs over the two pairs with swapped labels and over the two pairs
    with one label; [completed] is the order of completion. *)
Definition run_swapped (completed : list nat)
  : result (DataFrame * list Extraction.Written) :=
  Extraction.run_extraction api_echo completed df_swapped cfg0 ct_path pet_path "out" None.

Definition run_duplicate (completed : list nat)
  : result (DataFrame * list Extraction.Written) :=
  Extraction.run_extraction api_echo completed df_duplicate cfg0 ct_path pet_path "out" None.

(** A row read back from a CSV file: the empty error cell is NaN. *)
Definition row_nan_error : Selection.Row :=
  row_of (PDict ct_good) (PDict pet_good) (PFloat FNaN).

(** No nodule on CT, and a clinical reason that is a list. *)
Definition row_nodules_reason_list : Selection.Row :=
  row_of (PDict (<[ "Lung_Nodules" := PList [] ]> ct_good))
         (PDict (<[ "Clinical_Reason" := PList [] ]> pet_good)) (PStr "").

(** The task at position 1 sees an API that is down, the task at position
    0 an API that answers with a JSON array. *)
Definition api_down_beside_array : nat -> Llm.Client :=
  fun p => if (p =? 1)%nat then client_down
           else if (p =? 0)%nat then fun _ _ => Ok "[1, 2]"
           else client_echo.

(** The task at position 1 sees an API that is down, the others an API
    that answers with an object whose one key is [json]. *)
Definition api_down_beside_json_key : nat -> Llm.Client :=
  fun p => if (p =? 1)%nat then client_down
           else fun _ _ => Ok (mini_dumps (PDict {[ "json" := PStr "x" ]})).

(** An API whose answers carry the key [report] beside an expected key. *)
Definition api_report : nat -> Llm.Client :=
  fun _ _ _ => Ok (mini_dumps (PDict {[ "report" := PStr "summary";
                                        "CT_Regions" := PList [] ]})).

End Examples.

(** ** Selection over a table ([selection.py], [apply_selection]) *)

Module Audit.
Section Defs.
Context `{Runtime}.

Definition audit_cols : list string :=
  ["pt_study_uid"; "ct_study_uid"; "patient_id"; "selected"; "reasons"].

(** The record appended to [audit_rows] for one row. *)
Definition audit_entry (row : Selection.Row) (include : bool) (reasons : list string)
  : gmap string pyval :=
  {[ "pt_study_uid" := Selection.row_get row "pt_study_uid";
     "ct_study_uid" := Selection.row_get row "ct_study_uid";
     "patient_id" := Selection.row_get row "patient_id";
     "selected" := PBool include;
     "reasons" := PStr (Mini.join ";" reasons) ]}.

(** The loop [for _, row in df.iterrows()] over the rows still to come,
    with the two lists built so far. *)
Fixpoint select_loop (rows : list (Z * gmap string pyval)) (cfg : Config)
    (selected_rows : list (Z * gmap string pyval))
    (audit_rows : list (gmap string pyval))
  : result (list (Z * gmap string pyval) * list (gmap string pyval)) :=
  match rows with
  | [] => Ok (selected_rows, audit_rows)
  | (idx, row) :: rest =>
      r <-? Selection.evaluate_row row cfg;
      let '(include, reasons) := r in
      let audit_rows := append audit_rows (audit_entry row include reasons) in
      let selected_rows :=
        if include then append selected_rows (idx, row) else selected_rows in
      select_loop rest cfg selected_rows audit_rows
  end.

(** [pd.DataFrame(rows)] for rows drawn from a table with the columns
    [cols]: each row keeps its index label; an empty list gives a table
    without columns. *)
Definition frame_of_series (cols : list string) (rows : list (Z * gmap string pyval))
  : DataFrame :=
  {| df_cols := match rows with [] => [] | _ :: _ => cols end;
     df_rows := rows |}.

(** [pd.DataFrame(records)] for records with the keys [cols]: the index
    counts from 0; an empty list gives a table without columns. *)
Definition frame_of_records (cols : list string) (records : list (gmap string pyval))
  : DataFrame :=
  {| df_cols := match records with [] => [] | _ :: _ => cols end;
     df_rows := imap (fun i record => (Z.of_nat i, record)) records |}.

Definition apply_selection (df : DataFrame) (cfg : Config)
  : result (DataFrame * DataFrame) :=
  r <-? select_loop (df_rows df) cfg [] [];
  let '(selected_rows, audit_rows) := r in
  let selected_df := frame_of_series (df_cols df) selected_rows in
  let audit_df := frame_of_records audit_cols audit_rows in
  Ok (selected_df, audit_df).

(** The audit record of a row that [evaluate_row] classifies. *)
Definition audit_of (cfg : Config) (r : Z * gmap string pyval) : gmap string pyval :=
  match Selection.evaluate_row r.2 cfg with
  | Ok (include, reasons) => audit_entry r.2 include reasons
  | Raise _ => ∅
  end.

(** The row passes the selection. *)
Definition passes (cfg : Config) (r : Z * gmap string pyval) : bool :=
  match Selection.evaluate_row r.2 cfg with
  | Ok (include, _) => include
  | Raise _ => false
  end.

End Defs.
End Audit.

(** ** Extraction followed by selection ([cli.py], [run])

    The part of the [run] command between the candidate query and the
    files it writes: [run_extraction] on the candidate table and
    [apply_selection] on the table it returns, held in memory. *)

Module Pipeline.
Section Defs.
Context `{Runtime}.

Definition extract_then_select (api : nat -> Llm.Client) (completed : list nat)
    (df : DataFrame) (cfg : Config)
    (ct_prompt pet_prompt output_dir : string) (max_rows : option Z)
  : result (DataFrame * DataFrame * DataFrame) :=
  r <-? Extraction.run_extraction api completed df cfg ct_prompt pet_prompt
          output_dir max_rows;
  let extracted_df := r.1 in
  s <-? Audit.apply_selection extracted_df cfg;
  Ok (extracted_df, s.1, s.2).


End Defs.
End Pipeline.

(** ** Further notions about the extraction engine *)

Module Cells.

(** A value a flattened cell can hold: not [None], not a list, not a
    dict. *)
Definition scalar (v : pyval) : bool :=
  match v with
  | PNone | PList _ | PDict _ => false
  | _ => true
  end.

(** The outcome of a task holds mappings: two dicts, or an exception. *)
Definition mappings (outcome : result (pyval * pyval)) : bool :=
  match outcome with
  | Ok (ct, pet) => is_dict ct && is_dict pet
  | Raise _ => true
  end.

(** The text of a cell that holds a string. *)
Definition text_of (row : gmap string pyval) (name : string) : string :=
  match row !! name with
  | Some (PStr s) => s
  | _ => ""
  end.

(** The two files written for one row of the returned table. *)
Definition files_of_row `{Runtime} (ct_out_dir pet_out_dir : string)
    (row : gmap string pyval) : list Extraction.Written :=
  [ {| Extraction.w_dir := ct_out_dir;
       Extraction.w_name :=
         (py_str (map_get row "ct_study_uid" (PStr "unknown")) ++ ".json")%string;
       Extraction.w_text := text_of row "ct_json" |};
    {| Extraction.w_dir := pet_out_dir;
       Extraction.w_name :=
         (py_str (map_get row "pt_study_uid" (PStr "unknown")) ++ ".json")%string;
       Extraction.w_text := text_of row "pet_json" |} ].

End Cells.

(** ** Environment overrides ([config.py], [_apply_env_overrides]) *)

Module Env.

(** The process environment: [os.getenv(name)] is [None] for a variable
    that is not set. *)
Definition Environ : Type := gmap string string.

(** [cfg.setdefault(section, {})[key] = value]: the section is created when
    it is missing; a section that is not a mapping cannot take the key. *)
Definition section_set (cfg : gmap string pyval) (section key : string)
    (value : pyval) : result (gmap string pyval) :=
  match cfg !! section with
  | None => Ok (<[section := PDict {[ key := value ]}]> cfg)
  | Some (PDict d) => Ok (<[section := PDict (<[key := value]> d)]> cfg)
  | Some _ => Raise TypeError
  end.

(** One override: [value = os.getenv(name); if value: ...]. *)
Definition override (env : Environ) (name section key : string)
    (cfg : gmap string pyval) : result (gmap string pyval) :=
  match env !! name with
  | Some value =>
      if negb (String.eqb value "") then section_set cfg section key (PStr value)
      else Ok cfg
  | None => Ok cfg
  end.

Definition _apply_env_overrides (env : Environ) (cfg : gmap string pyval)
  : result (gmap string pyval) :=
  cfg <-? override env "BQ_PROJECT" "bigquery" "project" cfg;
  cfg <-? override env "GOOGLE_APPLICATION_CREDENTIALS" "bigquery" "credentials" cfg;
  override env "OPENAI_API_KEY" "llm" "api_key" cfg.

(** [cfg[section][key]] read the way the modules read it:
    [cfg.get(section, {}).get(key)]. *)
Definition setting (cfg : gmap string pyval) (section key : string) : option pyval :=
  match cfg !! section with
  | Some (PDict d) => d !! key
  | _ => None
  end.

(** The variables read, each with the section and the key it overrides. *)
Definition overrides : list (string * string * string) :=
  [ ("BQ_PROJECT", "bigquery", "project");
    ("GOOGLE_APPLICATION_CREDENTIALS", "bigquery", "credentials");
    ("OPENAI_API_KEY", "llm", "api_key") ].

(** The variable is set to a non-empty string. *)
Definition is_set (env : Environ) (name : string) : bool :=
  match env !! name with
  | Some value => negb (String.eqb value "")
  | None => false
  end.

(** The section can take an item: it is missing, or a mapping. *)
Definition writable (cfg : gmap string pyval) (section : string) : bool :=
  match cfg !! section with
  | None | Some (PDict _) => true
  | Some _ => false
  end.

End Env.

(** ** More concrete data *)

Module MoreExamples.
Import Examples Mini.

(** A row of an extracted table, its two results serialised. *)
Definition extracted_row (patient : string) (ct pet : gmap string pyval)
    (error : string) : gmap string pyval :=
  {[ "patient_id" := PStr patient;
     "ct_study_uid" := PStr ("ct-" ++ patient);
     "pt_study_uid" := PStr ("pt-" ++ patient);
     "ct_json" := PStr (mini_dumps (PDict ct));
     "pet_json" := PStr (mini_dumps (PDict pet));
     "extraction_error" := PStr error ]}.

Definition extracted_cols : list string :=
  ["patient_id"; "ct_study_uid"; "pt_study_uid"; "ct_json"; "pet_json";
   "extraction_error"].

(** An extracted table under the index labels 10, 11, 12: a pair that
    passes, a pair without nodules, and a pair whose extraction failed. *)
Definition df_extracted : DataFrame :=
  {| df_cols := extracted_cols;
     df_rows := [ (10, extracted_row "a" ct_good pet_good "");
                  (11, extracted_row "b" (<[ "Lung_Nodules" := PList [] ]> ct_good)
                         pet_good "");
                  (12, extracted_row "c" ∅ ∅ "Request timed out.") ] |}.

(** An extracted table in which no pair passes. *)
Definition df_rejected : DataFrame :=
  {| df_cols := extracted_cols;
     df_rows := [ (0, extracted_row "c" ∅ ∅ "Request timed out.") ] |}.

(** The two tables of a selection, empty when it raised. *)
Definition selected_of (r : result (DataFrame * DataFrame)) : DataFrame :=
  match r with
  | Ok (selected, _) => selected
  | Raise _ => {| df_cols := []; df_rows := [] |}
  end.

Definition audit_table_of (r : result (DataFrame * DataFrame)) : DataFrame :=
  match r with
  | Ok (_, audit) => audit
  | Raise _ => {| df_cols := []; df_rows := [] |}
  end.

Definition selection_extracted : result (DataFrame * DataFrame) :=
  Audit.apply_selection df_extracted cfg0.

Definition selection_rejected : result (DataFrame * DataFrame) :=
  Audit.apply_selection df_rejected cfg0.

(** A configuration that allows no attempt. *)
Definition cfg_no_retry : Config :=
  {| cfg_paths := ∅; cfg_bigquery := ∅; cfg_selection := ∅;
     cfg_llm := {[ "api_key" := PStr "sk-test"; "retries" := PInt 0 ]} |}.

(** An API that answers its first call and refuses every later one. *)
Definition client_once : Llm.Client :=
  fun n _ => if (n =? 0)%nat then Ok "{}" else Raise (ApiError "Rate limit reached.").

(** An API that answers with a JSON array. *)
Definition client_array : Llm.Client := fun _ _ => Ok "[1, 2]".

Definition api_second_array : nat -> Llm.Client :=
  fun p => if (p =? 1)%nat then client_array else client_echo.

(** An API that answers the CT prompt with [ct_good] and any other prompt
    with [pet_good]. *)
Definition client_good : Llm.Client :=
  fun _ req =>
    if String.eqb (Llm.req_prompt req) "Extract the CT fields."
    then Ok (mini_dumps (PDict ct_good))
    else Ok (mini_dumps (PDict pet_good)).

Definition api_good_second_down : nat -> Llm.Client :=
  fun p => if (p =? 1)%nat then client_down else client_good.

Definition df_empty : DataFrame := {| df_cols := pair_cols; df_rows := [] |}.

(** The whole run over the three pairs, the second of which fails. *)
Definition pipeline_three : result (DataFrame * DataFrame * DataFrame) :=
  Pipeline.extract_then_select api_good_second_down [2; 0; 1]%nat df_three cfg0
    ct_path pet_path "out" None.

Definition extracted_three : DataFrame :=
  match pipeline_three with
  | Ok (extracted, _, _) => extracted
  | Raise _ => {| df_cols := []; df_rows := [] |}
  end.

Definition selected_three : DataFrame :=
  match pipeline_three with
  | Ok (_, selected, _) => selected
  | Raise _ => {| df_cols := []; df_rows := [] |}
  end.

Definition audit_three : DataFrame :=
  match pipeline_three with
  | Ok (_, _, audit) => audit
  | Raise _ => {| df_cols := []; df_rows := [] |}
  end.

(** A configuration as read from a file, and an environment that sets the
    API key and leaves the project empty. *)
Definition cfg_file : gmap string pyval :=
  {[ "paths" := PDict {[ "prompts_dir" := PStr "prompts" ]};
     "bigquery" := PDict {[ "project" := PStr "radiology-dev" ]};
     "llm" := PDict {[ "api_key" := PStr "sk-file"; "model" := PStr "gpt-5.2" ]} ]}.

Definition env_key : Env.Environ :=
  {[ "OPENAI_API_KEY" := "sk-env"; "BQ_PROJECT" := "" ]}.

Definition cfg_overridden : gmap string pyval :=
  match Env._apply_env_overrides env_key cfg_file with
  | Ok cfg => cfg
  | Raise _ => ∅
  end.

End MoreExamples.

(** * Properties *)

(** ** Selection engine *)

Section SelectionProps.
Context `{Runtime}.
Import Selection.

Lemma truthy_nonempty_string (s : string) : s <> "" -> truthy (PStr s) = true.
Proof.
  intros Hs. simpl. destruct (String.eqb_spec s ""); [contradiction | reflexivity].
Qed.

Lemma truthy_nan : truthy (PFloat FNaN) = true.
Proof. reflexivity. Qed.

(** The guard at the head of [evaluate_row]. *)
Lemma evaluate_row_guard (row : Row) (cfg : Config) :
  truthy (row_get row "extraction_error") = true ->
  evaluate_row row cfg = Ok (false, ["extraction_error"]).
Proof.
  intros Herr. unfold evaluate_row. rewrite Herr. reflexivity.
Qed.

(** C3: a row whose [extraction_error] value is non-empty (it passes the
    truth test of [if], as every non-empty string does) is excluded with
    the reasons exactly [extraction_error]; the answer does not depend on
    any other cell of the row, so no other rule is evaluated. *)
Theorem evaluate_row_extraction_error (row : Row) (cfg : Config) :
  truthy (row_get row "extraction_error") = true ->
  evaluate_row row cfg = Ok (false, ["extraction_error"]).
Proof.
  intros Herr. unfold evaluate_row.
  destruct (truthy (row_get row "extraction_error")); [| discriminate Herr].
  reflexivity.
Qed.

Lemma eq_empty_list_falsy (v : pyval) :
  negb (truthy v) || eq_empty_list v = negb (truthy v).
Proof.
  destruct v as [|b|z|f|s|l|d]; simpl;
    try reflexivity; try apply orb_false_r.
  destruct l; reflexivity.
Qed.

Lemma rules_names_distinct ct pet chest reason_allowed dx_allowed :
  NoDup (snd <$> Spec.rules ct pet chest reason_allowed dx_allowed).
Proof. simpl. apply (bool_decide_unpack _). vm_compute. reflexivity. Qed.

Lemma elem_of_failing (rs : list (bool * string)) (failed : bool) (name : string) :
  NoDup (snd <$> rs) -> (failed, name) ∈ rs ->
  name ∈ Spec.failing rs <-> failed = true.
Proof.
  intros Hnd Hin. unfold Spec.failing. rewrite list_elem_of_fmap. split.
  - intros [[b n] [Hn Hf]]. apply list_elem_of_filter in Hf as [Hb Hbn].
    simpl in Hb, Hn. subst b n.
    destruct failed; [reflexivity | exfalso].
    revert Hnd Hin Hbn. clear. induction rs as [|[b' n'] rs IH]; intros Hnd Hin Hbn.
    + inversion Hin.
    + simpl in Hnd. apply NoDup_cons in Hnd as [Hnot Hnd].
      apply elem_of_cons in Hin as [Hin | Hin];
        apply elem_of_cons in Hbn as [Hbn | Hbn].
      * congruence.
      * inversion Hin; subst. apply Hnot. apply list_elem_of_fmap.
        eexists. split; [| eassumption]. reflexivity.
      * inversion Hbn; subst. apply Hnot. apply list_elem_of_fmap.
        eexists. split; [| eassumption]. reflexivity.
      * apply IH; assumption.
  - intros ->. exists (true, name). split; [reflexivity |].
    apply list_elem_of_filter. split; [reflexivity | assumption].
Qed.

Lemma failing_nil_iff (rs : list (bool * string)) :
  Spec.failing rs = [] <-> Forall (fun r => r.1 = false) rs.
Proof.
  unfold Spec.failing. induction rs as [|[b n] rs IH].
  - split; [constructor | reflexivity].
  - rewrite filter_cons. destruct (decide ((b, n).1 = true)) as [Hb | Hb];
      simpl in Hb.
    + subst b. rewrite fmap_cons. split; [discriminate |].
      intros Hall. apply Forall_cons in Hall as [Hb _]. discriminate.
    + destruct b; [congruence |]. rewrite IH. split.
      * intros Hall. constructor; [reflexivity | assumption].
      * intros Hall. apply Forall_cons in Hall as [_ Hall]. assumption.
Qed.

(** The run of [evaluate_row] past the guard, when nothing raises. *)
Lemma evaluate_row_rules (row : Row) (cfg : Config) (ct pet : gmap string pyval)
    (chest reason_allowed dx_allowed : bool) :
  truthy (row_get row "extraction_error") = false ->
  _parse_json_cell (row_get row "ct_json") = PDict ct ->
  _parse_json_cell (row_get row "pet_json") = PDict pet ->
  _contains_chest (map_get ct "CT_Regions" (PList [])) = Ok chest ->
  set_contains _ALLOWED_REASONS (map_get pet "Clinical_Reason" (PStr "")) = Ok reason_allowed ->
  set_contains _ALLOWED_DIAGNOSES (map_get pet "Primary_Diagnosis" (PStr "")) = Ok dx_allowed ->
  let reasons := Spec.failing (Spec.rules ct pet chest reason_allowed dx_allowed) in
  evaluate_row row cfg = Ok (Nat.eqb (length reasons) 0, reasons).
Proof.
  intros Herr Hct Hpet Hchest Hreason Hdx. unfold evaluate_row.
  rewrite Herr, Hct, Hpet. simpl. rewrite Hchest. simpl.
  rewrite Hreason. simpl. rewrite Hdx. simpl.
  rewrite eq_empty_list_falsy.
  clear Herr Hct Hpet Hchest Hreason Hdx.
  unfold Spec.failing, Spec.rules.
  destruct chest, reason_allowed, dx_allowed,
    (String.eqb _ "none"),
    (truthy (map_get ct "Lung_Nodules" (PList []))),
    (_list_empty (map_get pet "Lymph_Nodes_Hypermetabolic_Regions" (PList []))),
    (_list_empty (map_get pet "Other_Hypermetabolic_Regions" (PList [])));
    reflexivity.
Qed.

(** C1: on a row whose [extraction_error] cell is empty or absent (it fails
    the truth test), and on which no rule raises, [evaluate_row] evaluates
    all seven remaining rules: the returned reasons are the names of all
    the failing rules, in order, each rule's name being recorded exactly
    when that rule fails, and the verdict is [True] exactly when the list
    of reasons is empty, that is when every rule passes. *)
Theorem evaluate_row_records_every_failure (row : Row) (cfg : Config)
    (ct pet : gmap string pyval) (chest reason_allowed dx_allowed : bool) :
  truthy (row_get row "extraction_error") = false ->
  _parse_json_cell (row_get row "ct_json") = PDict ct ->
  _parse_json_cell (row_get row "pet_json") = PDict pet ->
  _contains_chest (map_get ct "CT_Regions" (PList [])) = Ok chest ->
  set_contains _ALLOWED_REASONS (map_get pet "Clinical_Reason" (PStr "")) = Ok reason_allowed ->
  set_contains _ALLOWED_DIAGNOSES (map_get pet "Primary_Diagnosis" (PStr "")) = Ok dx_allowed ->
  let rules := Spec.rules ct pet chest reason_allowed dx_allowed in
  exists (verdict : bool) (reasons : list string),
    evaluate_row row cfg = Ok (verdict, reasons)
    /\ reasons = Spec.failing rules
    /\ (forall failed name, (failed, name) ∈ rules ->
          (name ∈ reasons <-> failed = true))
    /\ (verdict = true <-> reasons = [])
    /\ (verdict = true <-> Forall (fun r => r.1 = false) rules).
Proof.
  intros Herr Hct Hpet Hchest Hreason Hdx rules.
  exists (Nat.eqb (length (Spec.failing rules)) 0), (Spec.failing rules).
  split; [by apply evaluate_row_rules |].
  split; [reflexivity |].
  split.
  { intros failed name Hin. apply elem_of_failing; [|assumption].
    apply rules_names_distinct. }
  assert (Hnil : Nat.eqb (length (Spec.failing rules)) 0 = true
                 <-> Spec.failing rules = []).
  { rewrite Nat.eqb_eq. split; [apply nil_length_inv | intros ->; reflexivity]. }
  split; [exact Hnil |].
  rewrite Hnil. apply failing_nil_iff.
Qed.

(** Every successful run past the guard is a run of the seven rules. *)
Lemma evaluate_row_ok_inv (row : Row) (cfg : Config) (verdict : bool)
    (reasons : list string) :
  truthy (row_get row "extraction_error") = false ->
  evaluate_row row cfg = Ok (verdict, reasons) ->
  exists ct pet chest reason_allowed dx_allowed,
    _parse_json_cell (row_get row "ct_json") = PDict ct
    /\ _parse_json_cell (row_get row "pet_json") = PDict pet
    /\ _contains_chest (map_get ct "CT_Regions" (PList [])) = Ok chest
    /\ set_contains _ALLOWED_REASONS (map_get pet "Clinical_Reason" (PStr ""))
        = Ok reason_allowed
    /\ set_contains _ALLOWED_DIAGNOSES (map_get pet "Primary_Diagnosis" (PStr ""))
        = Ok dx_allowed.
Proof.
  intros Herr Hrun. unfold evaluate_row in Hrun. rewrite Herr in Hrun.
  destruct (_parse_json_cell (row_get row "ct_json")) as [|b|z|f|s|l|ct];
    try discriminate Hrun.
  simpl in Hrun.
  destruct (_contains_chest (map_get ct "CT_Regions" (PList []))) as [chest|e] eqn:Hchest;
    [|discriminate Hrun].
  simpl in Hrun.
  destruct (_parse_json_cell (row_get row "pet_json")) as [|b|z|f|s|l|pet];
    try discriminate Hrun.
  simpl in Hrun.
  destruct (set_contains _ALLOWED_REASONS _) as [ra|e] eqn:Hra; [|discriminate Hrun].
  simpl in Hrun.
  destruct (set_contains _ALLOWED_DIAGNOSES _) as [da|e] eqn:Hda; [|discriminate Hrun].
  exists ct, pet, chest, ra, da. repeat split; assumption || reflexivity.
Qed.

Lemma list_empty_findings (pet : gmap string pyval) (key : string) :
  _list_empty (map_get pet key (PList [])) = true <-> Spec.findings_empty (pet !! key).
Proof.
  unfold map_get, Spec.findings_empty. destruct (pet !! key) as [v|]; simpl.
  2: { split; [intros _; left; reflexivity | reflexivity]. }
  destruct v as [|b|z|f|s|l|d]; simpl.
  - split; [intros _; right; left; reflexivity | reflexivity].
  - split; [discriminate | intros [?|[?|[?|(s & ? & _)]]]; congruence].
  - split; [discriminate | intros [?|[?|[?|(s & ? & _)]]]; congruence].
  - split; [discriminate | intros [?|[?|[?|(s & ? & _)]]]; congruence].
  - split.
    + destruct (json_loads s) as [[|b|z|f|s'|l|d]|] eqn:Hs; try discriminate.
      destruct l; [|discriminate]. intros _. right; right; right.
      exists s. split; [reflexivity | assumption].
    + intros [?|[?|[?|(s' & Heq & Hs)]]]; try congruence.
      injection Heq as ->. rewrite Hs. reflexivity.
  - destruct l as [|x l]; simpl.
    + split; [intros _; right; right; left; reflexivity | reflexivity].
    + split; [discriminate | intros [?|[?|[?|(s & ? & _)]]]; congruence].
  - split; [discriminate | intros [?|[?|[?|(s & ? & _)]]]; congruence].
Qed.

(** C2, amended: on a row without an extraction error that [evaluate_row]
    classifies, the lymph-node rule and the other-findings rule each pass
    (their reason is not recorded) exactly when the field is empty, where
    empty means absent, [None], an empty list, or a string that parses to
    an empty list; every other value, the empty string included, is
    non-empty and records the reason. *)
Theorem findings_rules_pass_iff_empty (row : Row) (cfg : Config) (verdict : bool)
    (reasons : list string) :
  truthy (row_get row "extraction_error") = false ->
  evaluate_row row cfg = Ok (verdict, reasons) ->
  exists pet,
    _parse_json_cell (row_get row "pet_json") = PDict pet
    /\ ("pet_lymph_hypermetabolic" ∉ reasons
        <-> Spec.findings_empty (pet !! "Lymph_Nodes_Hypermetabolic_Regions"))
    /\ ("pet_other_hypermetabolic" ∉ reasons
        <-> Spec.findings_empty (pet !! "Other_Hypermetabolic_Regions")).
Proof.
  intros Herr Hrun.
  destruct (evaluate_row_ok_inv _ _ _ _ Herr Hrun)
    as (ct & pet & chest & ra & da & Hct & Hpet & Hchest & Hra & Hda).
  rewrite (evaluate_row_rules _ _ _ _ _ _ _ Herr Hct Hpet Hchest Hra Hda) in Hrun.
  injection Hrun as _ <-.
  exists pet. split; [assumption |].
  pose proof (rules_names_distinct ct pet chest ra da) as Hnd.
  split.
  - rewrite <- list_empty_findings.
    rewrite (elem_of_failing _ _ _ Hnd
               ltac:(unfold Spec.rules; do 5 apply list_elem_of_further;
                     apply list_elem_of_here)).
    destruct (_list_empty _); simpl; split; congruence.
  - rewrite <- list_empty_findings.
    rewrite (elem_of_failing _ _ _ Hnd
               ltac:(unfold Spec.rules; do 6 apply list_elem_of_further;
                     apply list_elem_of_here)).
    destruct (_list_empty _); simpl; split; congruence.
Qed.

Lemma contains_chest_loop_strings (items : list pyval) :
  Forall (fun v => is_str v = true) items ->
  exists b, _contains_chest_loop items = Ok b.
Proof.
  induction 1 as [|v items Hv _ [b IH]]; simpl.
  - exists false. reflexivity.
  - destruct v; try discriminate Hv.
    destruct (Str.contains "chest" (Str.lower s)); eauto.
Qed.

Lemma set_contains_hashable (s : gset string) (v : pyval) :
  hashable v = true -> exists b, set_contains s v = Ok b.
Proof. destruct v; simpl; try discriminate; eauto. Qed.

Lemma parse_json_cell_malformed (v : pyval) :
  is_dict v = false -> json_loads (py_str v) = None ->
  _parse_json_cell v = PDict ∅.
Proof.
  intros Hd Hparse. destruct v; simpl in *; try discriminate Hd;
    try rewrite Hparse; reflexivity.
Qed.

(** C4, amended: [evaluate_row] raises nothing on a row whose [ct_json]
    and [pet_json] cells are absent, mappings, malformed text or text that
    parses to a JSON object (so that the cell is read as a mapping, a
    malformed cell as the empty one), whose [CT_Regions], when present, is
    a list of strings, and whose [Clinical_Reason] and [Primary_Diagnosis],
    when present, are hashable.  Malformed cells default to the empty
    mapping, whose fields are all absent. *)
Theorem evaluate_row_total_on_typed_rows (row : Row) (cfg : Config)
    (ct pet : gmap string pyval) (regions : list pyval) :
  _parse_json_cell (row_get row "ct_json") = PDict ct ->
  _parse_json_cell (row_get row "pet_json") = PDict pet ->
  map_get ct "CT_Regions" (PList []) = PList regions ->
  Forall (fun v => is_str v = true) regions ->
  hashable (map_get pet "Clinical_Reason" (PStr "")) = true ->
  hashable (map_get pet "Primary_Diagnosis" (PStr "")) = true ->
  (exists verdict reasons, evaluate_row row cfg = Ok (verdict, reasons))
  /\ (forall v, is_dict v = false -> json_loads (py_str v) = None ->
        _parse_json_cell v = PDict ∅).
Proof.
  intros Hct Hpet Hregions Hstr Hreason Hdx.
  split; [| exact parse_json_cell_malformed].
  destruct (truthy (row_get row "extraction_error")) eqn:Herr.
  - eexists _, _. by apply evaluate_row_guard.
  - destruct (contains_chest_loop_strings _ Hstr) as [chest Hchest].
    destruct (set_contains_hashable _ALLOWED_REASONS _ Hreason) as [ra Hra].
    destruct (set_contains_hashable _ALLOWED_DIAGNOSES _ Hdx) as [da Hda].
    eexists _, _. eapply evaluate_row_rules; try eassumption.
    unfold _contains_chest. rewrite Hregions. simpl. exact Hchest.
Qed.

End SelectionProps.

(** *** The selection engine on the example rows *)

Module SelectionExamples.
Import Examples Mini Selection.

(** A failed extraction is excluded with that reason alone. *)
Lemma failed_row_excluded :
  evaluate_row row_failed cfg0 = Ok (false, ["extraction_error"]).
Proof.
  apply (evaluate_row_extraction_error row_failed cfg0). reflexivity.
Defined.

(** Two rules fail at once and both reasons are recorded. *)
Lemma two_failures_recorded :
  exists verdict reasons,
    evaluate_row row_two_failures cfg0 = Ok (verdict, reasons)
    /\ reasons = ["no_lung_nodules"; "pet_lymph_hypermetabolic"]
    /\ verdict = false.
Proof.
  destruct (evaluate_row_records_every_failure row_two_failures cfg0
              (<[ "Lung_Nodules" := PList [] ]> ct_good)
              (<[ "Lymph_Nodes_Hypermetabolic_Regions" :=
                    PList [PDict {[ "size_mm" := PStr "5" ]}] ]> pet_good)
              true true true
              eq_refl eq_refl eq_refl eq_refl eq_refl eq_refl)
    as (verdict & reasons & Hrun & Hreasons & _ & Hverdict & _).
  exists verdict, reasons. split; [exact Hrun |].
  split; [rewrite Hreasons; reflexivity |].
  destruct verdict; [| reflexivity].
  destruct Hverdict as [Hnil _]. specialize (Hnil eq_refl).
  rewrite Hreasons in Hnil. discriminate Hnil.
Defined.

(** The row of the specification's first example is selected. *)
Lemma good_row_selected : evaluate_row row_good cfg0 = Ok (true, []).
Proof. reflexivity. Qed.

(** An empty string in the lymph-node field counts as empty in the words of
    the specification, and yet the rule fails on it. *)
Lemma empty_string_findings_fail :
  Spec.empty_as_specified
    (<[ "Lymph_Nodes_Hypermetabolic_Regions" := PStr "" ]> pet_good
       !! "Lymph_Nodes_Hypermetabolic_Regions")
  /\ truthy (row_get row_lymph_empty_string "extraction_error") = false
  /\ evaluate_row row_lymph_empty_string cfg0
     = Ok (false, ["pet_lymph_hypermetabolic"]).
Proof.
  split; [right; right; left; reflexivity |].
  split; reflexivity.
Qed.

(** On the good row both findings rules pass, the fields being empty lists. *)
Lemma good_row_findings_empty :
  exists pet,
    _parse_json_cell (row_get row_good "pet_json") = PDict pet
    /\ ("pet_lymph_hypermetabolic" ∉ ([] : list string)
        <-> Spec.findings_empty (pet !! "Lymph_Nodes_Hypermetabolic_Regions"))
    /\ ("pet_other_hypermetabolic" ∉ ([] : list string)
        <-> Spec.findings_empty (pet !! "Other_Hypermetabolic_Regions")).
Proof.
  exact (findings_rules_pass_iff_empty row_good cfg0 true [] eq_refl eq_refl).
Defined.

(** [evaluate_row] raises on a CT cell holding a JSON list, on a region that
    is a number and on a clinical reason that is a list. *)
Lemma evaluate_row_raises :
  evaluate_row row_ct_list cfg0 = Raise AttributeError
  /\ evaluate_row row_region_number cfg0 = Raise AttributeError
  /\ evaluate_row row_reason_list cfg0 = Raise TypeError.
Proof. repeat split; reflexivity. Qed.

(** The good row meets the typing conditions and is classified. *)
Lemma good_row_classified :
  (exists verdict reasons, evaluate_row row_good cfg0 = Ok (verdict, reasons))
  /\ (forall v, is_dict v = false -> json_loads (py_str v) = None ->
        _parse_json_cell v = PDict ∅).
Proof.
  apply (evaluate_row_total_on_typed_rows row_good cfg0 ct_good pet_good
           [PStr "Chest"; PStr "Abdomen"]);
    try reflexivity.
  repeat constructor.
Defined.

(** A malformed CT cell is read as the empty mapping: the row is classified,
    its CT rules failing. *)
Lemma malformed_cell_reasons :
  evaluate_row row_ct_malformed cfg0
  = Ok (false, ["ct_not_chest"; "ct_contrast_present"; "no_lung_nodules"]).
Proof. reflexivity. Qed.

(** An error cell read back from a CSV file as NaN passes the truth test:
    the row is excluded as a failed extraction. *)
Lemma nan_error_cell_excluded :
  evaluate_row row_nan_error cfg0 = Ok (false, ["extraction_error"]).
Proof. reflexivity. Qed.

(** Two rows whose error cell is empty and on which no reason is recorded
    for the rules: on the first, whose CT shows no nodule, the allow-list
    test of a list-valued clinical reason raises, and neither a verdict nor
    the reason [no_lung_nodules] is returned; the second, the good row read
    back from a CSV file, where the empty cell is NaN, is excluded as a
    failed extraction without any rule being evaluated, while the same
    results under an empty string are selected. *)
Lemma empty_error_rules_not_recorded :
  row_get row_nodules_reason_list "extraction_error" = PStr ""
  /\ evaluate_row row_nodules_reason_list cfg0 = Raise TypeError
  /\ row_get row_nan_error "extraction_error" = PFloat FNaN
  /\ evaluate_row row_nan_error cfg0 = Ok (false, ["extraction_error"])
  /\ evaluate_row row_good cfg0 = Ok (true, []).
Proof. repeat split; reflexivity. Qed.

End SelectionExamples.

(** ** Strings *)

Section StringFacts.

Lemma prefix_char (c : ascii) (s : string) :
  String.prefix (String c "") s = true <-> String.get 0 s = Some c.
Proof.
  destruct s as [|b s]; simpl; [split; discriminate |].
  destruct (ascii_dec c b) as [-> | Hne].
  - split; [reflexivity | intros _; destruct s; reflexivity].
  - split; [discriminate | intros [= ->]; contradiction].
Qed.

Lemma get_lt_length (s : string) (i : nat) (c : ascii) :
  String.get i s = Some c -> (i < String.length s)%nat.
Proof.
  revert i. induction s as [|b s IH]; intros i Hget; simpl in *; [discriminate |].
  destruct i; [lia |]. apply IH in Hget. lia.
Qed.

Lemma find_from_first (c : ascii) (s : string) (i : nat) (base : Z) :
  Spec.first_index c s i ->
  Str.find_from (String c "") s base = base + Z.of_nat i.
Proof.
  revert i base. induction s as [|b s IH]; intros i base [Hget Hbefore].
  - discriminate Hget.
  - cbn [Str.find_from].
    destruct (String.prefix (String c "") (String b s)) eqn:Hp.
    + apply prefix_char in Hp. destruct i; [lia |].
      exfalso. apply (Hbefore 0%nat); [lia | exact Hp].
    + destruct i as [|i].
      { apply prefix_char in Hget. congruence. }
      rewrite (IH i (base + 1)); [lia |].
      split; [exact Hget |].
      intros k Hk. apply (Hbefore (S k)). lia.
Qed.

Lemma find_from_absent (c : ascii) (s : string) (base : Z) :
  ~ Spec.occurs c s -> Str.find_from (String c "") s base = -1.
Proof.
  revert base. induction s as [|b s IH]; intros base Hno; [reflexivity |].
  cbn [Str.find_from].
  destruct (String.prefix (String c "") (String b s)) eqn:Hp.
  - apply prefix_char in Hp. exfalso. apply Hno. exists 0%nat. exact Hp.
  - apply IH. intros [k Hk]. apply Hno. exists (S k). exact Hk.
Qed.

Lemma rfind_from_absent (c : ascii) (s : string) (base : Z) :
  ~ Spec.occurs c s -> Str.rfind_from (String c "") s base = -1.
Proof.
  revert base. induction s as [|b s IH]; intros base Hno; [reflexivity |].
  cbn [Str.rfind_from]. rewrite IH.
  - rewrite Z.eqb_refl.
    destruct (String.prefix (String c "") (String b s)) eqn:Hp; [|reflexivity].
    apply prefix_char in Hp. exfalso. apply Hno. exists 0%nat. exact Hp.
  - intros [k Hk]. apply Hno. exists (S k). exact Hk.
Qed.

Lemma rfind_from_last (c : ascii) (s : string) (j : nat) (base : Z) :
  0 <= base -> Spec.last_index c s j ->
  Str.rfind_from (String c "") s base = base + Z.of_nat j.
Proof.
  revert j base. induction s as [|b s IH]; intros j base Hbase [Hget Hafter].
  - discriminate Hget.
  - cbn [Str.rfind_from]. destruct j as [|j].
    + rewrite rfind_from_absent.
      * rewrite Z.eqb_refl. apply prefix_char in Hget. rewrite Hget. lia.
      * intros [k Hk]. apply (Hafter (S k)); [lia | exact Hk].
    + rewrite (IH j (base + 1)); [| lia |].
      * destruct (base + 1 + Z.of_nat j =? -1) eqn:Heq; lia.
      * split; [exact Hget |].
        intros k Hk. destruct k; [lia |]. apply (Hafter (S (S k))). lia.
Qed.

Lemma take_drop_substring (n m : nat) (s : string) :
  Str.take m (Str.drop n s) = String.substring n m s.
Proof.
  revert n m. induction s as [|b s IH]; intros n m.
  - destruct n, m; reflexivity.
  - destruct n as [|n].
    + destruct m as [|m]; [reflexivity |]. simpl.
      f_equal. apply (IH 0%nat m).
    + simpl. apply IH.
Qed.

(** [s[i:j+1]] is the substring of the characters at positions [i] to [j]. *)
Lemma slice_substring (s : string) (i j : nat) :
  (i <= j)%nat -> (j < String.length s)%nat ->
  Str.slice s (Z.of_nat i) (Z.of_nat j + 1) = String.substring i (j - i + 1) s.
Proof.
  intros Hij Hj. unfold Str.slice, Str.clamp.
  destruct (Z.of_nat i <? 0) eqn:Hi; [lia |].
  destruct (Z.of_nat j + 1 <? 0) eqn:Hj'; [lia |].
  rewrite <- take_drop_substring. f_equal; [| f_equal]; lia.
Qed.

End StringFacts.

(** ** Language-model calls *)

Section LlmProps.
Context `{Runtime}.
Import Llm.

Lemma loads_cases (s : string) :
  (forall v, json_loads s = Some v -> loads s = Ok v)
  /\ (json_loads s = None -> loads s = Raise (JSONDecodeError s)).
Proof. unfold loads. split; [intros v -> | intros ->]; reflexivity. Qed.

Lemma parse_json_unfold (text : string) :
  _parse_json text =
  let t := Str.strip text in
  match json_loads t with
  | Some parsed => Ok parsed
  | None =>
      if negb (Str.find t "{" =? -1) && negb (Str.rfind t "}" =? -1)
         && (Str.rfind t "}" >? Str.find t "{")
      then loads (Str.slice t (Str.find t "{") (Str.rfind t "}" + 1))
      else Raise (JSONDecodeError t)
  end.
Proof.
  unfold _parse_json, loads at 1. cbv zeta.
  destruct (json_loads (Str.strip text)); reflexivity.
Qed.

(** C8: [_parse_json] returns the strict parse of the stripped response when
    that succeeds.  When it fails and the first opening brace stands before
    the last closing brace, the substring from the one to the other is
    parsed instead: its value is returned, or its decoding error propagates.
    When there is no such substring (no opening brace, no closing brace, or
    the last closing brace before the first opening one) the error of the
    strict parse propagates. *)
Theorem parse_json_fallback (text : string) :
  let t := Str.strip text in
  (forall v, json_loads t = Some v -> _parse_json text = Ok v)
  /\ (json_loads t = None ->
      forall i j, Spec.first_index "{" t i -> Spec.last_index "}" t j -> (i < j)%nat ->
      let sub := String.substring i (j - i + 1) t in
      (forall v, json_loads sub = Some v -> _parse_json text = Ok v)
      /\ (json_loads sub = None -> _parse_json text = Raise (JSONDecodeError sub)))
  /\ (json_loads t = None ->
      (~ Spec.occurs "{" t \/ ~ Spec.occurs "}" t
       \/ exists i j, Spec.first_index "{" t i /\ Spec.last_index "}" t j /\ (j <= i)%nat) ->
      _parse_json text = Raise (JSONDecodeError t)).
Proof.
  intros t. rewrite parse_json_unfold. cbv zeta. fold t.
  split; [intros v ->; reflexivity |].
  split.
  - intros -> i j Hi Hj Hij.
    unfold Str.find, Str.rfind.
    rewrite (find_from_first _ _ i 0 Hi), (rfind_from_last _ _ j 0 ltac:(lia) Hj).
    replace (negb (0 + Z.of_nat i =? -1) && negb (0 + Z.of_nat j =? -1)
             && (0 + Z.of_nat j >? 0 + Z.of_nat i)) with true
      by (symmetry; rewrite !andb_true_iff, !negb_true_iff; lia).
    replace (0 + Z.of_nat i) with (Z.of_nat i) by lia.
    replace (0 + Z.of_nat j) with (Z.of_nat j) by lia.
    rewrite slice_substring; [| lia | destruct Hj as [Hj _]; eapply get_lt_length; exact Hj].
    apply loads_cases.
  - intros -> Hnone. unfold Str.find, Str.rfind.
    destruct Hnone as [Hno | [Hno | (i & j & Hi & Hj & Hji)]].
    + rewrite (find_from_absent _ _ 0 Hno). reflexivity.
    + rewrite (rfind_from_absent _ _ 0 Hno). simpl. rewrite andb_false_r. reflexivity.
    + rewrite (find_from_first _ _ i 0 Hi), (rfind_from_last _ _ j 0 ltac:(lia) Hj).
      replace (0 + Z.of_nat j >? 0 + Z.of_nat i) with false by (symmetry; lia).
      rewrite andb_false_r. reflexivity.
Qed.

Lemma py_range_cons (a b : Z) :
  a < b -> py_range a b = a :: py_range (a + 1) b.
Proof.
  intros Hab. unfold py_range.
  replace (Z.to_nat (b - a)) with (S (Z.to_nat (b - (a + 1)))) by lia.
  rewrite <- cons_seq, <- fmap_S_seq. rewrite fmap_cons, <- list_fmap_compose.
  f_equal; [lia |]. apply list_fmap_ext. intros _ i _. simpl. lia.
Qed.

Lemma backoff_S (k : nat) (a : Z) :
  (fun i => 2 ^ (a + Z.of_nat i)) <$> seq 0 (S k)
  = 2 ^ a :: ((fun i => 2 ^ (a + 1 + Z.of_nat i)) <$> seq 0 k).
Proof.
  rewrite <- cons_seq, <- fmap_S_seq, fmap_cons, <- list_fmap_compose.
  f_equal; [f_equal; lia |]. apply list_fmap_ext. intros _ i _. simpl. f_equal. lia.
Qed.

(** One turn of the loop. *)
Lemma retry_loop_step (client : Client) (req : Request) (retries attempt : Z)
    (rest : list Z) (w : World) :
  retry_loop client req retries (attempt :: rest) w =
  let w' := {| api_calls := S (api_calls w); slept := slept w |} in
  match Spec.attempt_result client req (api_calls w) with
  | Ok parsed => (Ok parsed, w')
  | Raise e =>
      if attempt =? retries then (Raise e, w')
      else retry_loop client req retries rest
             {| api_calls := S (api_calls w); slept := append (slept w) (2 ^ attempt) |}
  end.
Proof.
  cbn [retry_loop]. unfold try_except, mbind, call_api, lift, sleep, Spec.attempt_result.
  destruct (client (api_calls w) req) as [text | e]; simpl.
  - destruct (_parse_json text); [reflexivity |].
    destruct (attempt =? retries); reflexivity.
  - destruct (attempt =? retries); reflexivity.
Qed.

(** The loop from attempt number [a] on, when the next [k] attempts fail and
    the one after them succeeds. *)
Lemma retry_loop_succeeds (client : Client) (req : Request) (retries : Z)
    (k : nat) (parsed : pyval) :
  forall (a : Z) (w : World),
    a + Z.of_nat k <= retries ->
    (forall i, (i < k)%nat ->
       is_ok (Spec.attempt_result client req (api_calls w + i)) = false) ->
    Spec.attempt_result client req (api_calls w + k) = Ok parsed ->
    retry_loop client req retries (py_range a (retries + 1)) w
    = (Ok parsed,
       {| api_calls := api_calls w + k + 1;
          slept := (slept w ++ ((fun i => 2 ^ (a + Z.of_nat i)) <$> seq 0 k))%list |}).
Proof.
  induction k as [|k IH]; intros a w Ha Hfail Hok.
  - rewrite py_range_cons by lia. rewrite retry_loop_step.
    rewrite Nat.add_0_r in Hok. rewrite Hok. cbv zeta. simpl.
    rewrite app_nil_r. do 2 f_equal. lia.
  - rewrite py_range_cons by lia. rewrite retry_loop_step.
    pose proof (Hfail 0%nat ltac:(lia)) as H0. rewrite Nat.add_0_r in H0.
    destruct (Spec.attempt_result client req (api_calls w)) as [v | e];
      [discriminate H0 |].
    cbv zeta. destruct (a =? retries) eqn:Heq; [lia |].
    rewrite (IH (a + 1)).
    + simpl api_calls. simpl slept. unfold append.
      rewrite backoff_S, <- app_assoc. simpl. do 2 f_equal. lia.
    + lia.
    + intros i Hi. simpl api_calls.
      replace (S (api_calls w) + i)%nat with (api_calls w + S i)%nat by lia.
      apply Hfail. lia.
    + simpl api_calls.
      replace (S (api_calls w) + k)%nat with (api_calls w + S k)%nat by lia.
      exact Hok.
Qed.

(** The loop from attempt number [a] on, when every attempt up to the last
    one, number [a + k], fails. *)
Lemma retry_loop_exhausted (client : Client) (req : Request) (retries : Z)
    (k : nat) (errors : nat -> exn) :
  forall (a : Z) (w : World),
    a + Z.of_nat k = retries ->
    (forall i, (i <= k)%nat ->
       Spec.attempt_result client req (api_calls w + i) = Raise (errors (api_calls w + i)%nat)) ->
    retry_loop client req retries (py_range a (retries + 1)) w
    = (Raise (errors (api_calls w + k)%nat),
       {| api_calls := api_calls w + k + 1;
          slept := (slept w ++ ((fun i => 2 ^ (a + Z.of_nat i)) <$> seq 0 k))%list |}).
Proof.
  induction k as [|k IH]; intros a w Ha Hfail.
  - rewrite py_range_cons by lia. rewrite retry_loop_step.
    pose proof (Hfail 0%nat ltac:(lia)) as H0. rewrite Nat.add_0_r in H0.
    rewrite H0. cbv zeta. replace (a =? retries) with true by (symmetry; lia).
    simpl. rewrite app_nil_r, Nat.add_0_r. do 2 f_equal. lia.
  - rewrite py_range_cons by lia. rewrite retry_loop_step.
    pose proof (Hfail 0%nat ltac:(lia)) as H0. rewrite Nat.add_0_r in H0.
    rewrite H0. cbv zeta. destruct (a =? retries) eqn:Heq; [lia |].
    rewrite (IH (a + 1)).
    + simpl api_calls. simpl slept. unfold append.
      rewrite backoff_S, <- app_assoc. simpl.
      replace (S (api_calls w + k)) with (api_calls w + S k)%nat by lia.
      do 2 f_equal. lia.
    + lia.
    + intros i Hi. simpl api_calls.
      replace (S (api_calls w) + i)%nat with (api_calls w + S i)%nat by lia.
      apply Hfail. lia.
Qed.

(** [_extract_with_retry] once the configuration is read. *)
Lemma extract_with_retry_unfold (client : Client) (prompt report_text : string)
    (cfg : Config) (retries max_output_tokens : Z) (temperature : pyfloat) (w : World) :
  py_int (map_get (cfg_llm cfg) "retries" (PInt 3)) = Ok retries ->
  py_float (map_get (cfg_llm cfg) "temperature"
              (PFloat (FFinite 3602879701896397 (-54)))) = Ok temperature ->
  py_int (map_get (cfg_llm cfg) "max_output_tokens" (PInt 2000)) = Ok max_output_tokens ->
  _extract_with_retry client prompt report_text cfg w
  = retry_loop client
      {| req_model := map_get (cfg_llm cfg) "model" (PStr "gpt-5.2");
         req_prompt := prompt; req_report := report_text;
         req_temperature := temperature;
         req_max_output_tokens := max_output_tokens |}
      retries (py_range 1 (retries + 1)) w.
Proof.
  intros Hr Ht Hm. unfold _extract_with_retry, mbind, lift.
  rewrite Hr, Ht, Hm. reflexivity.
Qed.

(** C6: with the retry count [retries] read from the configuration (3 when
    the key is absent), [_extract_with_retry] makes attempts number 1, 2,
    ... until one succeeds, at most [retries] of them, and sleeps
    [2 ^ attempt] seconds after each failed attempt but the last.  If the
    first [k] attempts raise and attempt [k + 1 <= retries] returns a parsed
    value, that value is returned after [k + 1] calls and sleeps of 2, 4,
    ..., [2 ^ k] seconds (two failures and a success: 2 and 4 seconds).  If
    all [retries >= 1] attempts raise, the exception of the last attempt
    propagates after [retries] calls. *)
Theorem extract_with_retry_policy (client : Client) (prompt report_text : string)
    (cfg : Config) (retries max_output_tokens : Z) (temperature : pyfloat) (w : World) :
  py_int (map_get (cfg_llm cfg) "retries" (PInt 3)) = Ok retries ->
  py_float (map_get (cfg_llm cfg) "temperature"
              (PFloat (FFinite 3602879701896397 (-54)))) = Ok temperature ->
  py_int (map_get (cfg_llm cfg) "max_output_tokens" (PInt 2000)) = Ok max_output_tokens ->
  let req := {| req_model := map_get (cfg_llm cfg) "model" (PStr "gpt-5.2");
                req_prompt := prompt; req_report := report_text;
                req_temperature := temperature;
                req_max_output_tokens := max_output_tokens |} in
  let attempt i := Spec.attempt_result client req (api_calls w + i) in
  (cfg_llm cfg !! "retries" = None -> retries = 3)
  /\ (forall k parsed,
        Z.of_nat k < retries ->
        (forall i, (i < k)%nat -> is_ok (attempt i) = false) ->
        attempt k = Ok parsed ->
        _extract_with_retry client prompt report_text cfg w
        = (Ok parsed,
           {| api_calls := api_calls w + k + 1;
              slept := (slept w ++ Spec.backoff k)%list |}))
  /\ (forall n errors,
        retries = Z.of_nat (S n) ->
        (forall i, (i <= n)%nat -> attempt i = Raise (errors i)) ->
        _extract_with_retry client prompt report_text cfg w
        = (Raise (errors n),
           {| api_calls := api_calls w + S n;
              slept := (slept w ++ Spec.backoff n)%list |})).
Proof.
  intros Hr Ht Hm req attempt.
  rewrite (extract_with_retry_unfold _ _ _ _ _ _ _ _ Hr Ht Hm). fold req.
  split.
  { intros Hnone. unfold map_get in Hr. rewrite Hnone in Hr.
    simpl in Hr. congruence. }
  split.
  - intros k parsed Hk Hfail Hok.
    rewrite (retry_loop_succeeds client req retries k parsed 1 w);
      [reflexivity | lia | exact Hfail | exact Hok].
  - intros n errors Hn Hfail.
    rewrite (retry_loop_exhausted client req retries n
               (fun m => errors (m - api_calls w)%nat) 1 w).
    + replace (api_calls w + n - api_calls w)%nat with n by lia.
      replace (api_calls w + n + 1)%nat with (api_calls w + S n)%nat by lia.
      reflexivity.
    + lia.
    + intros i Hi. replace (api_calls w + i - api_calls w)%nat with i by lia.
      apply Hfail. exact Hi.
Qed.

End LlmProps.

(** *** The retry loop and the parser on the example clients *)

Module LlmExamples.
Import Examples Mini Llm.

(** An answer wrapped in prose: the strict parse fails and the braces are
    parsed. *)
Lemma prose_answer_parsed :
  _parse_json "Here is the result: {} Done." = Ok (PDict ∅).
Proof.
  refine (proj1 (proj1 (proj2 (parse_json_fallback "Here is the result: {} Done."))
                   eq_refl 20%nat 21%nat _ _ _) (PDict ∅) eq_refl).
  - split; [reflexivity |].
    intros k Hk. do 20 (destruct k as [|k]; [vm_compute; discriminate |]). lia.
  - split; [reflexivity |].
    intros k Hk. do 22 (destruct k as [|k]; [lia |]).
    do 6 (destruct k as [|k]; [vm_compute; discriminate |]).
    vm_compute. destruct k; discriminate.
  - lia.
Defined.

(** Nothing between braces parses: the second error propagates; no braces:
    the first one does. *)
Lemma parse_errors_propagate :
  _parse_json "a {x} b" = Raise (JSONDecodeError "{x}")
  /\ _parse_json "} x {" = Raise (JSONDecodeError "} x {")
  /\ _parse_json " no json " = Raise (JSONDecodeError "no json").
Proof. repeat split; reflexivity. Qed.

(** Two failures, then a success on the third attempt: the parsed value is
    returned after sleeps of 2 and 4 seconds. *)
Lemma third_attempt_succeeds :
  _extract_with_retry client_flaky "Extract the CT fields."
    "CT chest without contrast." cfg0 world0
  = (Ok (PDict ∅), {| api_calls := 3; slept := [2; 4] |}).
Proof.
  refine (proj1 (proj2 (extract_with_retry_policy client_flaky "Extract the CT fields."
                          "CT chest without contrast." cfg0 3 2000
                          (FFinite 3602879701896397 (-54)) world0
                          eq_refl eq_refl eq_refl))
            2%nat (PDict ∅) _ _ _).
  - lia.
  - intros i Hi. destruct i as [|[|i]]; [reflexivity | reflexivity | lia].
  - reflexivity.
Defined.

(** Every attempt fails: the third exception propagates. *)
Lemma all_attempts_fail :
  _extract_with_retry client_down "Extract the CT fields."
    "CT chest without contrast." cfg0 world0
  = (Raise (ApiError "Connection error, call 2"),
     {| api_calls := 3; slept := [2; 4] |}).
Proof. reflexivity. Qed.

(** A retry count of zero makes no call and returns the empty mapping. *)
Lemma zero_retries_no_call :
  _extract_with_retry client_down "p" "r"
    {| cfg_paths := ∅; cfg_bigquery := ∅; cfg_selection := ∅;
       cfg_llm := {[ "retries" := PInt 0 ]} |} world0
  = (Ok (PDict ∅), world0).
Proof. reflexivity. Qed.

End LlmExamples.

(** ** Sorting by index label *)

Section SortedBy.
Context {A : Type} (key : A -> Z).

Local Open Scope list_scope.

Local Instance key_le_trans : Transitive (Extraction.key_le key).
Proof. unfold Extraction.key_le. intros x y z ? ?. lia. Qed.

Lemma insert_by_perm (x : A) (l : list A) :
  Extraction.insert_by key x l ≡ₚ x :: l.
Proof.
  induction l as [|y l IH]; simpl; [reflexivity |].
  destruct (key x <=? key y); [reflexivity |].
  rewrite IH. apply Permutation_swap.
Qed.

Lemma sorted_by_perm (l : list A) : Extraction.sorted_by key l ≡ₚ l.
Proof.
  induction l as [|x l IH]; simpl; [reflexivity |].
  rewrite insert_by_perm, IH. reflexivity.
Qed.

Lemma insert_by_sorted (x : A) (l : list A) :
  Sorted (Extraction.key_le key) l -> Sorted (Extraction.key_le key) (Extraction.insert_by key x l).
Proof.
  induction 1 as [|y l Hsorted IH Hhd]; simpl.
  - repeat constructor.
  - destruct (key x <=? key y) eqn:Hxy.
    + constructor; [constructor; assumption |].
      constructor. unfold Extraction.key_le. lia.
    + constructor; [exact IH |].
      destruct l as [|z l]; simpl.
      * constructor. unfold Extraction.key_le. lia.
      * destruct (key x <=? key z); constructor.
        -- unfold Extraction.key_le. lia.
        -- inversion Hhd; assumption.
Qed.

Lemma sorted_by_sorted (l : list A) : Sorted (Extraction.key_le key) (Extraction.sorted_by key l).
Proof.
  induction l as [|x l IH]; simpl; [constructor |].
  apply insert_by_sorted, IH.
Qed.

Lemma strictly_sorted_key_inj (l : list A) (x y : A) :
  StronglySorted (Extraction.key_lt key) l -> x ∈ l -> y ∈ l -> key x = key y -> x = y.
Proof.
  induction 1 as [|z l Hsorted IH Hall]; intros Hx Hy Hkey.
  - inversion Hx.
  - rewrite Forall_forall in Hall. unfold Extraction.key_lt in Hall.
    apply elem_of_cons in Hx as [-> | Hx]; apply elem_of_cons in Hy as [-> | Hy].
    + reflexivity.
    + specialize (Hall _ Hy). lia.
    + specialize (Hall _ Hx). lia.
    + apply IH; assumption.
Qed.

(** Sorting any arrangement of a list whose keys increase strictly gives
    that list back. *)
Lemma sorted_by_canonical (l l' : list A) :
  StronglySorted (Extraction.key_lt key) l -> l' ≡ₚ l -> Extraction.sorted_by key l' = l.
Proof.
  intros Hl Hperm.
  apply (Sorted_unique_strong (Extraction.key_le key)).
  - intros x1 x2 Hx1 Hx2 H12 H21. unfold Extraction.key_le in *.
    apply (strictly_sorted_key_inj l); try assumption; [| lia].
    rewrite <- Hperm, <- (sorted_by_perm l'). exact Hx1.
  - apply sorted_by_sorted.
  - apply StronglySorted_Sorted.
    eapply (StronglySorted_fmap id (Extraction.key_lt key) (Extraction.key_le key)) in Hl.
    + rewrite list_fmap_id in Hl. exact Hl.
    + unfold Extraction.key_lt, Extraction.key_le. simpl. intros. lia.
  - rewrite sorted_by_perm. exact Hperm.
Qed.

End SortedBy.

(** ** Tables *)

Section FrameProps.
Local Open Scope list_scope.

Lemma set_column_length (df : DataFrame) (name : string) (values : list pyval) :
  length values = length (df_rows df) ->
  length (df_rows (set_column df name values)) = length (df_rows df).
Proof. intros Hlen. simpl. rewrite length_zip_with. lia. Qed.

Lemma set_column_index (df : DataFrame) (name : string) (values : list pyval) :
  length values = length (df_rows df) ->
  Frame.index (set_column df name values) = Frame.index df.
Proof.
  intros Hlen. unfold Frame.index. simpl. apply list_eq. intros i.
  rewrite !list_lookup_fmap, lookup_zip_with.
  destruct (df_rows df !! i) as [r|] eqn:Hr; simpl; [| reflexivity].
  destruct (values !! i) as [v|] eqn:Hv; simpl; [reflexivity |].
  apply lookup_lt_Some in Hr. apply lookup_ge_None in Hv. lia.
Qed.

Lemma cell_set_column (df : DataFrame) (name name' : string) (values : list pyval)
    (i : nat) :
  length values = length (df_rows df) ->
  Frame.cell (set_column df name values) i name'
  = if decide (name' = name) then values !! i else Frame.cell df i name'.
Proof.
  intros Hlen. unfold Frame.cell. simpl. rewrite lookup_zip_with.
  destruct (df_rows df !! i) as [r|] eqn:Hr; simpl.
  - destruct (values !! i) as [v|] eqn:Hv; simpl.
    + destruct (decide (name' = name)) as [-> | Hne].
      * apply lookup_insert_eq.
      * apply lookup_insert_ne. congruence.
    + apply lookup_lt_Some in Hr. apply lookup_ge_None in Hv. lia.
  - destruct (decide (name' = name)); [| reflexivity].
    symmetry. apply lookup_ge_None. apply lookup_ge_None in Hr. lia.
Qed.

Lemma setitem_ok (df : DataFrame) (name : string) (values : list pyval) :
  length values = length (df_rows df) ->
  setitem df name values = Ok (set_column df name values).
Proof. intros Hlen. unfold setitem. rewrite Hlen, Nat.eqb_refl. reflexivity. Qed.

Lemma setitem_ok_inv (df out : DataFrame) (name : string) (values : list pyval) :
  setitem df name values = Ok out ->
  length values = length (df_rows df) /\ out = set_column df name values.
Proof.
  unfold setitem. destruct (Nat.eqb_spec (length values) (length (df_rows df)));
    [intros [= <-]; split; [assumption | reflexivity] | discriminate].
Qed.

Lemma elem_of_add_col (cols : list string) (name x : string) :
  x ∈ add_col cols name <-> x ∈ cols \/ x = name.
Proof.
  unfold add_col, append. case_bool_decide as Hin.
  - split; [auto | intros [? | ->]; assumption].
  - rewrite elem_of_app, list_elem_of_singleton. reflexivity.
Qed.

Lemma filter_fresh_snoc (names base : list string) (x : string) :
  x ∉ names ->
  filter (fun y => y ∉ base ++ [x]) names = filter (fun y => y ∉ base) names.
Proof.
  induction names as [|y names IH]; intros Hx; [reflexivity |].
  apply not_elem_of_cons in Hx as [Hxy Hx].
  rewrite !filter_cons, IH by assumption.
  destruct (decide (y ∉ base ++ [x])) as [Hy | Hy];
    destruct (decide (y ∉ base)) as [Hy' | Hy']; try reflexivity.
  - exfalso. apply Hy. apply elem_of_app. left.
    destruct (decide (y ∈ base)); [assumption | contradiction].
  - exfalso. apply Hy. intros Hin. apply elem_of_app in Hin as [Hin | Hin].
    + contradiction.
    + apply list_elem_of_singleton in Hin. congruence.
Qed.

(** Assigning distinct names in turn appends the new ones in order. *)
Lemma foldl_add_col (names base : list string) :
  NoDup names ->
  foldl add_col base names = base ++ filter (fun x => x ∉ base) names.
Proof.
  revert base. induction names as [|x names IH]; intros base Hnd; simpl.
  - rewrite app_nil_r. reflexivity.
  - apply NoDup_cons in Hnd as [Hx Hnd]. rewrite IH by assumption.
    unfold add_col, append. rewrite filter_cons. case_bool_decide as Hin.
    + destruct (decide (x ∉ base)); [contradiction | reflexivity].
    + destruct (decide (x ∉ base)); [| contradiction].
      rewrite <- app_assoc. simpl. do 2 f_equal.
      apply filter_fresh_snoc. assumption.
Qed.

End FrameProps.

(** ** Extraction engine *)

Section ExtractionProps.
Context `{Runtime}.
Import Extraction.
Local Open Scope list_scope.

Lemma collect_idx (idx : Z) (outcome : result (pyval * pyval)) :
  e_idx (collect idx outcome) = idx.
Proof. destruct outcome as [[ct pet] | e]; reflexivity. Qed.

Lemma entries_of_idx (futures : list (Z * result (pyval * pyval))) :
  e_idx <$> entries_of futures = futures.*1.
Proof.
  unfold entries_of. rewrite <- list_fmap_compose.
  apply list_fmap_ext. intros _ [idx o] _. apply collect_idx.
Qed.

Lemma omap_lookup_seq_app {B} (l k : list B) :
  omap (fun p => (k ++ l) !! p) (seq (length k) (length l)) = l.
Proof.
  revert k. induction l as [|x l IH]; intros k; [reflexivity |].
  simpl. rewrite list_lookup_middle by reflexivity. f_equal.
  specialize (IH (k ++ [x])). rewrite length_app in IH. simpl in IH.
  rewrite Nat.add_1_r, <- app_assoc in IH. exact IH.
Qed.

Lemma omap_lookup_seq {B} (l : list B) :
  omap (fun p => l !! p) (seq 0 (length l)) = l.
Proof. apply (omap_lookup_seq_app l []). Qed.

(** Whatever the order of completion, the loop gathers the entries of all
    the tasks. *)
Lemma gather_perm (futures : list (Z * result (pyval * pyval))) (completed : list nat) :
  completed ≡ₚ seq 0 (length futures) ->
  gather futures completed ≡ₚ entries_of futures.
Proof.
  intros Hperm. unfold gather.
  rewrite (list_omap_ext _ (fun p => entries_of futures !! p) completed completed).
  - rewrite Hperm. replace (length futures) with (length (entries_of futures))
      by (unfold entries_of; apply length_fmap).
    rewrite omap_lookup_seq. reflexivity.
  - apply Forall_Forall2_diag, Forall_forall. intros p _.
    unfold entries_of. rewrite list_lookup_fmap.
    destruct (futures !! p) as [[idx o]|]; reflexivity.
Qed.

Lemma discovered_keys_dicts (ds : list (gmap string pyval)) :
  discovered_keys (PDict <$> ds) = Ok (Spec.found ds).
Proof.
  induction ds as [|d ds IH]; [reflexivity |].
  csimpl. rewrite IH. reflexivity.
Qed.

Lemma discovered_keys_inv (values : list pyval) (s : gset string) :
  discovered_keys values = Ok s ->
  exists ds, values = PDict <$> ds /\ s = Spec.found ds.
Proof.
  revert s. induction values as [|v values IH]; intros s Hs; simpl in Hs.
  - exists []. injection Hs as <-. split; reflexivity.
  - destruct v as [|b|z|f|str|l|d]; try discriminate Hs. simpl in Hs.
    destruct (discovered_keys values) as [more|e]; [|discriminate Hs].
    destruct (IH more eq_refl) as (ds & -> & ->).
    exists (d :: ds). injection Hs as <-. split; reflexivity.
Qed.

Lemma ordered_keys_dicts (ds : list (gmap string pyval)) (expected : list string) :
  _ordered_keys (PDict <$> ds) expected = Ok (Spec.ordered ds expected).
Proof. unfold _ordered_keys. rewrite discovered_keys_dicts. reflexivity. Qed.

Lemma elem_of_found (ds : list (gmap string pyval)) (key : string) :
  key ∈ Spec.found ds <-> exists d, d ∈ ds /\ is_Some (d !! key).
Proof.
  unfold Spec.found. rewrite elem_of_union_list. split.
  - intros (X & HX & Hkey). apply list_elem_of_fmap in HX as (d & -> & Hd).
    exists d. split; [assumption |]. apply elem_of_dom. assumption.
  - intros (d & Hd & Hkey). exists (dom d). split.
    + apply list_elem_of_fmap. exists d. split; [reflexivity | assumption].
    + apply elem_of_dom. assumption.
Qed.

(** The extra keys: sorted, and exactly the keys found that are not
    expected. *)
Lemma extras_sorted (found : gset string) (expected : list string) :
  let extras := merge_sort String.le (filter (fun key => key ∉ expected) (elements found)) in
  Sorted String.le extras
  /\ NoDup extras
  /\ (forall key, key ∈ extras <-> key ∈ found /\ key ∉ expected).
Proof.
  intros extras. split; [apply Sorted_merge_sort; apply _ |].
  assert (Hperm : extras ≡ₚ filter (fun key => key ∉ expected) (elements found))
    by apply merge_sort_Permutation.
  split.
  - rewrite Hperm. apply NoDup_filter, NoDup_elements.
  - intros key. rewrite Hperm, list_elem_of_filter, elem_of_elements. tauto.
Qed.

Lemma elem_of_ordered (ds : list (gmap string pyval)) (expected : list string)
    (key : string) :
  key ∈ Spec.ordered ds expected <-> key ∈ Spec.found ds.
Proof.
  unfold Spec.ordered. rewrite elem_of_app, list_elem_of_filter.
  rewrite (proj2 (proj2 (extras_sorted (Spec.found ds) expected))).
  destruct (decide (key ∈ expected)); tauto.
Qed.

Lemma ordered_NoDup (ds : list (gmap string pyval)) (expected : list string) :
  NoDup expected -> NoDup (Spec.ordered ds expected).
Proof.
  intros Hnd. unfold Spec.ordered. apply NoDup_app. split; [| split].
  - apply NoDup_filter. assumption.
  - intros key Hin Hex. apply list_elem_of_filter in Hin as [_ Hin].
    apply (proj2 (proj2 (extras_sorted (Spec.found ds) expected))) in Hex as [_ Hex].
    contradiction.
  - apply (extras_sorted (Spec.found ds) expected).
Qed.

Lemma flat_column_result (key : string) (ds : list (gmap string pyval)) :
  map_result (fun item => v <-? dict_get item key PNone;
                          Ok (_normalize_json_value v)) (PDict <$> ds)
  = Ok (Spec.flat_column key ds).
Proof.
  induction ds as [|d ds IH]; [reflexivity |].
  csimpl. rewrite IH. reflexivity.
Qed.

Lemma flat_column_length (key : string) (ds : list (gmap string pyval)) :
  length (Spec.flat_column key ds) = length ds.
Proof. unfold Spec.flat_column. apply length_fmap. Qed.

Lemma flat_all_length (prefix : string) (keys : list string)
    (ds : list (gmap string pyval)) (df : DataFrame) :
  length ds = length (df_rows df) ->
  length (df_rows (Spec.flat_all prefix keys ds df)) = length (df_rows df).
Proof.
  revert df. induction keys as [|key keys IH]; intros df Hlen; [reflexivity |].
  simpl. rewrite IH; rewrite set_column_length; rewrite ?flat_column_length; auto.
Qed.

Lemma flatten_dicts (prefix : string) (keys : list string)
    (ds : list (gmap string pyval)) (df : DataFrame) :
  length ds = length (df_rows df) ->
  flatten prefix keys (PDict <$> ds) df = Ok (Spec.flat_all prefix keys ds df).
Proof.
  revert df. induction keys as [|key keys IH]; intros df Hlen; [reflexivity |].
  cbn [flatten]. rewrite flat_column_result. cbn [bind].
  rewrite setitem_ok by (rewrite flat_column_length; assumption). cbn [bind].
  rewrite IH; [reflexivity |].
  rewrite set_column_length; rewrite ?flat_column_length; assumption.
Qed.

Lemma flat_all_cols (prefix : string) (keys : list string)
    (ds : list (gmap string pyval)) (df : DataFrame) :
  df_cols (Spec.flat_all prefix keys ds df)
  = foldl add_col (df_cols df) ((fun key => (prefix ++ key)%string) <$> keys).
Proof.
  revert df. induction keys as [|key keys IH]; intros df; [reflexivity |].
  simpl. rewrite IH. reflexivity.
Qed.

Lemma flat_all_index (prefix : string) (keys : list string)
    (ds : list (gmap string pyval)) (df : DataFrame) :
  length ds = length (df_rows df) ->
  Frame.index (Spec.flat_all prefix keys ds df) = Frame.index df.
Proof.
  revert df. induction keys as [|key keys IH]; intros df Hlen; [reflexivity |].
  simpl. rewrite IH.
  - apply set_column_index. rewrite flat_column_length. assumption.
  - rewrite set_column_length; rewrite ?flat_column_length; assumption.
Qed.

(** A column that is not assigned keeps its cells. *)
Lemma flat_all_cell_other (prefix : string) (keys : list string)
    (ds : list (gmap string pyval)) (df : DataFrame) (i : nat) (name : string) :
  length ds = length (df_rows df) ->
  (forall key, key ∈ keys -> name <> (prefix ++ key)%string) ->
  Frame.cell (Spec.flat_all prefix keys ds df) i name = Frame.cell df i name.
Proof.
  revert df. induction keys as [|key keys IH]; intros df Hlen Hname; [reflexivity |].
  simpl. rewrite IH.
  - rewrite cell_set_column by (rewrite flat_column_length; assumption).
    destruct (decide (name = (prefix ++ key)%string)) as [Heq | _]; [| reflexivity].
    exfalso. apply (Hname key); [left | assumption].
  - rewrite set_column_length; rewrite ?flat_column_length; assumption.
  - intros k Hk. apply Hname. right. assumption.
Qed.

(** The column of a key holds the flattened values of that key. *)
Lemma flat_all_cell_key (prefix : string) (keys : list string)
    (ds : list (gmap string pyval)) (df : DataFrame) (i : nat) (key : string) :
  length ds = length (df_rows df) -> NoDup keys -> key ∈ keys ->
  Frame.cell (Spec.flat_all prefix keys ds df) i (prefix ++ key)%string
  = Spec.flat_column key ds !! i.
Proof.
  revert df. induction keys as [|k keys IH]; intros df Hlen Hnd Hin.
  - inversion Hin.
  - apply NoDup_cons in Hnd as [Hk Hnd]. simpl.
    assert (Hlen' : length ds
                    = length (df_rows (set_column df (prefix ++ k)%string
                                         (Spec.flat_column k ds))))
      by (rewrite set_column_length; rewrite ?flat_column_length; auto).
    apply elem_of_cons in Hin as [-> | Hin].
    + rewrite flat_all_cell_other; [| assumption |].
      * rewrite cell_set_column by (rewrite flat_column_length; assumption).
        destruct (decide ((prefix ++ k)%string = (prefix ++ k)%string));
          [reflexivity | contradiction].
      * intros k' Hk' Heq. apply (inj (String.app prefix)) in Heq. congruence.
    + apply IH; assumption.
Qed.

Ltac frame_len :=
  repeat (rewrite ?length_fmap, ?flat_column_length;
          first [assumption | reflexivity | rewrite set_column_length]).

Lemma with_results_length (df : DataFrame) (es : list Entry) :
  length es = length (df_rows df) ->
  length (df_rows (Spec.with_results df es)) = length (df_rows df).
Proof.
  intros Hlen. unfold Spec.with_results. frame_len.
Qed.

Lemma with_results_index (df : DataFrame) (es : list Entry) :
  length es = length (df_rows df) ->
  Frame.index (Spec.with_results df es) = Frame.index df.
Proof.
  intros Hlen. unfold Spec.with_results.
  rewrite !set_column_index; frame_len.
Qed.

Lemma with_results_cols (df : DataFrame) (es : list Entry) :
  df_cols (Spec.with_results df es) = Spec.base_cols df.
Proof. reflexivity. Qed.

(** The three result columns hold the serialised results and the error of
    the entry attached at each position. *)
Lemma with_results_cells (df : DataFrame) (es : list Entry) (i : nat) :
  length es = length (df_rows df) ->
  Frame.cell (Spec.with_results df es) i "ct_json"
  = (fun e => PStr (json_dumps (e_ct e))) <$> es !! i
  /\ Frame.cell (Spec.with_results df es) i "pet_json"
    = (fun e => PStr (json_dumps (e_pet e))) <$> es !! i
  /\ Frame.cell (Spec.with_results df es) i "extraction_error"
    = (fun e => PStr (e_error e)) <$> es !! i.
Proof.
  intros Hlen. unfold Spec.with_results.
  repeat split;
    repeat (rewrite cell_set_column by frame_len; simpl);
    rewrite !list_lookup_fmap; destruct (es !! i); reflexivity.
Qed.

Lemma write_artifacts_ok (ct_out_dir pet_out_dir : string)
    (rows : list (Z * gmap string pyval)) :
  Forall (fun r => is_str (map_get r.2 "ct_json" PNone) = true
                   /\ is_str (map_get r.2 "pet_json" PNone) = true) rows ->
  exists files, write_artifacts ct_out_dir pet_out_dir rows = Ok files.
Proof.
  induction 1 as [|[idx row] rows [Hct Hpet] _ [files IH]]; simpl.
  - eexists. reflexivity.
  - simpl in Hct, Hpet.
    destruct (map_get row "ct_json" PNone); try discriminate Hct.
    destruct (map_get row "pet_json" PNone); try discriminate Hpet.
    simpl. rewrite IH. simpl. eexists. reflexivity.
Qed.

(** [attach_results] on results that are mappings: the table is the closed
    form, and what remains is the writing of the files. *)
Lemma attach_results_dicts (df : DataFrame) (results : list Entry)
    (cts pets : list (gmap string pyval)) (ct_out_dir pet_out_dir : string) :
  let es := sorted_by e_idx results in
  e_ct <$> es = PDict <$> cts ->
  e_pet <$> es = PDict <$> pets ->
  length es = length (df_rows df) ->
  attach_results df results ct_out_dir pet_out_dir
  = (files <-? write_artifacts ct_out_dir pet_out_dir
                 (df_rows (Spec.table_of df es cts pets));
     Ok (Spec.table_of df es cts pets, files)).
Proof.
  intros es Hct Hpet Hlen. unfold attach_results. fold es.
  assert (Hcts : length cts = length (df_rows df)).
  { rewrite <- Hlen, <- (length_fmap e_ct es), Hct. symmetry. apply length_fmap. }
  assert (Hpets : length pets = length (df_rows df)).
  { rewrite <- Hlen, <- (length_fmap e_pet es), Hpet. symmetry. apply length_fmap. }
  rewrite setitem_ok by frame_len. cbn [bind].
  rewrite setitem_ok by frame_len. cbn [bind].
  rewrite setitem_ok by frame_len. cbn [bind].
  rewrite Hct, Hpet, !ordered_keys_dicts. cbn [bind].
  rewrite <- Hct, <- Hpet. fold (Spec.with_results df es). rewrite Hct, Hpet.
  rewrite flatten_dicts by (rewrite with_results_length; assumption). cbn [bind].
  rewrite flatten_dicts
    by (rewrite flat_all_length; rewrite with_results_length; assumption).
  cbn [bind]. reflexivity.
Qed.

Lemma attach_results_inv (df out : DataFrame) (results : list Entry)
    (files : list Written) (ct_out_dir pet_out_dir : string) :
  attach_results df results ct_out_dir pet_out_dir = Ok (out, files) ->
  let es := sorted_by e_idx results in
  exists cts pets,
    e_ct <$> es = PDict <$> cts
    /\ e_pet <$> es = PDict <$> pets
    /\ length es = length (df_rows df)
    /\ out = Spec.table_of df es cts pets.
Proof.
  intros Hrun es. pose proof Hrun as Hrun'. unfold attach_results in Hrun'. fold es in Hrun'.
  destruct (setitem df "ct_json" _) as [df1|] eqn:H1; [|discriminate Hrun'].
  apply setitem_ok_inv in H1 as [Hlen _]. rewrite !length_fmap in Hlen.
  cbn [bind] in Hrun'.
  destruct (setitem df1 "pet_json" _) as [df2|]; [|discriminate Hrun'].
  cbn [bind] in Hrun'.
  destruct (setitem df2 "extraction_error" _) as [df3|]; [|discriminate Hrun'].
  cbn [bind] in Hrun'.
  destruct (_ordered_keys (e_ct <$> es) _) as [ct_keys|] eqn:Hck; [|discriminate Hrun'].
  cbn [bind] in Hrun'.
  destruct (_ordered_keys (e_pet <$> es) _) as [pet_keys|] eqn:Hpk; [|discriminate Hrun'].
  clear Hrun'.
  unfold _ordered_keys in Hck, Hpk.
  destruct (discovered_keys (e_ct <$> es)) as [sc|] eqn:Hdc; [|discriminate Hck].
  destruct (discovered_keys (e_pet <$> es)) as [sp|] eqn:Hdp; [|discriminate Hpk].
  apply discovered_keys_inv in Hdc as (cts & Hcts & _).
  apply discovered_keys_inv in Hdp as (pets & Hpets & _).
  exists cts, pets. repeat split; try assumption.
  rewrite (attach_results_dicts df results cts pets _ _ Hcts Hpets Hlen) in Hrun.
  fold es in Hrun.
  destruct (write_artifacts _ _ _); [|discriminate Hrun].
  cbn [bind] in Hrun. congruence.
Qed.

Lemma submit_all_length (api : nat -> Llm.Client) (ct_prompt pet_prompt : string)
    (cfg : Config) (df : DataFrame) :
  length (submit_all api ct_prompt pet_prompt cfg df) = length (df_rows df).
Proof. unfold submit_all. apply length_imap. Qed.

Lemma submit_all_index (api : nat -> Llm.Client) (ct_prompt pet_prompt : string)
    (cfg : Config) (df : DataFrame) :
  (submit_all api ct_prompt pet_prompt cfg df).*1 = Frame.index df.
Proof.
  unfold submit_all, Frame.index. apply list_eq. intros i.
  rewrite !list_lookup_fmap, list_lookup_imap.
  destruct (df_rows df !! i) as [[idx row]|]; reflexivity.
Qed.

Lemma strongly_sorted_fmap_inv {A} (key : A -> Z) (l : list A) :
  StronglySorted Z.lt (key <$> l) -> StronglySorted (key_lt key) l.
Proof.
  induction l as [|x l IH]; intros Hs; [constructor |].
  rewrite fmap_cons in Hs. apply StronglySorted_inv in Hs as [Hs Hall].
  constructor; [apply IH; assumption |].
  rewrite Forall_fmap in Hall. exact Hall.
Qed.

(** With strictly increasing index labels the sorted results are the
    entries of the rows in row order, whatever the order of completion. *)
Lemma gather_sorted_in_row_order (futures : list (Z * result (pyval * pyval)))
    (completed : list nat) :
  completed ≡ₚ seq 0 (length futures) ->
  StronglySorted Z.lt futures.*1 ->
  sorted_by e_idx (gather futures completed) = entries_of futures.
Proof.
  intros Hperm Hsorted. apply sorted_by_canonical.
  - apply strongly_sorted_fmap_inv. rewrite entries_of_idx. exact Hsorted.
  - apply gather_perm. exact Hperm.
Qed.

(** [run_extraction] past its guards. *)
Lemma run_extraction_unfold (api : nat -> Llm.Client) (completed : list nat)
    (df : DataFrame) (cfg : Config) (ct_prompt_path pet_prompt_path output_dir : string)
    (max_rows : option Z) (ct_prompt pet_prompt : string) (max_workers : Z) :
  truthy (map_get (cfg_llm cfg) "api_key" PNone) = true ->
  Llm._load_prompt ct_prompt_path = Ok ct_prompt ->
  Llm._load_prompt pet_prompt_path = Ok pet_prompt ->
  py_int (map_get (cfg_llm cfg) "concurrency" (PInt 6)) = Ok max_workers ->
  0 < max_workers ->
  run_extraction api completed df cfg ct_prompt_path pet_prompt_path output_dir max_rows
  = attach_results (truncate max_rows df)
      (gather (submit_all api ct_prompt pet_prompt cfg (truncate max_rows df)) completed)
      (output_dir ++ "/ct")%string (output_dir ++ "/pet")%string.
Proof.
  intros Hkey Hct Hpet Hmw Hpos. unfold run_extraction.
  rewrite Hkey, Hct, Hpet. cbn [negb bind]. rewrite Hmw. cbn [bind].
  destruct (max_workers <=? 0) eqn:Hle; [lia | reflexivity].
Qed.

Lemma run_extraction_inv (api : nat -> Llm.Client) (completed : list nat)
    (df : DataFrame) (cfg : Config) (ct_prompt_path pet_prompt_path output_dir : string)
    (max_rows : option Z) (r : DataFrame * list Written) :
  run_extraction api completed df cfg ct_prompt_path pet_prompt_path output_dir max_rows
  = Ok r ->
  exists ct_prompt pet_prompt,
    Llm._load_prompt ct_prompt_path = Ok ct_prompt
    /\ Llm._load_prompt pet_prompt_path = Ok pet_prompt
    /\ attach_results (truncate max_rows df)
         (gather (submit_all api ct_prompt pet_prompt cfg (truncate max_rows df)) completed)
         (output_dir ++ "/ct")%string (output_dir ++ "/pet")%string = Ok r.
Proof.
  unfold run_extraction.
  destruct (truthy (map_get (cfg_llm cfg) "api_key" PNone)); [|discriminate].
  cbn [negb].
  destruct (Llm._load_prompt ct_prompt_path) as [ct_prompt|]; [|discriminate].
  destruct (Llm._load_prompt pet_prompt_path) as [pet_prompt|]; [|discriminate].
  cbn [bind].
  destruct (py_int _) as [mw|]; [|discriminate]. cbn [bind].
  destruct (mw <=? 0); [discriminate |].
  intros Hrun. exists ct_prompt, pet_prompt. repeat split. exact Hrun.
Qed.

Lemma collect_typed (idx : Z) (outcome : result (pyval * pyval)) :
  Spec.outcome_typed outcome = true ->
  e_ct (collect idx outcome) = PDict (Spec.ct_of outcome)
  /\ e_pet (collect idx outcome) = PDict (Spec.pet_of outcome)
  /\ ("json" ∉ dom (Spec.ct_of outcome))
  /\ ("json" ∉ dom (Spec.pet_of outcome)).
Proof.
  destruct outcome as [[ct pet] | exc]; simpl.
  - destruct ct; try discriminate. destruct pet; try discriminate.
    rewrite andb_true_iff, !negb_true_iff, !bool_decide_eq_false.
    intros [? ?]. repeat split; assumption.
  - intros _. repeat split; rewrite dom_empty_L; apply not_elem_of_empty.
Qed.

Lemma entries_typed (futures : list (Z * result (pyval * pyval))) :
  forallb Spec.outcome_typed futures.*2 = true ->
  (e_ct <$> entries_of futures) = (PDict <$> ((fun f => Spec.ct_of f.2) <$> futures))
  /\ (e_pet <$> entries_of futures) = (PDict <$> ((fun f => Spec.pet_of f.2) <$> futures))
  /\ ("json" ∉ Spec.found ((fun f => Spec.ct_of f.2) <$> futures))
  /\ ("json" ∉ Spec.found ((fun f => Spec.pet_of f.2) <$> futures)).
Proof.
  induction futures as [|[idx o] futures IH]; csimpl.
  - intros _. repeat split; unfold Spec.found; simpl; apply not_elem_of_empty.
  - rewrite andb_true_iff. intros [Ho Hall].
    destruct (IH Hall) as (IHct & IHpet & IHjc & IHjp).
    destruct (collect_typed idx o Ho) as (Hct & Hpet & Hjc & Hjp).
    unfold entries_of in *. csimpl. rewrite Hct, Hpet, IHct, IHpet.
    unfold Spec.found in *. csimpl.
    repeat split; try reflexivity; rewrite elem_of_union; tauto.
Qed.

(** The three result columns are not touched by the flattening when no
    result has a key [json]. *)
Lemma table_result_cells (df : DataFrame) (es : list Entry)
    (cts pets : list (gmap string pyval)) (i : nat) (name : string) :
  length es = length (df_rows df) ->
  length cts = length es -> length pets = length es ->
  "json" ∉ Spec.found cts -> "json" ∉ Spec.found pets ->
  name = "ct_json" \/ name = "pet_json" \/ name = "extraction_error" ->
  Frame.cell (Spec.table_of df es cts pets) i name
  = Frame.cell (Spec.with_results df es) i name.
Proof.
  intros Hlen Hcts Hpets Hjc Hjp Hname. unfold Spec.table_of.
  rewrite flat_all_cell_other.
  - rewrite flat_all_cell_other; [reflexivity | |].
    + rewrite with_results_length by assumption. congruence.
    + intros key Hkey Heq. apply elem_of_ordered in Hkey.
      destruct Hname as [-> | [-> | ->]]; cbv in Heq;
        try discriminate Heq.
      injection Heq as Heq. subst key. contradiction.
  - rewrite flat_all_length; rewrite with_results_length by assumption; congruence.
  - intros key Hkey Heq. apply elem_of_ordered in Hkey.
    destruct Hname as [-> | [-> | ->]]; cbv in Heq;
      try discriminate Heq.
    injection Heq as Heq. subst key. contradiction.
Qed.

Lemma table_index (df : DataFrame) (es : list Entry)
    (cts pets : list (gmap string pyval)) :
  length es = length (df_rows df) ->
  length cts = length es -> length pets = length es ->
  Frame.index (Spec.table_of df es cts pets) = Frame.index df.
Proof.
  intros Hlen Hcts Hpets. unfold Spec.table_of.
  rewrite flat_all_index.
  - rewrite flat_all_index; [apply with_results_index; assumption |].
    rewrite with_results_length by assumption. congruence.
  - rewrite flat_all_length; rewrite with_results_length by assumption; congruence.
Qed.

Lemma table_rows_length (df : DataFrame) (es : list Entry)
    (cts pets : list (gmap string pyval)) :
  length es = length (df_rows df) ->
  length cts = length es -> length pets = length es ->
  length (df_rows (Spec.table_of df es cts pets)) = length (df_rows df).
Proof.
  intros Hlen Hcts Hpets. unfold Spec.table_of.
  rewrite flat_all_length.
  - rewrite flat_all_length; [apply with_results_length; assumption |].
    rewrite with_results_length by assumption. congruence.
  - rewrite flat_all_length; rewrite with_results_length by assumption; congruence.
Qed.

(** The run on well-typed outcomes under strictly increasing index labels:
    the table is the closed form over the entries in row order. *)
Lemma run_extraction_typed (api : nat -> Llm.Client) (completed : list nat)
    (df : DataFrame) (cfg : Config) (ct_prompt_path pet_prompt_path output_dir : string)
    (max_rows : option Z) (ct_prompt pet_prompt : string) (max_workers : Z) :
  truthy (map_get (cfg_llm cfg) "api_key" PNone) = true ->
  Llm._load_prompt ct_prompt_path = Ok ct_prompt ->
  Llm._load_prompt pet_prompt_path = Ok pet_prompt ->
  py_int (map_get (cfg_llm cfg) "concurrency" (PInt 6)) = Ok max_workers ->
  0 < max_workers ->
  let df' := truncate max_rows df in
  let futures := submit_all api ct_prompt pet_prompt cfg df' in
  completed ≡ₚ seq 0 (length futures) ->
  StronglySorted Z.lt (Frame.index df') ->
  forallb Spec.outcome_typed futures.*2 = true ->
  exists files,
    run_extraction api completed df cfg ct_prompt_path pet_prompt_path output_dir max_rows
    = Ok (Spec.table_of df' (entries_of futures)
            ((fun f => Spec.ct_of f.2) <$> futures)
            ((fun f => Spec.pet_of f.2) <$> futures), files).
Proof.
  intros Hkey Hct Hpet Hmw Hpos df' futures Hperm Hsorted Htyped.
  rewrite (run_extraction_unfold _ _ _ _ _ _ _ _ _ _ _ Hkey Hct Hpet Hmw Hpos).
  fold df'. fold futures.
  destruct (entries_typed futures Htyped) as (Hcts & Hpets & Hjc & Hjp).
  assert (Hes : sorted_by e_idx (gather futures completed) = entries_of futures).
  { apply gather_sorted_in_row_order; [exact Hperm |].
    unfold futures. rewrite submit_all_index. exact Hsorted. }
  assert (Hlen : length (entries_of futures) = length (df_rows df')).
  { unfold entries_of. rewrite length_fmap. apply submit_all_length. }
  pose proof (attach_results_dicts df' (gather futures completed)
                ((fun f => Spec.ct_of f.2) <$> futures)
                ((fun f => Spec.pet_of f.2) <$> futures)
                (output_dir ++ "/ct")%string (output_dir ++ "/pet")%string) as Hattach.
  cbv zeta in Hattach. rewrite Hes in Hattach.
  rewrite (Hattach Hcts Hpets Hlen).
  set (table := Spec.table_of _ _ _ _).
  destruct (write_artifacts_ok (output_dir ++ "/ct")%string (output_dir ++ "/pet")%string
              (df_rows table)) as [files Hfiles].
  { apply Forall_lookup. intros i r Hr.
    assert (Hcell : forall name, Frame.cell table i name = r.2 !! name).
    { intros name. unfold Frame.cell. rewrite Hr. reflexivity. }
    assert (Hlens : length ((fun f => Spec.ct_of f.2) <$> futures)
                    = length (entries_of futures)
                    /\ length ((fun f => Spec.pet_of f.2) <$> futures)
                       = length (entries_of futures)).
    { unfold entries_of. rewrite !length_fmap. split; reflexivity. }
    destruct Hlens as [Hl1 Hl2].
    assert (Hi : (i < length (entries_of futures))%nat).
    { apply lookup_lt_Some in Hr. unfold table in Hr.
      rewrite table_rows_length in Hr by assumption. lia. }
    apply lookup_lt_is_Some in Hi as [e He].
    destruct (with_results_cells df' (entries_of futures) i Hlen) as (Hc1 & Hc2 & _).
    unfold map_get. rewrite <- !Hcell. unfold table.
    rewrite !table_result_cells by (auto; tauto).
    rewrite Hc1, Hc2, He. split; reflexivity. }
  rewrite Hfiles. exists files. reflexivity.
Qed.

(** C7: a pair whose task raised (its retries exhausted) is caught on its
    own.  With the prompts and the configuration readable, every task
    returning two mappings, neither with a key [json], or raising, and
    index labels that increase strictly (so that results meet their rows),
    [run_extraction] returns a
    table with all the rows of the input, in which the row of a failed
    pair has the exception's string as its [extraction_error] and the
    empty mapping as its [ct_json] and its [pet_json], and every other row
    has an empty error and its own two results: no row's result depends on
    the outcome of another. *)
Theorem failed_pair_is_recorded (api : nat -> Llm.Client) (completed : list nat)
    (df : DataFrame) (cfg : Config) (ct_prompt_path pet_prompt_path output_dir : string)
    (max_rows : option Z) (ct_prompt pet_prompt : string) (max_workers : Z) :
  truthy (map_get (cfg_llm cfg) "api_key" PNone) = true ->
  Llm._load_prompt ct_prompt_path = Ok ct_prompt ->
  Llm._load_prompt pet_prompt_path = Ok pet_prompt ->
  py_int (map_get (cfg_llm cfg) "concurrency" (PInt 6)) = Ok max_workers ->
  0 < max_workers ->
  let df' := truncate max_rows df in
  let futures := submit_all api ct_prompt pet_prompt cfg df' in
  completed ≡ₚ seq 0 (length futures) ->
  StronglySorted Z.lt (Frame.index df') ->
  forallb Spec.outcome_typed futures.*2 = true ->
  exists out files,
    run_extraction api completed df cfg ct_prompt_path pet_prompt_path output_dir max_rows
    = Ok (out, files)
    /\ Frame.index out = Frame.index df'
    /\ forall p idx outcome,
         futures !! p = Some (idx, outcome) ->
         match outcome with
         | Raise exc =>
             Frame.cell out p "extraction_error" = Some (PStr (exn_str exc))
             /\ Frame.cell out p "ct_json" = Some (PStr (json_dumps (PDict ∅)))
             /\ Frame.cell out p "pet_json" = Some (PStr (json_dumps (PDict ∅)))
         | Ok (ct_json, pet_json) =>
             Frame.cell out p "extraction_error" = Some (PStr "")
             /\ Frame.cell out p "ct_json" = Some (PStr (json_dumps ct_json))
             /\ Frame.cell out p "pet_json" = Some (PStr (json_dumps pet_json))
         end.
Proof.
  intros Hkey Hct Hpet Hmw Hpos df' futures Hperm Hsorted Htyped.
  destruct (run_extraction_typed api completed df cfg ct_prompt_path pet_prompt_path
              output_dir max_rows ct_prompt pet_prompt max_workers
              Hkey Hct Hpet Hmw Hpos Hperm Hsorted Htyped) as [files Hrun].
  fold df' in Hrun. fold futures in Hrun.
  destruct (entries_typed futures Htyped) as (_ & _ & Hjc & Hjp).
  assert (Hlen : length (entries_of futures) = length (df_rows df')).
  { unfold entries_of. rewrite length_fmap. apply submit_all_length. }
  assert (Hl1 : length ((fun f => Spec.ct_of f.2) <$> futures)
                = length (entries_of futures))
    by (unfold entries_of; rewrite !length_fmap; reflexivity).
  assert (Hl2 : length ((fun f => Spec.pet_of f.2) <$> futures)
                = length (entries_of futures))
    by (unfold entries_of; rewrite !length_fmap; reflexivity).
  eexists _, files. split; [exact Hrun |].
  split; [apply table_index; assumption |].
  intros p idx outcome Hp.
  destruct (with_results_cells df' (entries_of futures) p Hlen) as (Hc1 & Hc2 & Hc3).
  rewrite !table_result_cells by (auto; tauto).
  rewrite Hc1, Hc2, Hc3. unfold entries_of. rewrite list_lookup_fmap, Hp. simpl.
  destruct outcome as [[ct pet] | exc]; repeat split; reflexivity.
Qed.

Lemma ordered_in_order (ds : list (gmap string pyval)) (expected : list string) :
  Spec.keys_in_order (Spec.found ds) expected (Spec.ordered ds expected).
Proof.
  eexists. split; [reflexivity |].
  destruct (extras_sorted (Spec.found ds) expected) as (Hs & Hnd & Hin).
  split; [exact Hs |]. split; [exact Hnd |]. exact Hin.
Qed.

Lemma expected_keys_NoDup : NoDup _EXPECTED_CT_KEYS /\ NoDup _EXPECTED_PET_KEYS.
Proof. split; apply (bool_decide_unpack _); vm_compute; reflexivity. Qed.

Lemma flat_column_lookup (key : string) (ds : list (gmap string pyval)) (i : nat)
    (d : gmap string pyval) :
  ds !! i = Some d ->
  Spec.flat_column key ds !! i
  = Some match d !! key with
         | Some v => _normalize_json_value v
         | None => PStr ""
         end.
Proof.
  intros Hd. unfold Spec.flat_column, map_get. rewrite list_lookup_fmap, Hd. simpl.
  destruct (d !! key); reflexivity.
Qed.

Lemma prefixed_names_NoDup (ct_keys pet_keys : list string) :
  NoDup ct_keys -> NoDup pet_keys ->
  NoDup (((fun key => ("ct_" ++ key)%string) <$> ct_keys)
         ++ ((fun key => ("pet_" ++ key)%string) <$> pet_keys)).
Proof.
  intros Hc Hp. apply NoDup_app. split; [| split].
  - apply (NoDup_fmap_2 (String.app "ct_")). assumption.
  - intros name Hin1 Hin2.
    apply list_elem_of_fmap in Hin1 as (k1 & -> & _).
    apply list_elem_of_fmap in Hin2 as (k2 & Heq & _).
    cbv in Heq. discriminate Heq.
  - apply (NoDup_fmap_2 (String.app "pet_")). assumption.
Qed.

(** The table in closed form: its columns and its flattened cells. *)
Lemma table_columns (df : DataFrame) (es : list Entry)
    (cts pets : list (gmap string pyval)) :
  length es = length (df_rows df) ->
  length cts = length es -> length pets = length es ->
  let out := Spec.table_of df es cts pets in
  let ct_keys := Spec.ordered cts _EXPECTED_CT_KEYS in
  let pet_keys := Spec.ordered pets _EXPECTED_PET_KEYS in
  let names := ((fun key => ("ct_" ++ key)%string) <$> ct_keys)
               ++ ((fun key => ("pet_" ++ key)%string) <$> pet_keys) in
  df_cols out = Spec.base_cols df ++ filter (fun name => name ∉ Spec.base_cols df) names
  /\ (forall key, key ∈ ct_keys -> Spec.materialized out "ct_" key cts)
  /\ (forall key, key ∈ pet_keys -> Spec.materialized out "pet_" key pets).
Proof.
  intros Hlen Hcts Hpets out ct_keys pet_keys names.
  destruct expected_keys_NoDup as [Hndc Hndp].
  assert (Hlen1 : length cts = length (df_rows (Spec.with_results df es)))
    by (rewrite with_results_length by assumption; congruence).
  assert (Hlen2 : length pets
                  = length (df_rows (Spec.flat_all "ct_" ct_keys cts
                                       (Spec.with_results df es))))
    by (rewrite flat_all_length by assumption;
        rewrite with_results_length by assumption; congruence).
  split; [| split].
  - unfold out, Spec.table_of. rewrite !flat_all_cols, with_results_cols.
    rewrite <- foldl_app. apply foldl_add_col.
    apply prefixed_names_NoDup; apply ordered_NoDup; assumption.
  - intros key Hkey i d Hd. unfold out, Spec.table_of.
    rewrite flat_all_cell_other; [| assumption |].
    + rewrite flat_all_cell_key;
        [apply flat_column_lookup; assumption | assumption | | assumption].
      apply ordered_NoDup. assumption.
    + intros k _ Heq. cbv in Heq. discriminate Heq.
  - intros key Hkey i d Hd. unfold out, Spec.table_of.
    rewrite flat_all_cell_key;
      [apply flat_column_lookup; assumption | assumption | | assumption].
    apply ordered_NoDup. assumption.
Qed.

(** C9: in the table returned by [run_extraction], with [cts] and [pets]
    the CT and PET results attached to its rows, the flattened columns of
    each modality are, under the prefix [ct_] or [pet_], the expected keys
    found in at least one result, in the fixed order, followed by the other
    keys found, sorted; they are appended to the columns the table had
    (those not already there); each of them is materialised across all
    rows, a missing value being the empty string; hence every key observed
    in a result names a column of the table. *)
Theorem flattened_columns_cover_keys (api : nat -> Llm.Client) (completed : list nat)
    (df out : DataFrame) (cfg : Config)
    (ct_prompt_path pet_prompt_path output_dir : string)
    (max_rows : option Z) (files : list Written) :
  run_extraction api completed df cfg ct_prompt_path pet_prompt_path output_dir max_rows
  = Ok (out, files) ->
  exists (entries : list Entry) (cts pets : list (gmap string pyval))
         (ct_keys pet_keys : list string),
    Spec.attached api completed df cfg ct_prompt_path pet_prompt_path max_rows
    = Ok entries
    /\ (e_ct <$> entries) = (PDict <$> cts)
    /\ (e_pet <$> entries) = (PDict <$> pets)
    /\ length entries = length (df_rows out)
    /\ Spec.keys_in_order (Spec.found cts) _EXPECTED_CT_KEYS ct_keys
    /\ Spec.keys_in_order (Spec.found pets) _EXPECTED_PET_KEYS pet_keys
    /\ (let base := Spec.base_cols (truncate max_rows df) in
        let names := ((fun key => ("ct_" ++ key)%string) <$> ct_keys)
                     ++ ((fun key => ("pet_" ++ key)%string) <$> pet_keys) in
        df_cols out = base ++ filter (fun name => name ∉ base) names)
    /\ (forall key, key ∈ ct_keys -> Spec.materialized out "ct_" key cts)
    /\ (forall key, key ∈ pet_keys -> Spec.materialized out "pet_" key pets)
    /\ (forall key, key ∈ Spec.found cts -> ("ct_" ++ key)%string ∈ df_cols out)
    /\ (forall key, key ∈ Spec.found pets -> ("pet_" ++ key)%string ∈ df_cols out).
Proof.
  intros Hrun.
  destruct (run_extraction_inv _ _ _ _ _ _ _ _ _ Hrun)
    as (ct_prompt & pet_prompt & Hct & Hpet & Hattach).
  destruct (attach_results_inv _ _ _ _ _ _ Hattach)
    as (cts & pets & Hcts & Hpets & Hlen & Hout).
  set (df' := truncate max_rows df) in *.
  set (es := sorted_by e_idx _) in *.
  assert (Hl1 : length cts = length es).
  { rewrite <- (length_fmap e_ct es), Hcts. symmetry. apply length_fmap. }
  assert (Hl2 : length pets = length es).
  { rewrite <- (length_fmap e_pet es), Hpets. symmetry. apply length_fmap. }
  destruct (table_columns df' es cts pets Hlen Hl1 Hl2) as (Hcols & Hmc & Hmp).
  rewrite <- Hout in Hcols, Hmc, Hmp.
  exists es, cts, pets, (Spec.ordered cts _EXPECTED_CT_KEYS),
    (Spec.ordered pets _EXPECTED_PET_KEYS).
  split.
  { unfold Spec.attached. rewrite Hct, Hpet. reflexivity. }
  split; [exact Hcts |]. split; [exact Hpets |].
  split.
  { rewrite Hout, table_rows_length by assumption. exact Hlen. }
  split; [apply ordered_in_order |]. split; [apply ordered_in_order |].
  split; [exact Hcols |]. split; [exact Hmc |]. split; [exact Hmp |].
  assert (Hin : forall name names,
             name ∈ names ->
             name ∈ Spec.base_cols df'
                    ++ filter (fun name => name ∉ Spec.base_cols df') names).
  { intros name names Hname. apply elem_of_app.
    destruct (decide (name ∈ Spec.base_cols df')) as [Hb | Hb]; [left; exact Hb |].
    right. apply list_elem_of_filter. split; assumption. }
  split; intros key Hkey; rewrite Hcols; apply Hin, elem_of_app.
  - left. apply list_elem_of_fmap. exists key. split; [reflexivity |].
    apply elem_of_ordered. exact Hkey.
  - right. apply list_elem_of_fmap. exists key. split; [reflexivity |].
    apply elem_of_ordered. exact Hkey.
Qed.

Lemma write_artifacts_length (ct_out_dir pet_out_dir : string)
    (rows : list (Z * gmap string pyval)) (files : list Written) :
  write_artifacts ct_out_dir pet_out_dir rows = Ok files ->
  length files = (2 * length rows)%nat.
Proof.
  revert files. induction rows as [|[idx row] rows IH]; intros files Hw.
  - injection Hw as <-. reflexivity.
  - cbn [write_artifacts] in Hw. cbv zeta in Hw.
    destruct (write_text ct_out_dir _ _) as [ct_file|]; [| discriminate Hw].
    cbn [bind] in Hw.
    destruct (write_text pet_out_dir _ _) as [pet_file|]; [| discriminate Hw].
    cbn [bind] in Hw.
    destruct (write_artifacts ct_out_dir pet_out_dir rows) as [more|];
      [| discriminate Hw].
    cbn [bind] in Hw. injection Hw as <-. cbn [length].
    rewrite (IH more eq_refl). lia.
Qed.

(** Entries that are mappings without a key [json], whatever their order. *)
Lemma typed_entries_lists (es : list Entry) :
  Forall (fun e => exists ct pet,
            e_ct e = PDict ct /\ e_pet e = PDict pet
            /\ ("json" ∉ dom ct) /\ ("json" ∉ dom pet)) es ->
  exists cts pets,
    (e_ct <$> es) = (PDict <$> cts)
    /\ (e_pet <$> es) = (PDict <$> pets)
    /\ ("json" ∉ Spec.found cts)
    /\ ("json" ∉ Spec.found pets).
Proof.
  induction 1 as [|e es (ct & pet & Hct & Hpet & Hjc & Hjp) _
                    (cts & pets & IHc & IHp & IHjc & IHjp)].
  - exists [], []. repeat split; unfold Spec.found; simpl; apply not_elem_of_empty.
  - exists (ct :: cts), (pet :: pets). csimpl. rewrite Hct, Hpet, IHc, IHp.
    unfold Spec.found in *. csimpl.
    repeat split; try reflexivity; rewrite elem_of_union; tauto.
Qed.

(** The attaching returns when the results gathered are those of tasks
    with well-typed outcomes, one per row, in any order. *)
Lemma attach_results_typed_ok (df : DataFrame)
    (futures : list (Z * result (pyval * pyval))) (results : list Entry)
    (ct_out_dir pet_out_dir : string) :
  length futures = length (df_rows df) ->
  results ≡ₚ entries_of futures ->
  forallb Spec.outcome_typed futures.*2 = true ->
  is_ok (attach_results df results ct_out_dir pet_out_dir) = true.
Proof.
  intros Hfut Hperm Htyped.
  set (es := sorted_by e_idx results).
  assert (Hes : es ≡ₚ entries_of futures)
    by (unfold es; rewrite sorted_by_perm; exact Hperm).
  assert (Hlen : length es = length (df_rows df)).
  { rewrite (Permutation_length Hes). unfold entries_of.
    rewrite length_fmap. exact Hfut. }
  destruct (typed_entries_lists es) as (cts & pets & Hcts & Hpets & Hjc & Hjp).
  { apply Forall_forall. intros e He. rewrite Hes in He.
    unfold entries_of in He. apply list_elem_of_fmap in He as ([idx o] & -> & Hin).
    assert (Ho : Spec.outcome_typed o = true).
    { rewrite forallb_forall in Htyped. apply Htyped. apply list_elem_of_In.
      apply list_elem_of_fmap. exists (idx, o). split; [reflexivity | exact Hin]. }
    destruct (collect_typed idx o Ho) as (Hct & Hpet & Hjc & Hjp).
    exists (Spec.ct_of o), (Spec.pet_of o). repeat split; assumption. }
  assert (Hl1 : length cts = length es).
  { rewrite <- (length_fmap e_ct es), Hcts. symmetry. apply length_fmap. }
  assert (Hl2 : length pets = length es).
  { rewrite <- (length_fmap e_pet es), Hpets. symmetry. apply length_fmap. }
  rewrite (attach_results_dicts df results cts pets _ _ Hcts Hpets Hlen). fold es.
  set (table := Spec.table_of _ _ _ _).
  destruct (write_artifacts_ok ct_out_dir pet_out_dir (df_rows table)) as [files Hfiles].
  { apply Forall_lookup. intros i r Hr.
    assert (Hcell : forall name, Frame.cell table i name = r.2 !! name).
    { intros name. unfold Frame.cell. rewrite Hr. reflexivity. }
    assert (Hi : (i < length es)%nat).
    { apply lookup_lt_Some in Hr. unfold table in Hr.
      rewrite table_rows_length in Hr by assumption. lia. }
    apply lookup_lt_is_Some in Hi as [e He].
    destruct (with_results_cells df es i Hlen) as (Hc1 & Hc2 & _).
    unfold map_get. rewrite <- !Hcell. unfold table.
    rewrite !table_result_cells by (auto; tauto).
    rewrite Hc1, Hc2, He. split; reflexivity. }
  rewrite Hfiles. reflexivity.
Qed.

(** The truncation keeps the rows that the specification names. *)
Lemma truncate_kept_rows (max_rows : option Z) (df : DataFrame) :
  (forall n, max_rows = Some n -> 0 <= n) ->
  truncate max_rows df
  = {| df_cols := df_cols df; df_rows := Spec.kept_rows max_rows (df_rows df) |}.
Proof.
  intros Hpos. destruct df as [cols rows]. unfold truncate, Spec.kept_rows, head.
  destruct max_rows as [n|]; [| reflexivity].
  specialize (Hpos n eq_refl). cbn [df_cols df_rows].
  destruct (n =? 0) eqn:Hz; cbn [negb].
  - destruct (0 <? n) eqn:Hlt; [lia | reflexivity].
  - destruct (n <? 0) eqn:Hneg; [lia |].
    destruct (0 <? n) eqn:Hlt; [reflexivity | lia].
Qed.

Lemma submit_all_tasks (api : nat -> Llm.Client) (ct_prompt pet_prompt : string)
    (cfg : Config) (df : DataFrame) :
  submit_all api ct_prompt pet_prompt cfg df
  = Spec.tasks_of api ct_prompt pet_prompt cfg (df_rows df).
Proof.
  unfold submit_all, Spec.tasks_of. apply imap_ext.
  intros p [idx row] _. reflexivity.
Qed.

(** C10: [max_rows] truncates the input only when it is truthy.  With the
    guards of [run_extraction] passed and every submitted task completing
    once, the run is the attaching of the results of one task per kept
    row, the kept rows being the first [n] rows of the input, in input
    order, for a positive [max_rows = n], and all its rows for zero as for
    [None]: no task is submitted for any other row.  The run returns when
    the outcomes of those tasks are well typed; and when it returns, the
    table has the index labels of the kept rows, in their order, its
    result columns are built from the entries of exactly those tasks, and
    two files per kept row are written. *)
Theorem max_rows_truncates_when_truthy (api : nat -> Llm.Client) (completed : list nat)
    (df : DataFrame) (cfg : Config) (ct_prompt_path pet_prompt_path output_dir : string)
    (max_rows : option Z) (ct_prompt pet_prompt : string) (max_workers : Z) :
  truthy (map_get (cfg_llm cfg) "api_key" PNone) = true ->
  Llm._load_prompt ct_prompt_path = Ok ct_prompt ->
  Llm._load_prompt pet_prompt_path = Ok pet_prompt ->
  py_int (map_get (cfg_llm cfg) "concurrency" (PInt 6)) = Ok max_workers ->
  0 < max_workers ->
  (forall n, max_rows = Some n -> 0 <= n) ->
  let rows := Spec.kept_rows max_rows (df_rows df) in
  let kept := {| df_cols := df_cols df; df_rows := rows |} in
  let tasks := Spec.tasks_of api ct_prompt pet_prompt cfg rows in
  let entries := sorted_by e_idx (gather tasks completed) in
  let run := run_extraction api completed df cfg ct_prompt_path pet_prompt_path
               output_dir max_rows in
  completed ≡ₚ seq 0 (length rows) ->
  run = attach_results kept (gather tasks completed)
          (output_dir ++ "/ct")%string (output_dir ++ "/pet")%string
  /\ entries ≡ₚ (fun t => collect t.1 t.2) <$> tasks
  /\ (forallb Spec.outcome_typed tasks.*2 = true -> is_ok run = true)
  /\ (forall out files,
        run = Ok (out, files) ->
        Frame.index out = rows.*1
        /\ length (df_rows out) = length rows
        /\ length files = (2 * length rows)%nat
        /\ exists cts pets,
             (e_ct <$> entries) = (PDict <$> cts)
             /\ (e_pet <$> entries) = (PDict <$> pets)
             /\ out = Spec.table_of kept entries cts pets).
Proof.
  intros Hkey Hct Hpet Hmw Hpos Hn rows kept tasks entries run Hperm.
  assert (Hrun : run = attach_results kept (gather tasks completed)
                         (output_dir ++ "/ct")%string (output_dir ++ "/pet")%string).
  { unfold run.
    rewrite (run_extraction_unfold _ _ _ _ _ _ _ _ _ _ _ Hkey Hct Hpet Hmw Hpos).
    rewrite (truncate_kept_rows max_rows df Hn). fold rows. fold kept.
    rewrite submit_all_tasks. reflexivity. }
  assert (Hlen : length tasks = length rows)
    by (unfold tasks, Spec.tasks_of; apply length_imap).
  assert (Hgather : gather tasks completed ≡ₚ entries_of tasks)
    by (apply gather_perm; rewrite Hlen; exact Hperm).
  split; [exact Hrun |]. split.
  { unfold entries. rewrite sorted_by_perm. exact Hgather. }
  split.
  { intros Htyped. rewrite Hrun.
    apply (attach_results_typed_ok kept tasks); [exact Hlen | exact Hgather | exact Htyped]. }
  intros out files Hok. rewrite Hrun in Hok.
  destruct (attach_results_inv _ _ _ _ _ _ Hok)
    as (cts & pets & Hcts & Hpets & Hes & Hout).
  fold entries in Hcts, Hpets, Hes, Hout.
  assert (Hl1 : length cts = length entries).
  { rewrite <- (length_fmap e_ct entries), Hcts. symmetry. apply length_fmap. }
  assert (Hl2 : length pets = length entries).
  { rewrite <- (length_fmap e_pet entries), Hpets. symmetry. apply length_fmap. }
  split; [rewrite Hout; apply (table_index kept); assumption |].
  split; [rewrite Hout; apply (table_rows_length kept); assumption |].
  split.
  { rewrite (attach_results_dicts kept _ cts pets _ _ Hcts Hpets Hes) in Hok.
    fold entries in Hok. rewrite <- Hout in Hok.
    destruct (write_artifacts _ _ (df_rows out)) as [files'|] eqn:Hw;
      [| discriminate Hok].
    cbn [bind] in Hok. injection Hok as <-.
    rewrite (write_artifacts_length _ _ _ _ Hw), Hout.
    rewrite (table_rows_length kept) by assumption. reflexivity. }
  exists cts, pets. split; [exact Hcts |]. split; [exact Hpets | exact Hout].
Qed.

End ExtractionProps.

(** *** The extraction engine on the example tables *)

Module ExtractionExamples.
Import Examples Mini Extraction.
Local Open Scope list_scope.

(** C5: on a table whose index labels are not increasing the results are
    attached to the wrong rows, against the order of the input rows: the
    row of pair a receives what was extracted from the reports of pair b,
    and conversely.  The results are sorted by index label, which is the
    order of the rows only when the labels increase. *)
Lemma unsorted_index_misattaches_results :
  exists out files,
    run_extraction api_echo [0; 1]%nat df_swapped cfg0 ct_path pet_path "out" None
    = Ok (out, files)
    /\ Frame.index out = [1; 0]
    /\ Frame.cell out 0 "ct_report" = Some (PStr "CT of a")
    /\ Frame.cell out 0 "ct_Seen" = Some (PStr "CT of b")
    /\ Frame.cell out 0 "pet_Seen" = Some (PStr "PET of b")
    /\ Frame.cell out 1 "ct_report" = Some (PStr "CT of b")
    /\ Frame.cell out 1 "ct_Seen" = Some (PStr "CT of a")
    /\ Frame.cell out 1 "pet_Seen" = Some (PStr "PET of a").
Proof.
  exists (table_of_run (run_swapped [0; 1]%nat)), (files_of_run (run_swapped [0; 1]%nat)).
  repeat split; vm_compute; reflexivity.
Qed.

(** Under one index label for two rows the table depends on the order of
    completion. *)
Lemma duplicate_index_follows_completion :
  exists out out' files files',
    run_extraction api_echo [0; 1]%nat df_duplicate cfg0 ct_path pet_path "out" None
    = Ok (out, files)
    /\ run_extraction api_echo [1; 0]%nat df_duplicate cfg0 ct_path pet_path "out" None
       = Ok (out', files')
    /\ Frame.cell out 0 "ct_Seen" = Some (PStr "CT of a")
    /\ Frame.cell out' 0 "ct_Seen" = Some (PStr "CT of b").
Proof.
  exists (table_of_run (run_duplicate [0; 1]%nat)),
    (table_of_run (run_duplicate [1; 0]%nat)),
    (files_of_run (run_duplicate [0; 1]%nat)),
    (files_of_run (run_duplicate [1; 0]%nat)).
  repeat split; vm_compute; reflexivity.
Qed.

(** The second of three pairs fails for good: its row records the error and
    two empty mappings, its siblings their own results. *)
Lemma second_pair_fails :
  exists out files,
    run_extraction api_second_down [2; 0; 1]%nat df_three cfg0 ct_path pet_path
      "out" None = Ok (out, files)
    /\ Frame.index out = [0; 1; 2]
    /\ Frame.cell out 1 "extraction_error" = Some (PStr "Connection error, call 2")
    /\ Frame.cell out 1 "ct_json" = Some (PStr "{}")
    /\ Frame.cell out 1 "pet_json" = Some (PStr "{}")
    /\ Frame.cell out 0 "extraction_error" = Some (PStr "")
    /\ Frame.cell out 2 "extraction_error" = Some (PStr "").
Proof.
  edestruct (failed_pair_is_recorded api_second_down [2; 0; 1]%nat df_three cfg0
               ct_path pet_path "out" None
               "Extract the CT fields." "Extract the PET fields." 6)
    as (out & files & Hrun & Hidx & Hcells);
    [reflexivity | reflexivity | reflexivity | reflexivity | reflexivity
    | exact (Permutation_cons_app [0; 1]%nat [] 2%nat (Permutation_refl _))
    | change (StronglySorted Z.lt [0; 1; 2]); repeat constructor
    | vm_compute; reflexivity |].
  exists out, files. split; [exact Hrun |]. split; [exact Hidx |].
  assert (H1 : submit_all api_second_down "Extract the CT fields."
                 "Extract the PET fields." cfg0 (truncate None df_three) !! 1%nat
               = Some (1, Raise (ApiError "Connection error, call 2")))
    by (vm_compute; reflexivity).
  assert (H0 : exists o, submit_all api_second_down "Extract the CT fields."
                 "Extract the PET fields." cfg0 (truncate None df_three) !! 0%nat
               = Some (0, Ok o))
    by (eexists; vm_compute; reflexivity).
  assert (H2 : exists o, submit_all api_second_down "Extract the CT fields."
                 "Extract the PET fields." cfg0 (truncate None df_three) !! 2%nat
               = Some (2, Ok o))
    by (eexists; vm_compute; reflexivity).
  destruct H0 as [[ct0 pet0] H0]. destruct H2 as [[ct2 pet2] H2].
  destruct (Hcells _ _ _ H1) as (He1 & Hc1 & Hp1).
  destruct (Hcells _ _ _ H0) as (He0 & _).
  destruct (Hcells _ _ _ H2) as (He2 & _).
  repeat split; assumption.
Defined.

(** The table of the run over the three pairs has a column for the key the
    results carry. *)
Lemma echo_columns :
  exists entries cts,
    Spec.attached api_echo [2; 0; 1]%nat df_three cfg0 ct_path pet_path None = Ok entries
    /\ (e_ct <$> entries) = (PDict <$> cts)
    /\ length entries = length (df_rows table_three)
    /\ (forall key, key ∈ Spec.found cts -> ("ct_" ++ key)%string ∈ df_cols table_three).
Proof.
  edestruct (flattened_columns_cover_keys api_echo [2; 0; 1]%nat df_three table_three cfg0
               ct_path pet_path "out" None files_three)
    as (entries & cts & pets & ct_keys & pet_keys & Hatt & Hcts & _ & Hlen & _ & _ & _
        & _ & _ & Hsub & _);
    [vm_compute; reflexivity |].
  exists entries, cts. repeat split; assumption.
Defined.

Lemma echo_table_columns :
  df_cols table_three
  = pair_cols ++ ["ct_json"; "pet_json"; "extraction_error"; "ct_Seen"; "pet_Seen"].
Proof. reflexivity. Qed.

(** Two rows at most: the run over the three pairs returns the table of
    the first two, with their labels and four files, and no other. *)
Lemma first_two_rows :
  exists out files,
    run_extraction api_echo [1; 0]%nat df_three cfg0 ct_path pet_path "out" (Some 2)
    = Ok (out, files)
    /\ Frame.index out = [0; 1]
    /\ length (df_rows out) = 2%nat
    /\ length files = 4%nat.
Proof.
  destruct (max_rows_truncates_when_truthy api_echo [1; 0]%nat df_three cfg0
              ct_path pet_path "out" (Some 2)
              "Extract the CT fields." "Extract the PET fields." 6)
    as (_ & _ & Hreturns & Hthen);
    [ reflexivity | reflexivity | reflexivity | reflexivity | lia
    | intros n Hn; injection Hn as <-; lia
    | apply perm_swap |].
  assert (Hok : is_ok (run_extraction api_echo [1; 0]%nat df_three cfg0 ct_path pet_path
                         "out" (Some 2)) = true)
    by (apply Hreturns; vm_compute; reflexivity).
  destruct (run_extraction api_echo [1; 0]%nat df_three cfg0 ct_path pet_path "out"
              (Some 2)) as [[out files]|] eqn:Hrun; [| discriminate Hok].
  destruct (Hthen out files eq_refl) as (Hidx & Hrows & Hfiles & _).
  exists out, files. split; [reflexivity |]. split; [exact Hidx |].
  split; [exact Hrows | exact Hfiles].
Defined.

(** Zero rows asked for: all three pairs are extracted, as without limit. *)
Lemma zero_max_rows_extracts_all :
  Frame.index (table_of_run (run_extraction api_echo [2; 0; 1]%nat df_three cfg0
                               ct_path pet_path "out" (Some 0))) = [0; 1; 2]
  /\ length (files_of_run (run_extraction api_echo [2; 0; 1]%nat df_three cfg0
                             ct_path pet_path "out" (Some 0))) = 6%nat.
Proof. split; vm_compute; reflexivity. Qed.

(** A terminal failure beside a sibling that is not well typed.  With a
    sibling answered by a JSON array the batch is lost: no table is
    returned, and the failure is recorded nowhere.  With siblings whose
    results have the key [json], the column [ct_json] and [pet_json] are
    overwritten by the flattened values of that key: the row of the failed
    pair holds the empty string in them, not the empty mapping. *)
Lemma failure_beside_untyped_sibling :
  run_extraction api_down_beside_array [2; 0; 1]%nat df_three cfg0 ct_path pet_path
    "out" None = Raise AttributeError
  /\ exists out files,
       run_extraction api_down_beside_json_key [2; 0; 1]%nat df_three cfg0
         ct_path pet_path "out" None = Ok (out, files)
       /\ Frame.cell out 1 "extraction_error" = Some (PStr "Connection error, call 2")
       /\ Frame.cell out 1 "ct_json" = Some (PStr "")
       /\ Frame.cell out 1 "pet_json" = Some (PStr "")
       /\ Frame.cell out 0 "ct_json" = Some (PStr "x").
Proof.
  split; [vm_compute; reflexivity |].
  exists (table_of_run (run_extraction api_down_beside_json_key [2; 0; 1]%nat df_three
                          cfg0 ct_path pet_path "out" None)),
    (files_of_run (run_extraction api_down_beside_json_key [2; 0; 1]%nat df_three
                     cfg0 ct_path pet_path "out" None)).
  repeat split; vm_compute; reflexivity.
Qed.

(** A flattened name that the table already has.  The results carry the
    expected key [CT_Regions] and the other key [report], and the table has
    a column [ct_report]: that column keeps its place among the input
    columns, ahead of the column of the expected key, and its reports are
    overwritten by the flattened values. *)
Lemma existing_column_keeps_its_place :
  exists out files,
    run_extraction api_report [2; 0; 1]%nat df_three cfg0 ct_path pet_path "out" None
    = Ok (out, files)
    /\ _ordered_keys [PDict {[ "report" := PStr "summary"; "CT_Regions" := PList [] ]}]
         _EXPECTED_CT_KEYS = Ok ["CT_Regions"; "report"]
    /\ df_cols out
       = ["patient_id"; "ct_study_uid"; "pt_study_uid"; "ct_report"; "pt_report";
          "ct_json"; "pet_json"; "extraction_error";
          "ct_CT_Regions"; "pet_CT_Regions"; "pet_report"]
    /\ Frame.cell df_three 0 "ct_report" = Some (PStr "CT of a")
    /\ Frame.cell out 0 "ct_report" = Some (PStr "summary").
Proof.
  exists (table_of_run (run_extraction api_report [2; 0; 1]%nat df_three cfg0
                          ct_path pet_path "out" None)),
    (files_of_run (run_extraction api_report [2; 0; 1]%nat df_three cfg0
                     ct_path pet_path "out" None)).
  repeat split; vm_compute; reflexivity.
Qed.

End ExtractionExamples.

(** * Further properties *)

(** ** Selection over a table *)

Section AuditProps.
Context `{Runtime}.
Import Selection Audit.
Local Open Scope list_scope.

(** The loop when every row is classified: the selected rows are the rows
    that pass, in order, and every row leaves its audit record. *)
Lemma select_loop_ok (rows : list (Z * gmap string pyval)) (cfg : Config) :
  forall selected_rows audit_rows,
    forallb (fun r => is_ok (evaluate_row r.2 cfg)) rows = true ->
    select_loop rows cfg selected_rows audit_rows
    = Ok (selected_rows ++ filter (fun r => passes cfg r = true) rows,
          audit_rows ++ (audit_of cfg <$> rows)).
Proof.
  induction rows as [|[idx row] rows IH]; intros sel aud Hall.
  - simpl. rewrite !app_nil_r. reflexivity.
  - simpl in Hall. apply andb_true_iff in Hall as [Hrow Hall].
    destruct (evaluate_row row cfg) as [[include reasons] | e] eqn:Heval;
      [| discriminate Hrow].
    assert (Hp : passes cfg (idx, row) = include)
      by (unfold passes; simpl; rewrite Heval; reflexivity).
    assert (Ha : audit_of cfg (idx, row) = audit_entry row include reasons)
      by (unfold audit_of; simpl; rewrite Heval; reflexivity).
    cbn [select_loop]. rewrite Heval. cbn [bind].
    rewrite IH by assumption. rewrite filter_cons, fmap_cons, Ha. unfold append.
    destruct (decide (passes cfg (idx, row) = true)) as [Hd | Hd];
      rewrite Hp in Hd; destruct include; try congruence;
      rewrite <- !app_assoc; reflexivity.
Qed.

(** The loop when some row raises. *)
Lemma select_loop_raises (rows : list (Z * gmap string pyval)) (cfg : Config) :
  forall selected_rows audit_rows,
    forallb (fun r => is_ok (evaluate_row r.2 cfg)) rows = false ->
    is_ok (select_loop rows cfg selected_rows audit_rows) = false.
Proof.
  induction rows as [|[idx row] rows IH]; intros sel aud Hall; [discriminate Hall |].
  simpl in Hall. cbn [select_loop].
  destruct (evaluate_row row cfg) as [[include reasons] | e]; [| reflexivity].
  cbn [bind]. apply IH. exact Hall.
Qed.

(** X1: when [apply_selection] returns, the selected table holds exactly
    the input rows that pass, in input order and under their index labels,
    and the audit table holds one record per input row, in order and
    indexed from 0, carrying that row's verdict and its reasons joined by
    semicolons. *)
Theorem apply_selection_filters_and_audits (df selected audit : DataFrame)
    (cfg : Config) :
  apply_selection df cfg = Ok (selected, audit) ->
  df_rows selected = filter (fun r => passes cfg r = true) (df_rows df)
  /\ length (df_rows audit) = length (df_rows df)
  /\ forall i idx row,
       df_rows df !! i = Some (idx, row) ->
       exists include reasons,
         evaluate_row row cfg = Ok (include, reasons)
         /\ df_rows audit !! i = Some (Z.of_nat i, audit_entry row include reasons).
Proof.
  intros Hrun. unfold apply_selection in Hrun.
  destruct (forallb (fun r => is_ok (evaluate_row r.2 cfg)) (df_rows df)) eqn:Hall.
  - rewrite (select_loop_ok _ _ [] [] Hall) in Hrun. cbn in Hrun.
    injection Hrun as <- <-. cbn [df_rows frame_of_series frame_of_records].
    split; [reflexivity |]. split; [rewrite length_imap, length_fmap; reflexivity |].
    intros i idx row Hi.
    rewrite forallb_forall in Hall.
    assert (Hok : is_ok (evaluate_row row cfg) = true).
    { apply (Hall (idx, row)). apply list_elem_of_In.
      eapply list_elem_of_lookup_2. exact Hi. }
    destruct (evaluate_row row cfg) as [[include reasons] | e] eqn:Heval;
      [| discriminate Hok].
    exists include, reasons. split; [reflexivity |].
    unfold Row in *. rewrite list_lookup_imap, list_lookup_fmap, Hi. simpl.
    unfold audit_of. simpl. rewrite Heval. reflexivity.
  - pose proof (select_loop_raises _ _ [] [] Hall) as Hraise.
    destruct (select_loop (df_rows df) cfg [] []); [discriminate Hraise | discriminate Hrun].
Qed.

(** X2: [apply_selection] is all or nothing: it returns exactly when
    [evaluate_row] classifies every row, and raises as soon as one row makes
    [evaluate_row] raise. *)
Theorem apply_selection_all_or_nothing (df : DataFrame) (cfg : Config) :
  is_ok (apply_selection df cfg)
  = forallb (fun r => is_ok (evaluate_row r.2 cfg)) (df_rows df).
Proof.
  unfold apply_selection.
  destruct (forallb (fun r => is_ok (evaluate_row r.2 cfg)) (df_rows df)) eqn:Hall.
  - rewrite (select_loop_ok _ _ [] [] Hall). reflexivity.
  - pose proof (select_loop_raises _ _ [] [] Hall) as Hraise.
    destruct (select_loop (df_rows df) cfg [] []); [discriminate Hraise | reflexivity].
Qed.

(** X3: the selected table has the columns of the input when a row passes,
    and neither rows nor columns when none does. *)
Theorem selected_columns (df selected audit : DataFrame) (cfg : Config) :
  apply_selection df cfg = Ok (selected, audit) ->
  (existsb (passes cfg) (df_rows df) = true -> df_cols selected = df_cols df)
  /\ (existsb (passes cfg) (df_rows df) = false ->
      df_cols selected = [] /\ df_rows selected = []).
Proof.
  intros Hrun. unfold apply_selection in Hrun.
  destruct (forallb (fun r => is_ok (evaluate_row r.2 cfg)) (df_rows df)) eqn:Hall.
  - rewrite (select_loop_ok _ _ [] [] Hall) in Hrun. cbn in Hrun.
    injection Hrun as <- _. cbn [df_rows df_cols frame_of_series].
    induction (df_rows df) as [|r rows IH]; simpl.
    + split; [discriminate | intros _; split; reflexivity].
    + simpl in Hall. apply andb_true_iff in Hall as [_ Hall].
      rewrite filter_cons. destruct (passes cfg r) eqn:Hr; simpl.
      * destruct (decide (true = true)); [| congruence].
        split; [reflexivity | discriminate].
      * destruct (decide (false = true)); [discriminate |]. apply IH. exact Hall.
  - pose proof (select_loop_raises _ _ [] [] Hall) as Hraise.
    destruct (select_loop (df_rows df) cfg [] []); [discriminate Hraise | discriminate Hrun].
Qed.

Lemma contains_chest_single (x : ascii) :
  Str.contains "chest" (String x EmptyString) = false.
Proof. destruct x as [[] [] [] [] [] [] [] []]; vm_compute; reflexivity. Qed.

(** Iterating a string yields single characters, none of which contains
    the five letters. *)
Lemma contains_chest_loop_chars (cs : list ascii) :
  _contains_chest_loop ((fun c => PStr (String c EmptyString)) <$> cs) = Ok false.
Proof.
  induction cs as [|c cs IH]; [reflexivity |].
  rewrite fmap_cons. cbn [_contains_chest_loop].
  change (Str.lower (String c EmptyString))
    with (String (Str.lower_char c) EmptyString).
  rewrite contains_chest_single. exact IH.
Qed.

(** X4: a region field that is a bare string instead of a list never counts
    as chest, whatever it says: the loop runs over its characters. *)
Theorem contains_chest_bare_string (s : string) :
  _contains_chest (PStr s) = Ok false.
Proof. unfold _contains_chest. simpl. apply contains_chest_loop_chars. Qed.

(** X5: on a list of strings [_contains_chest] is true exactly when some
    entry contains the word chest, whatever the case of its letters. *)
Theorem contains_chest_list_of_strings (regions : list string) :
  _contains_chest (PList (PStr <$> regions))
  = Ok (existsb (fun r => Str.contains "chest" (Str.lower r)) regions).
Proof.
  unfold _contains_chest. cbn [py_iter bind].
  induction regions as [|r regions IH]; [reflexivity |].
  rewrite fmap_cons. cbn [_contains_chest_loop existsb].
  destruct (Str.contains "chest" (Str.lower r)); [reflexivity | exact IH].
Qed.

(** X6: the verdict on a row reads three of its cells and nothing of
    the configuration: two rows that agree on [extraction_error],
    [ct_json] and [pet_json] get the same verdict and reasons, under any
    two configurations; the flattened columns play no part. *)
Theorem verdict_reads_three_cells (row row' : Row) (cfg cfg' : Config) :
  row !! "extraction_error" = row' !! "extraction_error" ->
  row !! "ct_json" = row' !! "ct_json" ->
  row !! "pet_json" = row' !! "pet_json" ->
  evaluate_row row cfg = evaluate_row row' cfg'.
Proof.
  intros He Hc Hp. unfold evaluate_row, row_get, map_get, Row in *.
  rewrite He, Hc, Hp. reflexivity.
Qed.

End AuditProps.

(** ** Language-model calls *)

Section LlmMoreProps.
Context `{Runtime}.
Import Llm.
Local Open Scope list_scope.

Lemma py_range_empty (a b : Z) : b <= a -> py_range a b = [].
Proof.
  intros Hba. unfold py_range.
  replace (Z.to_nat (b - a)) with 0%nat by lia. reflexivity.
Qed.

(** Either every one of the first [n] attempts fails, or there is a first
    one that succeeds. *)
Lemma first_success (f : nat -> bool) (n : nat) :
  (forall i, (i < n)%nat -> f i = false)
  \/ exists k, (k < n)%nat /\ f k = true /\ forall i, (i < k)%nat -> f i = false.
Proof.
  induction n as [|n [IH | (k & Hk & Hfk & Hbefore)]].
  - left. intros i Hi. lia.
  - destruct (f n) eqn:Hfn.
    + right. exists n. split; [lia |]. split; [exact Hfn | exact IH].
    + left. intros i Hi. destruct (decide (i = n)) as [-> | Hne]; [exact Hfn |].
      apply IH. lia.
  - right. exists k. split; [lia |]. split; assumption.
Qed.

(** X7: with a retry count of zero or less [_extract_with_retry] makes no
    API call and no sleep, and returns the empty mapping as if the
    extraction had succeeded. *)
Theorem no_retries_returns_empty (client : Client) (prompt report_text : string)
    (cfg : Config) (retries max_output_tokens : Z) (temperature : pyfloat) (w : World) :
  py_int (map_get (cfg_llm cfg) "retries" (PInt 3)) = Ok retries ->
  py_float (map_get (cfg_llm cfg) "temperature"
              (PFloat (FFinite 3602879701896397 (-54)))) = Ok temperature ->
  py_int (map_get (cfg_llm cfg) "max_output_tokens" (PInt 2000)) = Ok max_output_tokens ->
  retries <= 0 ->
  _extract_with_retry client prompt report_text cfg w = (Ok (PDict ∅), w).
Proof.
  intros Hr Ht Hm Hle.
  rewrite (extract_with_retry_unfold _ _ _ _ _ _ _ _ Hr Ht Hm).
  rewrite py_range_empty by lia. reflexivity.
Qed.

(** X8: with a positive retry count [_extract_with_retry] returns the
    outcome of the last attempt it makes.  It makes between one and
    [retries] attempts, every one before the last having failed; it stops
    short of [retries] only on a success; and it sleeps 2, 4, ... seconds
    between the attempts, never after the last. *)
Theorem retry_returns_last_attempt (client : Client) (prompt report_text : string)
    (cfg : Config) (retries max_output_tokens : Z) (temperature : pyfloat) (w : World) :
  py_int (map_get (cfg_llm cfg) "retries" (PInt 3)) = Ok retries ->
  py_float (map_get (cfg_llm cfg) "temperature"
              (PFloat (FFinite 3602879701896397 (-54)))) = Ok temperature ->
  py_int (map_get (cfg_llm cfg) "max_output_tokens" (PInt 2000)) = Ok max_output_tokens ->
  0 < retries ->
  let req := {| req_model := map_get (cfg_llm cfg) "model" (PStr "gpt-5.2");
                req_prompt := prompt; req_report := report_text;
                req_temperature := temperature;
                req_max_output_tokens := max_output_tokens |} in
  let attempt i := Spec.attempt_result client req (api_calls w + i) in
  exists last : nat,
    Z.of_nat last < retries
    /\ (forall i, (i < last)%nat -> is_ok (attempt i) = false)
    /\ (is_ok (attempt last) = false -> Z.of_nat last = retries - 1)
    /\ _extract_with_retry client prompt report_text cfg w
       = (attempt last,
          {| api_calls := api_calls w + last + 1;
             slept := slept w ++ Spec.backoff last |}).
Proof.
  intros Hr Ht Hm Hpos req attempt.
  rewrite (extract_with_retry_unfold _ _ _ _ _ _ _ _ Hr Ht Hm). fold req.
  destruct (first_success (fun i => is_ok (attempt i)) (Z.to_nat retries))
    as [Hall | (k & Hk & Hok & Hbefore)].
  - exists (Z.to_nat retries - 1)%nat.
    split; [lia |]. split; [intros i Hi; apply Hall; lia |]. split; [lia |].
    rewrite (retry_loop_exhausted client req retries (Z.to_nat retries - 1)
               (fun m => match Spec.attempt_result client req m with
                         | Raise e => e
                         | Ok _ => AttributeError
                         end) 1 w).
    + f_equal. unfold attempt.
      specialize (Hall (Z.to_nat retries - 1)%nat ltac:(lia)). unfold attempt in Hall.
      destruct (Spec.attempt_result client req (api_calls w + (Z.to_nat retries - 1)));
        [discriminate Hall | reflexivity].
    + lia.
    + intros i Hi. specialize (Hall i ltac:(lia)). unfold attempt in Hall.
      destruct (Spec.attempt_result client req (api_calls w + i));
        [discriminate Hall | reflexivity].
  - exists k. split; [lia |]. split; [exact Hbefore |].
    split; [intros Hfail; rewrite Hfail in Hok; discriminate Hok |].
    destruct (attempt k) as [parsed | e] eqn:Hattempt; [| discriminate Hok].
    apply (retry_loop_succeeds client req retries k parsed 1 w);
      [lia | exact Hbefore | exact Hattempt].
Qed.

(** X9: a PET extraction that fails for good discards the CT extraction
    that succeeded before it: the task raises, and the entry collected for
    the row has two empty mappings and the message of the PET error. *)
Theorem pet_failure_discards_ct (client : Client) (ct_prompt pet_prompt : string)
    (cfg : Config) (row : gmap string pyval) (idx : Z) (ct : pyval) (e : exn)
    (w1 w2 : World) :
  _extract_with_retry client ct_prompt (py_str (map_get row "ct_report" (PStr ""))) cfg
    {| api_calls := 0; slept := [] |} = (Ok ct, w1) ->
  _extract_with_retry client pet_prompt (py_str (map_get row "pt_report" (PStr ""))) cfg
    w1 = (Raise e, w2) ->
  Extraction.future_result client ct_prompt pet_prompt cfg row = Raise e
  /\ Extraction.collect idx (Extraction.future_result client ct_prompt pet_prompt cfg row)
     = {| Extraction.e_idx := idx; Extraction.e_ct := PDict ∅;
          Extraction.e_pet := PDict ∅; Extraction.e_error := exn_str e |}.
Proof.
  intros Hct Hpet.
  assert (Hfuture : Extraction.future_result client ct_prompt pet_prompt cfg row = Raise e).
  { unfold Extraction.future_result, Extraction._extract_pair, mbind.
    rewrite Hct, Hpet. reflexivity. }
  split; [exact Hfuture |]. rewrite Hfuture. reflexivity.
Qed.

End LlmMoreProps.

(** ** Extraction engine *)

Section ExtractionMoreProps.
Context `{Runtime}.
Import Extraction.
Local Open Scope list_scope.

(** [discovered_keys] raises exactly when some value is not a dict. *)
Lemma discovered_keys_cases (values : list pyval) :
  (forallb is_dict values = true
   /\ exists ds, values = PDict <$> ds /\ discovered_keys values = Ok (Spec.found ds))
  \/ (forallb is_dict values = false /\ discovered_keys values = Raise AttributeError).
Proof.
  induction values as [|v values IH].
  - left. split; [reflexivity |]. exists []. split; reflexivity.
  - destruct v as [|b|z|f|s|l|d];
      try (right; split; reflexivity).
    destruct IH as [(Hall & ds & -> & Hds) | (Hall & Hraise)].
    + left. split; [simpl; exact Hall |]. exists (d :: ds).
      split; [reflexivity |]. cbn [discovered_keys dict_keys bind].
      rewrite Hds. reflexivity.
    + right. split; [simpl; exact Hall |]. cbn [discovered_keys dict_keys bind].
      rewrite Hraise. reflexivity.
Qed.

(** X10: [_ordered_keys] returns exactly when every value is a dict; a value
    of any other kind makes it raise [AttributeError]. *)
Theorem ordered_keys_needs_dicts (values : list pyval) (expected : list string) :
  (forallb is_dict values = true -> is_ok (_ordered_keys values expected) = true)
  /\ (forallb is_dict values = false ->
      _ordered_keys values expected = Raise AttributeError).
Proof.
  unfold _ordered_keys.
  destruct (discovered_keys_cases values) as [(Hall & ds & _ & Hds) | (Hall & Hraise)].
  - rewrite Hds. split; [reflexivity | congruence].
  - rewrite Hraise. split; [congruence | reflexivity].
Qed.

Lemma forallb_perm {A} (f : A -> bool) (l l' : list A) :
  l ≡ₚ l' -> forallb f l = forallb f l'.
Proof.
  induction 1 as [| x l l' _ IH | x y l | l l' l'' _ IH1 _ IH2]; simpl.
  - reflexivity.
  - rewrite IH. reflexivity.
  - destruct (f x), (f y); reflexivity.
  - congruence.
Qed.

Lemma elem_of_dicts (ds : list (gmap string pyval)) (d : gmap string pyval) :
  PDict d ∈ PDict <$> ds <-> d ∈ ds.
Proof.
  rewrite list_elem_of_fmap. split.
  - intros (d' & [= ->] & Hd). exact Hd.
  - intros Hd. exists d. split; [reflexivity | exact Hd].
Qed.

Lemma found_perm (ds ds' : list (gmap string pyval)) :
  PDict <$> ds ≡ₚ PDict <$> ds' -> Spec.found ds = Spec.found ds'.
Proof.
  intros Hperm. apply set_eq. intros key.
  rewrite !elem_of_found. split; intros (d & Hd & Hkey); exists d; split;
    try assumption; apply elem_of_dicts; apply elem_of_dicts in Hd;
    [rewrite <- Hperm | rewrite Hperm]; assumption.
Qed.

(** X11: the keys [_ordered_keys] returns do not depend on the order of the
    values: any rearrangement of the results gives the same columns in the
    same order, and the same error. *)
Theorem ordered_keys_permutation (values values' : list pyval) (expected : list string) :
  values ≡ₚ values' ->
  _ordered_keys values expected = _ordered_keys values' expected.
Proof.
  intros Hperm. unfold _ordered_keys.
  destruct (discovered_keys_cases values) as [(Hall & ds & Hds & Hk) | (Hall & Hraise)];
    destruct (discovered_keys_cases values')
      as [(Hall' & ds' & Hds' & Hk') | (Hall' & Hraise')];
    rewrite (forallb_perm is_dict _ _ Hperm) in Hall; try congruence.
  rewrite Hk, Hk'. cbn [bind].
  assert (Hfound : Spec.found ds = Spec.found ds').
  { apply found_perm. subst values values'. exact Hperm. }
  rewrite Hfound. reflexivity.
Qed.

(** X12: for expected keys without repetition, the keys [_ordered_keys]
    returns are without repetition and are exactly the keys that occur in
    some value. *)
Theorem ordered_keys_exact (values : list pyval) (expected keys : list string) :
  NoDup expected ->
  _ordered_keys values expected = Ok keys ->
  NoDup keys
  /\ forall key, key ∈ keys <-> exists d, PDict d ∈ values /\ is_Some (d !! key).
Proof.
  intros Hnd Hkeys. unfold _ordered_keys in Hkeys.
  destruct (discovered_keys values) as [s|] eqn:Hs; [| discriminate Hkeys].
  apply discovered_keys_inv in Hs as (ds & -> & ->).
  cbn [bind] in Hkeys. injection Hkeys as <-.
  fold (Spec.ordered ds expected).
  split; [apply ordered_NoDup; exact Hnd |].
  intros key. rewrite elem_of_ordered, elem_of_found. split.
  - intros (d & Hd & Hkey). exists d. split; [| exact Hkey].
    apply elem_of_dicts. exact Hd.
  - intros (d & Hd & Hkey). exists d. split; [| exact Hkey].
    apply elem_of_dicts. exact Hd.
Qed.

Lemma sorted_by_length {A} (key : A -> Z) (l : list A) :
  length (sorted_by key l) = length l.
Proof. apply Permutation_length, sorted_by_perm. Qed.

Lemma key_inj_on {A} (key : A -> Z) (l : list A) (x y : A) :
  NoDup (key <$> l) -> x ∈ l -> y ∈ l -> key x = key y -> x = y.
Proof.
  induction l as [|z l IH]; intros Hnd Hx Hy Hkey; [inversion Hx |].
  rewrite fmap_cons in Hnd. apply NoDup_cons in Hnd as [Hz Hnd].
  apply elem_of_cons in Hx as [-> | Hx]; apply elem_of_cons in Hy as [-> | Hy].
  - reflexivity.
  - exfalso. apply Hz. rewrite Hkey. apply list_elem_of_fmap.
    exists y. split; [reflexivity | exact Hy].
  - exfalso. apply Hz. rewrite <- Hkey. apply list_elem_of_fmap.
    exists x. split; [reflexivity | exact Hx].
  - apply IH; assumption.
Qed.

(** Two arrangements of a list with distinct keys sort to the same list. *)
Lemma sorted_by_unique {A} (key : A -> Z) (l l1 l2 : list A) :
  NoDup (key <$> l) -> l1 ≡ₚ l -> l2 ≡ₚ l ->
  sorted_by key l1 = sorted_by key l2.
Proof.
  intros Hnd H1 H2.
  assert (Htrans : Transitive (key_le key))
    by (unfold key_le; intros x y z ? ?; lia).
  apply (Sorted_unique_strong (key_le key)).
  - intros x1 x2 Hx1 Hx2 H12 H21. unfold key_le in *.
    apply (key_inj_on key l); try assumption; [| | lia].
    + rewrite <- H1, <- (sorted_by_perm key l1). exact Hx1.
    + rewrite <- H2, <- (sorted_by_perm key l2). exact Hx2.
  - apply sorted_by_sorted.
  - apply sorted_by_sorted.
  - rewrite !sorted_by_perm, H1, H2. reflexivity.
Qed.

(** X13: with distinct index labels the outcome of [run_extraction] does
    not depend on the order in which the tasks complete. *)
Theorem completion_order_is_irrelevant (api : nat -> Llm.Client)
    (completed completed' : list nat) (df : DataFrame) (cfg : Config)
    (ct_prompt_path pet_prompt_path output_dir : string) (max_rows : option Z) :
  NoDup (Frame.index (truncate max_rows df)) ->
  completed ≡ₚ seq 0 (length (df_rows (truncate max_rows df))) ->
  completed' ≡ₚ seq 0 (length (df_rows (truncate max_rows df))) ->
  run_extraction api completed df cfg ct_prompt_path pet_prompt_path output_dir max_rows
  = run_extraction api completed' df cfg ct_prompt_path pet_prompt_path output_dir
      max_rows.
Proof.
  intros Hnd Hc Hc'. unfold run_extraction.
  destruct (negb (truthy (map_get (cfg_llm cfg) "api_key" PNone))); [reflexivity |].
  destruct (Llm._load_prompt ct_prompt_path) as [ct_prompt|]; [| reflexivity].
  destruct (Llm._load_prompt pet_prompt_path) as [pet_prompt|]; [| reflexivity].
  cbn [bind]. destruct (py_int _) as [max_workers|]; [| reflexivity]. cbn [bind].
  destruct (max_workers <=? 0); [reflexivity |].
  set (df' := truncate max_rows df) in *.
  set (futures := submit_all api ct_prompt pet_prompt cfg df').
  unfold attach_results.
  rewrite (sorted_by_unique e_idx (entries_of futures)
             (gather futures completed) (gather futures completed')).
  - reflexivity.
  - rewrite entries_of_idx. unfold futures. rewrite submit_all_index. exact Hnd.
  - apply gather_perm. unfold futures. rewrite submit_all_length. exact Hc.
  - apply gather_perm. unfold futures. rewrite submit_all_length. exact Hc'.
Qed.

Lemma gather_nil (completed : list nat) : gather [] completed = [].
Proof. induction completed as [|p ps IH]; [reflexivity | exact IH]. Qed.

Lemma ordered_nil (expected : list string) : Spec.ordered [] expected = [].
Proof.
  apply elem_of_nil_inv. intros key Hkey.
  apply elem_of_ordered in Hkey. unfold Spec.found in Hkey. simpl in Hkey.
  exact (not_elem_of_empty _ Hkey).
Qed.

(** X14: on a table without rows [run_extraction], its guards passed,
    calls nothing and writes nothing: it returns the empty table with the
    three result columns added to the columns it had. *)
Theorem run_extraction_empty_table (api : nat -> Llm.Client) (completed : list nat)
    (df : DataFrame) (cfg : Config) (ct_prompt_path pet_prompt_path output_dir : string)
    (max_rows : option Z) (ct_prompt pet_prompt : string) (max_workers : Z) :
  truthy (map_get (cfg_llm cfg) "api_key" PNone) = true ->
  Llm._load_prompt ct_prompt_path = Ok ct_prompt ->
  Llm._load_prompt pet_prompt_path = Ok pet_prompt ->
  py_int (map_get (cfg_llm cfg) "concurrency" (PInt 6)) = Ok max_workers ->
  0 < max_workers ->
  df_rows df = [] ->
  run_extraction api completed df cfg ct_prompt_path pet_prompt_path output_dir max_rows
  = Ok ({| df_cols := Spec.base_cols df; df_rows := [] |}, []).
Proof.
  intros Hkey Hct Hpet Hmw Hpos Hrows.
  rewrite (run_extraction_unfold _ _ _ _ _ _ _ _ _ _ _ Hkey Hct Hpet Hmw Hpos).
  assert (Hdf : truncate max_rows df = df).
  { destruct df as [cols rows]. simpl in Hrows. subst rows.
    unfold truncate, head. destruct max_rows as [n|]; [| reflexivity].
    destruct (negb (n =? 0)); [| reflexivity]. simpl. rewrite take_nil. reflexivity. }
  rewrite Hdf. unfold submit_all. rewrite Hrows. cbn [imap]. rewrite gather_nil.
  rewrite (attach_results_dicts df [] [] []) by (try reflexivity; rewrite Hrows; reflexivity).
  cbn [sorted_by]. unfold Spec.table_of. rewrite !ordered_nil.
  unfold Spec.flat_all. cbn [foldl]. unfold Spec.with_results, set_column.
  cbn [df_rows df_cols fmap list_fmap]. rewrite Hrows. reflexivity.
Qed.

(** X15: a negative [max_rows] is truthy as well: it drops that many rows
    from the end of the table, and every row when the table has no more. *)
Theorem negative_max_rows_drops_last (df : DataFrame) (n : Z) :
  n < 0 ->
  df_rows (truncate (Some n) df)
  = take (length (df_rows df) - Z.to_nat (- n)) (df_rows df)
  /\ df_cols (truncate (Some n) df) = df_cols df.
Proof.
  intros Hn. unfold truncate, head.
  destruct (n =? 0) eqn:Hz; [lia |]. cbn [negb].
  destruct (n <? 0) eqn:Hneg; [| lia]. cbn [df_rows df_cols].
  split; [| reflexivity]. f_equal. lia.
Qed.

Ltac column_len :=
  repeat (rewrite ?length_fmap, ?flat_column_length;
          first [assumption | reflexivity | rewrite set_column_length]).

Lemma entries_mappings (futures : list (Z * result (pyval * pyval))) :
  forallb (fun e => is_dict (e_ct e) && is_dict (e_pet e)) (entries_of futures)
  = forallb (fun f => Cells.mappings f.2) futures.
Proof.
  induction futures as [|[idx outcome] futures IH]; [reflexivity |].
  unfold entries_of in *. rewrite fmap_cons. cbn [forallb]. rewrite IH. f_equal.
  destruct outcome as [[ct pet]|e]; reflexivity.
Qed.

Lemma forallb_both {A} (f g : A -> bool) (l : list A) :
  forallb (fun x => f x && g x) l = forallb f l && forallb g l.
Proof.
  induction l as [|x l IH]; [reflexivity |]. cbn [forallb]. rewrite IH.
  destruct (f x), (g x), (forallb f l), (forallb g l); reflexivity.
Qed.

Lemma forallb_fmap {A B} (f : A -> B) (p : B -> bool) (l : list A) :
  forallb p (f <$> l) = forallb (fun x => p (f x)) l.
Proof.
  induction l as [|x l IH]; [reflexivity |]. rewrite fmap_cons. cbn [forallb].
  rewrite IH. reflexivity.
Qed.

(** X16: a task that succeeds with a result that is not a mapping aborts
    the whole run, unlike a task that fails: once all the tasks are
    gathered, the discovery of the keys raises [AttributeError] and no
    table is returned. *)
Theorem non_mapping_result_aborts_run (api : nat -> Llm.Client) (completed : list nat)
    (df : DataFrame) (cfg : Config) (ct_prompt_path pet_prompt_path output_dir : string)
    (max_rows : option Z) (ct_prompt pet_prompt : string) (max_workers : Z) :
  truthy (map_get (cfg_llm cfg) "api_key" PNone) = true ->
  Llm._load_prompt ct_prompt_path = Ok ct_prompt ->
  Llm._load_prompt pet_prompt_path = Ok pet_prompt ->
  py_int (map_get (cfg_llm cfg) "concurrency" (PInt 6)) = Ok max_workers ->
  0 < max_workers ->
  completed ≡ₚ seq 0 (length (df_rows (truncate max_rows df))) ->
  forallb (fun f => Cells.mappings f.2)
    (submit_all api ct_prompt pet_prompt cfg (truncate max_rows df)) = false ->
  run_extraction api completed df cfg ct_prompt_path pet_prompt_path output_dir max_rows
  = Raise AttributeError.
Proof.
  intros Hkey Hct Hpet Hmw Hpos Hperm Hbad.
  rewrite (run_extraction_unfold _ _ _ _ _ _ _ _ _ _ _ Hkey Hct Hpet Hmw Hpos).
  set (df' := truncate max_rows df) in *.
  set (futures := submit_all api ct_prompt pet_prompt cfg df') in *.
  assert (Hg : gather futures completed ≡ₚ entries_of futures).
  { apply gather_perm. unfold futures. rewrite submit_all_length. exact Hperm. }
  unfold attach_results.
  set (es := sorted_by e_idx (gather futures completed)).
  assert (Hes : es ≡ₚ entries_of futures)
    by (unfold es; rewrite sorted_by_perm; exact Hg).
  assert (Hlen : length es = length (df_rows df')).
  { rewrite (Permutation_length Hes). unfold entries_of, futures.
    rewrite length_fmap. apply submit_all_length. }
  rewrite setitem_ok by column_len. cbn [bind].
  rewrite setitem_ok by column_len. cbn [bind].
  rewrite setitem_ok by column_len. cbn [bind].
  rewrite <- entries_mappings in Hbad.
  rewrite <- (forallb_perm _ _ _ Hes), forallb_both in Hbad.
  rewrite <- (forallb_fmap e_ct is_dict), <- (forallb_fmap e_pet is_dict) in Hbad.
  unfold _ordered_keys.
  destruct (discovered_keys_cases (e_ct <$> es))
    as [(Hc & dc & _ & ->) | (_ & ->)]; [| reflexivity].
  cbn [bind].
  destruct (discovered_keys_cases (e_pet <$> es))
    as [(Hp & _) | (_ & ->)]; [| reflexivity].
  rewrite Hc, Hp in Hbad. discriminate Hbad.
Qed.

Lemma write_artifacts_inv (ct_out_dir pet_out_dir : string)
    (rows : list (Z * gmap string pyval)) (files : list Written) :
  write_artifacts ct_out_dir pet_out_dir rows = Ok files ->
  files = flat_map (fun r => Cells.files_of_row ct_out_dir pet_out_dir r.2) rows
  /\ Forall (fun r => is_str (map_get r.2 "ct_json" PNone) = true
                      /\ is_str (map_get r.2 "pet_json" PNone) = true) rows.
Proof.
  revert files. induction rows as [|[idx row] rows IH]; intros files Hw.
  - injection Hw as <-. split; [reflexivity | constructor].
  - cbn [write_artifacts] in Hw. cbv zeta in Hw. unfold map_get at 2 4 in Hw.
    unfold Cells.files_of_row, Cells.text_of. cbn [flat_map snd].
    destruct (row !! "ct_json") as [[| | | |ct_text| |]|] eqn:Hc;
      try discriminate Hw.
    destruct (row !! "pet_json") as [[| | | |pet_text| |]|] eqn:Hp;
      try discriminate Hw.
    cbn [write_text bind] in Hw.
    destruct (write_artifacts ct_out_dir pet_out_dir rows) as [more|];
      [| discriminate Hw].
    cbn [bind] in Hw. injection Hw as <-.
    destruct (IH more eq_refl) as [-> Hall]. split; [reflexivity |].
    constructor; [| exact Hall]. cbn [snd]. unfold map_get. rewrite Hc, Hp.
    split; reflexivity.
Qed.

(** X17: the files written by a run are, for every row of the returned
    table in row order, one file in [<output_dir>/ct] named after the
    row's [ct_study_uid] and one in [<output_dir>/pet] named after its
    [pt_study_uid] (the name [unknown] when the cell is missing), holding
    the text of the row's cells [ct_json] and [pet_json]; a row is written
    by no other file, so two files per row of the truncated input. *)
Theorem artifacts_written_per_row (api : nat -> Llm.Client) (completed : list nat)
    (df out : DataFrame) (cfg : Config)
    (ct_prompt_path pet_prompt_path output_dir : string)
    (max_rows : option Z) (files : list Written) :
  run_extraction api completed df cfg ct_prompt_path pet_prompt_path output_dir max_rows
  = Ok (out, files) ->
  files = flat_map (fun r => Cells.files_of_row (output_dir ++ "/ct")%string
                               (output_dir ++ "/pet")%string r.2) (df_rows out)
  /\ length files = (2 * length (df_rows (truncate max_rows df)))%nat
  /\ Forall (fun r => is_str (map_get r.2 "ct_json" PNone) = true
                      /\ is_str (map_get r.2 "pet_json" PNone) = true) (df_rows out).
Proof.
  intros Hrun.
  destruct (run_extraction_inv _ _ _ _ _ _ _ _ _ Hrun)
    as (ct_prompt & pet_prompt & Hct & Hpet & Hattach).
  destruct (attach_results_inv _ _ _ _ _ _ Hattach)
    as (cts & pets & Hcts & Hpets & Hlen & Hout).
  set (df' := truncate max_rows df) in *.
  set (es := sorted_by e_idx _) in *.
  assert (Hl1 : length cts = length es).
  { rewrite <- (length_fmap e_ct es), Hcts. symmetry. apply length_fmap. }
  assert (Hl2 : length pets = length es).
  { rewrite <- (length_fmap e_pet es), Hpets. symmetry. apply length_fmap. }
  rewrite (attach_results_dicts df' _ cts pets _ _ Hcts Hpets Hlen) in Hattach.
  fold es in Hattach. rewrite <- Hout in Hattach.
  destruct (write_artifacts _ _ (df_rows out)) as [files'|] eqn:Hw;
    [| discriminate Hattach].
  cbn [bind] in Hattach. injection Hattach as <-.
  destruct (write_artifacts_inv _ _ _ _ Hw) as [Hfiles Hall].
  split; [exact Hfiles |]. split; [| exact Hall].
  rewrite Hfiles, <- (table_rows_length df' es cts pets Hlen Hl1 Hl2), <- Hout.
  clear. induction (df_rows out) as [|r rows IH]; [reflexivity |].
  cbn [flat_map]. rewrite length_app, IH. simpl. lia.
Qed.

Lemma with_results_cell_other (df : DataFrame) (es : list Entry) (i : nat)
    (name : string) :
  length es = length (df_rows df) ->
  name <> "ct_json" -> name <> "pet_json" -> name <> "extraction_error" ->
  Frame.cell (Spec.with_results df es) i name = Frame.cell df i name.
Proof.
  intros Hlen H1 H2 H3. unfold Spec.with_results.
  rewrite cell_set_column by column_len.
  destruct (decide (name = "extraction_error")); [contradiction |].
  rewrite cell_set_column by column_len.
  destruct (decide (name = "pet_json")); [contradiction |].
  rewrite cell_set_column by column_len.
  destruct (decide (name = "ct_json")); [contradiction | reflexivity].
Qed.

(** X18: a run keeps the index labels of the (truncated) input and, with
    [cts] and [pets] the results it attaches, the cells of every column
    it does not assign: those not named [ct_json], [pet_json] or
    [extraction_error], nor [ct_<key>] for a key of a CT result, nor
    [pet_<key>] for a key of a PET result.  An input column so named, such
    as [ct_report] when a result has the key [report], is overwritten. *)
Theorem run_extraction_keeps_other_cells (api : nat -> Llm.Client)
    (completed : list nat) (df out : DataFrame) (cfg : Config)
    (ct_prompt_path pet_prompt_path output_dir : string)
    (max_rows : option Z) (files : list Written) :
  run_extraction api completed df cfg ct_prompt_path pet_prompt_path output_dir max_rows
  = Ok (out, files) ->
  Frame.index out = Frame.index (truncate max_rows df)
  /\ exists (entries : list Entry) (cts pets : list (gmap string pyval)),
       Spec.attached api completed df cfg ct_prompt_path pet_prompt_path max_rows
       = Ok entries
       /\ (e_ct <$> entries) = (PDict <$> cts)
       /\ (e_pet <$> entries) = (PDict <$> pets)
       /\ (forall i name,
             name ∉ ["ct_json"; "pet_json"; "extraction_error"] ->
             (forall key, key ∈ Spec.found cts -> name <> ("ct_" ++ key)%string) ->
             (forall key, key ∈ Spec.found pets -> name <> ("pet_" ++ key)%string) ->
             Frame.cell out i name = Frame.cell (truncate max_rows df) i name)
       /\ (forall i key text,
             key ∈ Spec.found cts ->
             Frame.cell (truncate max_rows df) i ("ct_" ++ key)%string = Some text ->
             exists d, cts !! i = Some d
               /\ Frame.cell out i ("ct_" ++ key)%string
                  = Some match d !! key with
                         | Some v => _normalize_json_value v
                         | None => PStr ""
                         end).
Proof.
  intros Hrun.
  destruct (run_extraction_inv _ _ _ _ _ _ _ _ _ Hrun)
    as (ct_prompt & pet_prompt & Hct & Hpet & Hattach).
  destruct (attach_results_inv _ _ _ _ _ _ Hattach)
    as (cts & pets & Hcts & Hpets & Hlen & Hout).
  set (df' := truncate max_rows df) in *.
  set (es := sorted_by e_idx _) in *.
  assert (Hl1 : length cts = length es).
  { rewrite <- (length_fmap e_ct es), Hcts. symmetry. apply length_fmap. }
  assert (Hl2 : length pets = length es).
  { rewrite <- (length_fmap e_pet es), Hpets. symmetry. apply length_fmap. }
  split.
  { rewrite Hout. apply table_index; assumption. }
  exists es, cts, pets.
  split.
  { unfold Spec.attached. rewrite Hct, Hpet. reflexivity. }
  split; [exact Hcts |]. split; [exact Hpets |]. split.
  - intros i name Hname Hc Hp. rewrite Hout. unfold Spec.table_of.
    rewrite flat_all_cell_other.
    + rewrite flat_all_cell_other.
      * apply with_results_cell_other; [exact Hlen | | |];
          intros ->; apply Hname; set_solver.
      * rewrite with_results_length by assumption. congruence.
      * intros key Hk. apply Hc. apply elem_of_ordered in Hk. exact Hk.
    + rewrite flat_all_length; rewrite with_results_length by assumption; congruence.
    + intros key Hk. apply Hp. apply elem_of_ordered in Hk. exact Hk.
  - intros i key text Hkey Hcell.
    assert (Hi : (i < length cts)%nat).
    { unfold Frame.cell in Hcell.
      destruct (df_rows df' !! i) as [r|] eqn:Hr; [| discriminate Hcell].
      apply lookup_lt_Some in Hr. lia. }
    destruct (lookup_lt_is_Some_2 cts i Hi) as [d Hd].
    exists d. split; [exact Hd |].
    destruct (table_columns df' es cts pets Hlen Hl1 Hl2) as (_ & Hmc & _).
    rewrite Hout. apply Hmc; [| exact Hd].
    apply elem_of_ordered. exact Hkey.
Qed.

Lemma normalize_scalar (v : pyval) : Cells.scalar (_normalize_json_value v) = true.
Proof. destruct v; reflexivity. Qed.

(** X19: every cell of a column that a run adds by flattening holds a
    scalar: a string, a number or a boolean, never [None], a list or a
    mapping. *)
Theorem flattened_cells_are_scalars (api : nat -> Llm.Client) (completed : list nat)
    (df out : DataFrame) (cfg : Config)
    (ct_prompt_path pet_prompt_path output_dir : string)
    (max_rows : option Z) (files : list Written) :
  run_extraction api completed df cfg ct_prompt_path pet_prompt_path output_dir max_rows
  = Ok (out, files) ->
  forall name i,
    name ∈ df_cols out -> name ∉ Spec.base_cols (truncate max_rows df) ->
    (i < length (df_rows out))%nat ->
    exists v, Frame.cell out i name = Some v /\ Cells.scalar v = true.
Proof.
  intros Hrun name i Hin Hbase Hi.
  destruct (run_extraction_inv _ _ _ _ _ _ _ _ _ Hrun)
    as (ct_prompt & pet_prompt & Hct & Hpet & Hattach).
  destruct (attach_results_inv _ _ _ _ _ _ Hattach)
    as (cts & pets & Hcts & Hpets & Hlen & Hout).
  set (df' := truncate max_rows df) in *.
  set (es := sorted_by e_idx _) in *.
  assert (Hl1 : length cts = length es).
  { rewrite <- (length_fmap e_ct es), Hcts. symmetry. apply length_fmap. }
  assert (Hl2 : length pets = length es).
  { rewrite <- (length_fmap e_pet es), Hpets. symmetry. apply length_fmap. }
  destruct (table_columns df' es cts pets Hlen Hl1 Hl2) as (Hcols & Hmc & Hmp).
  rewrite <- Hout in Hcols, Hmc, Hmp.
  rewrite Hout, table_rows_length in Hi by assumption.
  rewrite Hcols in Hin. apply elem_of_app in Hin as [Hin | Hin]; [contradiction |].
  apply list_elem_of_filter in Hin as [_ Hin].
  apply elem_of_app in Hin as [Hin | Hin];
    apply list_elem_of_fmap in Hin as (key & -> & Hkey).
  - destruct (lookup_lt_is_Some_2 cts i ltac:(lia)) as [d Hd].
    rewrite (Hmc key Hkey i d Hd). eexists. split; [reflexivity |].
    destruct (d !! key); [apply normalize_scalar | reflexivity].
  - destruct (lookup_lt_is_Some_2 pets i ltac:(lia)) as [d Hd].
    rewrite (Hmp key Hkey i d Hd). eexists. split; [reflexivity |].
    destruct (d !! key); [apply normalize_scalar | reflexivity].
Qed.

End ExtractionMoreProps.

(** ** The whole run: extraction, then selection *)

Section PipelineProps.
Context `{Runtime}.
Import Selection Audit Extraction Pipeline.
Local Open Scope list_scope.

Lemma apply_selection_inv (df selected audit : DataFrame) (cfg : Config) :
  apply_selection df cfg = Ok (selected, audit) ->
  forallb (fun r => is_ok (evaluate_row r.2 cfg)) (df_rows df) = true
  /\ df_rows selected = filter (fun r => passes cfg r = true) (df_rows df)
  /\ df_rows audit = imap (fun i record => (Z.of_nat i, record))
                       (audit_of cfg <$> df_rows df).
Proof.
  intros Hrun. unfold apply_selection in Hrun.
  destruct (forallb (fun r => is_ok (evaluate_row r.2 cfg)) (df_rows df)) eqn:Hall.
  - rewrite (select_loop_ok _ _ [] [] Hall) in Hrun. cbn in Hrun.
    injection Hrun as <- <-. repeat split.
  - pose proof (select_loop_raises _ _ [] [] Hall) as Hraise.
    destruct (select_loop (df_rows df) cfg [] []); [discriminate Hraise | discriminate Hrun].
Qed.

(** What the selection makes of one row whose verdict is known. *)
Lemma apply_selection_row (df selected audit : DataFrame) (cfg : Config)
    (p : nat) (idx : Z) (row : Row) (include : bool) (reasons : list string) :
  apply_selection df cfg = Ok (selected, audit) ->
  df_rows df !! p = Some (idx, row) ->
  evaluate_row row cfg = Ok (include, reasons) ->
  df_rows audit !! p = Some (Z.of_nat p, audit_entry row include reasons)
  /\ ((idx, row) ∈ df_rows selected -> include = true)
  /\ (include = true -> (idx, row) ∈ df_rows selected).
Proof.
  intros Hsel Hp Heval.
  destruct (apply_selection_inv _ _ _ _ Hsel) as (_ & Hs & Ha).
  rewrite Hs, Ha. unfold Row in *. split; [| split].
  - rewrite list_lookup_imap, list_lookup_fmap, Hp. simpl.
    unfold audit_of. simpl. rewrite Heval. reflexivity.
  - intros Hin. apply list_elem_of_filter in Hin as [Hpass _].
    unfold passes in Hpass. simpl in Hpass. rewrite Heval in Hpass. exact Hpass.
  - intros ->. apply list_elem_of_filter. split.
    + unfold passes. simpl. rewrite Heval. reflexivity.
    + eapply list_elem_of_lookup_2. exact Hp.
Qed.

(** The row that the table of a run on well-typed outcomes has for the
    task at position [p]. *)
Lemma typed_table_row (df : DataFrame) (futures : list (Z * result (pyval * pyval)))
    (p : nat) (idx : Z) (outcome : result (pyval * pyval)) :
  futures.*1 = Frame.index df ->
  forallb Spec.outcome_typed futures.*2 = true ->
  futures !! p = Some (idx, outcome) ->
  exists row,
    df_rows (Spec.table_of df (entries_of futures)
               ((fun f => Spec.ct_of f.2) <$> futures)
               ((fun f => Spec.pet_of f.2) <$> futures)) !! p = Some (idx, row)
    /\ row !! "extraction_error" = Some (PStr (e_error (collect idx outcome)))
    /\ row !! "ct_json" = Some (PStr (json_dumps (e_ct (collect idx outcome))))
    /\ row !! "pet_json" = Some (PStr (json_dumps (e_pet (collect idx outcome)))).
Proof.
  intros Hidx Htyped Hp.
  destruct (entries_typed futures Htyped) as (_ & _ & Hjc & Hjp).
  assert (Hlen : length (entries_of futures) = length (df_rows df)).
  { unfold entries_of. rewrite length_fmap.
    rewrite <- (length_fmap fst futures), Hidx. unfold Frame.index.
    apply length_fmap. }
  assert (Hl1 : length ((fun f => Spec.ct_of f.2) <$> futures)
                = length (entries_of futures))
    by (unfold entries_of; rewrite !length_fmap; reflexivity).
  assert (Hl2 : length ((fun f => Spec.pet_of f.2) <$> futures)
                = length (entries_of futures))
    by (unfold entries_of; rewrite !length_fmap; reflexivity).
  set (table := Spec.table_of _ _ _ _).
  assert (Hi : (p < length (df_rows table))%nat).
  { unfold table. rewrite table_rows_length by assumption.
    rewrite <- Hlen. unfold entries_of. rewrite length_fmap.
    eapply lookup_lt_Some. exact Hp. }
  destruct (lookup_lt_is_Some_2 _ _ Hi) as [[idx' row] Hr].
  assert (Hsame : idx' = idx).
  { pose proof (table_index df (entries_of futures) _ _ Hlen Hl1 Hl2) as Hti.
    fold table in Hti. rewrite <- Hidx in Hti.
    apply (f_equal (fun l => l !! p)) in Hti. unfold Frame.index in Hti.
    rewrite !list_lookup_fmap, Hr, Hp in Hti. simpl in Hti. congruence. }
  subst idx'. exists row. split; [exact Hr |].
  assert (Hcell : forall name, Frame.cell table p name = row !! name).
  { intros name. unfold Frame.cell. rewrite Hr. reflexivity. }
  destruct (with_results_cells df (entries_of futures) p Hlen) as (Hc1 & Hc2 & Hc3).
  rewrite <- !Hcell. unfold table.
  rewrite !table_result_cells by (auto; tauto).
  rewrite Hc1, Hc2, Hc3. unfold entries_of. rewrite list_lookup_fmap, Hp.
  repeat split.
Qed.


(** X20: in a whole run (extraction, then selection of the extracted
    table) a pair whose task raised with a non-empty message is never
    selected: its row is audited as rejected for the one reason
    [extraction_error], whatever the other rows hold. *)
Theorem failed_pair_is_never_selected (api : nat -> Llm.Client) (completed : list nat)
    (df : DataFrame) (cfg : Config) (ct_prompt_path pet_prompt_path output_dir : string)
    (max_rows : option Z) (ct_prompt pet_prompt : string)
    (extracted selected audit : DataFrame) (p : nat) (idx : Z) (exc : exn) :
  Llm._load_prompt ct_prompt_path = Ok ct_prompt ->
  Llm._load_prompt pet_prompt_path = Ok pet_prompt ->
  let df' := truncate max_rows df in
  let futures := submit_all api ct_prompt pet_prompt cfg df' in
  completed ≡ₚ seq 0 (length futures) ->
  StronglySorted Z.lt (Frame.index df') ->
  forallb Spec.outcome_typed futures.*2 = true ->
  extract_then_select api completed df cfg ct_prompt_path pet_prompt_path output_dir
    max_rows = Ok (extracted, selected, audit) ->
  futures !! p = Some (idx, Raise exc) ->
  exn_str exc <> "" ->
  exists row,
    df_rows extracted !! p = Some (idx, row)
    /\ row !! "extraction_error" = Some (PStr (exn_str exc))
    /\ ((idx, row) ∉ df_rows selected)
    /\ df_rows audit !! p
       = Some (Z.of_nat p, audit_entry row false ["extraction_error"]).
Proof.
  intros Hct Hpet df' futures Hperm Hsorted Htyped Hrun Hp Hmsg.
  unfold extract_then_select in Hrun.
  destruct (run_extraction _ _ _ _ _ _ _ _) as [[out files]|] eqn:Hext;
    [| discriminate Hrun].
  cbn [bind fst] in Hrun.
  destruct (apply_selection out cfg) as [[sel aud]|] eqn:Hsel; [| discriminate Hrun].
  cbn [bind fst snd] in Hrun. injection Hrun as -> -> ->.
  assert (Hguards : truthy (map_get (cfg_llm cfg) "api_key" PNone) = true
                    /\ exists mw, py_int (map_get (cfg_llm cfg) "concurrency" (PInt 6))
                                  = Ok mw /\ 0 < mw).
  { unfold run_extraction in Hext.
    destruct (truthy (map_get (cfg_llm cfg) "api_key" PNone)); [| discriminate Hext].
    split; [reflexivity |]. rewrite Hct, Hpet in Hext. cbn [negb bind] in Hext.
    destruct (py_int _) as [mw|]; [| discriminate Hext]. cbn [bind] in Hext.
    exists mw. split; [reflexivity |].
    destruct (mw <=? 0) eqn:Hle; [discriminate Hext | lia]. }
  destruct Hguards as (Hkey & mw & Hmw & Hpos).
  destruct (run_extraction_typed api completed df cfg ct_prompt_path pet_prompt_path
              output_dir max_rows ct_prompt pet_prompt mw
              Hkey Hct Hpet Hmw Hpos Hperm Hsorted Htyped) as [files' Hrun'].
  rewrite Hrun' in Hext. injection Hext as Hout _.
  destruct (typed_table_row df' futures p idx (Raise exc)) as (row & Hr & He & _).
  { apply submit_all_index. }
  { exact Htyped. }
  { exact Hp. }
  fold df' in Hout. fold futures in Hout. rewrite Hout in Hr.
  cbn [collect e_error] in He.
  assert (Heval : evaluate_row row cfg = Ok (false, ["extraction_error"])).
  { apply evaluate_row_guard. unfold row_get, map_get, Row in *. rewrite He.
    cbn [truthy]. destruct (String.eqb (exn_str exc) "") eqn:Heq; [| reflexivity].
    apply String.eqb_eq in Heq. contradiction. }
  destruct (apply_selection_row _ _ _ _ _ _ _ _ _ Hsel Hr Heval) as (Ha & Hs & _).
  exists row. split; [exact Hr |]. split; [exact He |]. split; [| exact Ha].
  intros Hin. specialize (Hs Hin). discriminate Hs.
Qed.


End PipelineProps.

(** ** Environment overrides of the configuration *)

Section EnvProps.
Import Env.

Lemma section_set_ok (cfg : gmap string pyval) (section key : string) (value : pyval) :
  is_ok (section_set cfg section key value) = writable cfg section
  /\ forall e, section_set cfg section key value = Raise e -> e = TypeError.
Proof.
  unfold section_set, writable.
  destruct (cfg !! section) as [[| | | | | |d]|]; split; try reflexivity;
    intros e He; congruence.
Qed.

Lemma section_set_setting (cfg cfg' : gmap string pyval) (section key : string)
    (value : pyval) (section' key' : string) :
  section_set cfg section key value = Ok cfg' ->
  setting cfg' section' key'
  = if decide (section' = section /\ key' = key) then Some value
    else setting cfg section' key'.
Proof.
  unfold section_set, setting. intros Hset.
  destruct (cfg !! section) as [[| | | | | |d]|] eqn:Hs; try discriminate Hset;
    injection Hset as <-.
  - destruct (decide (section' = section)) as [-> | Hne].
    + rewrite lookup_insert_eq, Hs.
      destruct (decide (key' = key)) as [-> | Hk].
      * rewrite lookup_insert_eq. destruct (decide _) as [_ | Hn]; [reflexivity |].
        exfalso. apply Hn. split; reflexivity.
      * rewrite lookup_insert_ne by congruence.
        destruct (decide _) as [[_ Heq] | _]; [contradiction | reflexivity].
    + rewrite lookup_insert_ne by congruence.
      destruct (decide _) as [[Heq _] | _]; [contradiction | reflexivity].
  - destruct (decide (section' = section)) as [-> | Hne].
    + rewrite lookup_insert_eq, Hs.
      destruct (decide (key' = key)) as [-> | Hk].
      * rewrite lookup_singleton_eq. destruct (decide _) as [_ | Hn]; [reflexivity |].
        exfalso. apply Hn. split; reflexivity.
      * rewrite lookup_singleton_ne by congruence.
        destruct (decide _) as [[_ Heq] | _]; [contradiction | reflexivity].
    + rewrite lookup_insert_ne by congruence.
      destruct (decide _) as [[Heq _] | _]; [contradiction | reflexivity].
Qed.

Lemma section_set_other (cfg cfg' : gmap string pyval) (section key : string)
    (value : pyval) (section' : string) :
  section_set cfg section key value = Ok cfg' ->
  section' <> section -> cfg' !! section' = cfg !! section'.
Proof.
  unfold section_set. intros Hset Hne.
  destruct (cfg !! section) as [[| | | | | |d]|]; try discriminate Hset;
    injection Hset as <-; apply lookup_insert_ne; congruence.
Qed.

Lemma section_set_writable (cfg cfg' : gmap string pyval) (section key : string)
    (value : pyval) (section' : string) :
  section_set cfg section key value = Ok cfg' ->
  writable cfg' section' = writable cfg section'.
Proof.
  intros Hset. destruct (decide (section' = section)) as [-> | Hne].
  - unfold section_set in Hset. unfold writable.
    destruct (cfg !! section) as [[| | | | | |d]|]; try discriminate Hset;
      injection Hset as <-; rewrite lookup_insert_eq; reflexivity.
  - unfold writable. rewrite (section_set_other _ _ _ _ _ _ Hset Hne). reflexivity.
Qed.

Lemma section_set_again (cfg : gmap string pyval) (section key : string)
    (value : pyval) :
  setting cfg section key = Some value ->
  section_set cfg section key value = Ok cfg.
Proof.
  unfold setting, section_set. intros Hs.
  destruct (cfg !! section) as [[| | | | | |d]|] eqn:Hsec; try discriminate Hs.
  rewrite (insert_id d key value Hs), (insert_id cfg section (PDict d) Hsec).
  reflexivity.
Qed.

Lemma override_cases (env : Environ) (name section key : string)
    (cfg : gmap string pyval) :
  (is_set env name = false /\ override env name section key cfg = Ok cfg)
  \/ exists value,
       is_set env name = true /\ env !! name = Some value
       /\ override env name section key cfg = section_set cfg section key (PStr value).
Proof.
  unfold is_set, override. destruct (env !! name) as [value|]; [| left; split; reflexivity].
  destruct (negb (String.eqb value "")); [| left; split; reflexivity].
  right. exists value. repeat split.
Qed.

Lemma override_setting (env : Environ) (name section key : string)
    (cfg cfg' : gmap string pyval) (section' key' : string) :
  override env name section key cfg = Ok cfg' ->
  setting cfg' section' key'
  = if is_set env name && bool_decide (section' = section /\ key' = key)
    then PStr <$> env !! name
    else setting cfg section' key'.
Proof.
  intros Hov.
  destruct (override_cases env name section key cfg)
    as [(Hset & Heq) | (value & Hset & Henv & Heq)]; rewrite Heq in Hov; rewrite Hset.
  - injection Hov as <-. reflexivity.
  - rewrite (section_set_setting _ _ _ _ _ _ _ Hov), Henv. cbn [andb].
    destruct (decide _) as [Hd | Hd].
    + rewrite bool_decide_eq_true_2 by exact Hd. reflexivity.
    + rewrite bool_decide_eq_false_2 by exact Hd. reflexivity.
Qed.

Lemma override_other (env : Environ) (name section key : string)
    (cfg cfg' : gmap string pyval) (section' : string) :
  override env name section key cfg = Ok cfg' ->
  section' <> section -> cfg' !! section' = cfg !! section'.
Proof.
  intros Hov Hne.
  destruct (override_cases env name section key cfg)
    as [(_ & Heq) | (value & _ & _ & Heq)]; rewrite Heq in Hov.
  - injection Hov as <-. reflexivity.
  - exact (section_set_other _ _ _ _ _ _ Hov Hne).
Qed.

Lemma override_writable (env : Environ) (name section key : string)
    (cfg cfg' : gmap string pyval) (section' : string) :
  override env name section key cfg = Ok cfg' ->
  writable cfg' section' = writable cfg section'.
Proof.
  intros Hov.
  destruct (override_cases env name section key cfg)
    as [(_ & Heq) | (value & _ & _ & Heq)]; rewrite Heq in Hov.
  - injection Hov as <-. reflexivity.
  - exact (section_set_writable _ _ _ _ _ _ Hov).
Qed.

Lemma override_ok (env : Environ) (name section key : string)
    (cfg : gmap string pyval) :
  is_ok (override env name section key cfg)
  = implb (is_set env name) (writable cfg section)
  /\ forall e, override env name section key cfg = Raise e -> e = TypeError.
Proof.
  destruct (override_cases env name section key cfg)
    as [(Hset & Heq) | (value & Hset & _ & Heq)]; rewrite Heq, Hset.
  - split; [reflexivity | discriminate].
  - apply section_set_ok.
Qed.

Lemma override_again (env : Environ) (name section key : string)
    (cfg : gmap string pyval) :
  (is_set env name = true -> setting cfg section key = PStr <$> env !! name) ->
  override env name section key cfg = Ok cfg.
Proof.
  intros Hs.
  destruct (override_cases env name section key cfg)
    as [(_ & Heq) | (value & Hset & Henv & Heq)]; rewrite Heq; [reflexivity |].
  apply section_set_again. rewrite (Hs Hset), Henv. reflexivity.
Qed.

Lemma apply_env_overrides_inv (env : Environ) (cfg cfg' : gmap string pyval) :
  _apply_env_overrides env cfg = Ok cfg' ->
  exists cfg1 cfg2,
    override env "BQ_PROJECT" "bigquery" "project" cfg = Ok cfg1
    /\ override env "GOOGLE_APPLICATION_CREDENTIALS" "bigquery" "credentials" cfg1
       = Ok cfg2
    /\ override env "OPENAI_API_KEY" "llm" "api_key" cfg2 = Ok cfg'.
Proof.
  unfold _apply_env_overrides. intros Hrun.
  destruct (override env "BQ_PROJECT" _ _ cfg) as [cfg1|] eqn:H1; [| discriminate Hrun].
  cbn [bind] in Hrun.
  destruct (override env "GOOGLE_APPLICATION_CREDENTIALS" _ _ cfg1) as [cfg2|] eqn:H2;
    [| discriminate Hrun].
  cbn [bind] in Hrun. exists cfg1, cfg2. split; [reflexivity |].
  split; [exact H2 | exact Hrun].
Qed.

Lemma apply_env_overrides_setting (env : Environ) (cfg cfg' : gmap string pyval)
    (name section key : string) :
  _apply_env_overrides env cfg = Ok cfg' ->
  (name, section, key) ∈ overrides ->
  setting cfg' section key
  = if is_set env name then PStr <$> env !! name else setting cfg section key.
Proof.
  intros Hrun Hin.
  destruct (apply_env_overrides_inv _ _ _ Hrun) as (cfg1 & cfg2 & H1 & H2 & H3).
  rewrite (override_setting _ _ _ _ _ _ section key H3).
  rewrite (override_setting _ _ _ _ _ _ section key H2).
  rewrite (override_setting _ _ _ _ _ _ section key H1).
  unfold overrides in Hin.
  repeat (apply elem_of_cons in Hin as [Hin | Hin];
          [injection Hin as -> -> ->;
           repeat (first [rewrite bool_decide_eq_true_2 by (split; reflexivity)
                         | rewrite bool_decide_eq_false_2
                             by (intros [? ?]; discriminate)]);
           rewrite ?andb_true_r, ?andb_false_r;
           destruct (is_set env _); reflexivity |]).
  inversion Hin.
Qed.

(** X22: when [_apply_env_overrides] returns, each of the three settings it
    governs holds the value of its environment variable when that variable
    is set to a non-empty string, and what the configuration had before
    otherwise (an empty variable counts as unset); every other setting,
    and every section other than [bigquery] and [llm], is left as it
    was. *)
Theorem env_overrides_take_precedence (env : Environ) (cfg cfg' : gmap string pyval) :
  _apply_env_overrides env cfg = Ok cfg' ->
  (forall name section key,
     (name, section, key) ∈ overrides ->
     setting cfg' section key
     = if is_set env name then PStr <$> env !! name else setting cfg section key)
  /\ (forall section key,
        (forall name, (name, section, key) ∉ overrides) ->
        setting cfg' section key = setting cfg section key)
  /\ (forall section,
        section <> "bigquery" -> section <> "llm" -> cfg' !! section = cfg !! section).
Proof.
  intros Hrun. split; [| split].
  - intros name section key Hin. exact (apply_env_overrides_setting _ _ _ _ _ _ Hrun Hin).
  - intros section key Hout.
    destruct (apply_env_overrides_inv _ _ _ Hrun) as (cfg1 & cfg2 & H1 & H2 & H3).
    rewrite (override_setting _ _ _ _ _ _ section key H3).
    rewrite (override_setting _ _ _ _ _ _ section key H2).
    rewrite (override_setting _ _ _ _ _ _ section key H1).
    rewrite !bool_decide_eq_false_2, !andb_false_r; [reflexivity | | |];
      intros [-> ->];
      first [ apply (Hout "BQ_PROJECT"); unfold overrides; solve [set_solver]
            | apply (Hout "GOOGLE_APPLICATION_CREDENTIALS"); unfold overrides;
              solve [set_solver]
            | apply (Hout "OPENAI_API_KEY"); unfold overrides; solve [set_solver] ].
  - intros section Hb Hl.
    destruct (apply_env_overrides_inv _ _ _ Hrun) as (cfg1 & cfg2 & H1 & H2 & H3).
    rewrite (override_other _ _ _ _ _ _ _ H3 Hl).
    rewrite (override_other _ _ _ _ _ _ _ H2 Hb).
    exact (override_other _ _ _ _ _ _ _ H1 Hb).
Qed.

(** X23: [_apply_env_overrides] fails only by [TypeError], and exactly
    when a variable that is set has to be written into a section that the
    configuration has but that is not a mapping (as the empty section
    [llm:] of a YAML file, which is [None]). *)
Theorem env_overrides_need_mappings (env : Environ) (cfg : gmap string pyval) :
  is_ok (_apply_env_overrides env cfg)
  = implb (is_set env "BQ_PROJECT" || is_set env "GOOGLE_APPLICATION_CREDENTIALS")
      (writable cfg "bigquery")
    && implb (is_set env "OPENAI_API_KEY") (writable cfg "llm")
  /\ forall e, _apply_env_overrides env cfg = Raise e -> e = TypeError.
Proof.
  unfold _apply_env_overrides.
  destruct (override_ok env "BQ_PROJECT" "bigquery" "project" cfg) as [Ho1 He1].
  destruct (override env "BQ_PROJECT" _ _ cfg) as [cfg1|e1] eqn:H1; cbn [bind].
  - destruct (override_ok env "GOOGLE_APPLICATION_CREDENTIALS" "bigquery"
                "credentials" cfg1) as [Ho2 He2].
    rewrite (override_writable _ _ _ _ _ _ "bigquery" H1) in Ho2.
    destruct (override env "GOOGLE_APPLICATION_CREDENTIALS" _ _ cfg1) as [cfg2|e2]
      eqn:H2; cbn [bind].
    + destruct (override_ok env "OPENAI_API_KEY" "llm" "api_key" cfg2) as [Ho3 He3].
      rewrite (override_writable _ _ _ _ _ _ "llm" H2) in Ho3.
      rewrite (override_writable _ _ _ _ _ _ "llm" H1) in Ho3.
      split; [| exact He3]. rewrite Ho3. cbn [is_ok] in Ho1, Ho2.
      destruct (is_set env "BQ_PROJECT"), (is_set env "GOOGLE_APPLICATION_CREDENTIALS"),
        (writable cfg "bigquery"); cbn in *; congruence.
    + split; [| intros e He; apply He2; congruence]. cbn [is_ok] in *.
      destruct (is_set env "BQ_PROJECT"), (is_set env "GOOGLE_APPLICATION_CREDENTIALS"),
        (writable cfg "bigquery"); cbn in *; congruence.
  - split; [| intros e He; apply He1; congruence]. cbn [is_ok] in *.
    destruct (is_set env "BQ_PROJECT"), (writable cfg "bigquery"); cbn in *; congruence.
Qed.

(** X24: applying the overrides a second time, under the same
    environment, changes nothing. *)
Theorem env_overrides_idempotent (env : Environ) (cfg cfg' : gmap string pyval) :
  _apply_env_overrides env cfg = Ok cfg' ->
  _apply_env_overrides env cfg' = Ok cfg'.
Proof.
  intros Hrun.
  assert (Hs : forall name section key,
             (name, section, key) ∈ overrides ->
             override env name section key cfg' = Ok cfg').
  { intros name section key Hin. apply override_again. intros Hset.
    rewrite (apply_env_overrides_setting _ _ _ _ _ _ Hrun Hin), Hset. reflexivity. }
  unfold _apply_env_overrides.
  rewrite (Hs "BQ_PROJECT" "bigquery" "project") by (unfold overrides; set_solver).
  cbn [bind].
  rewrite (Hs "GOOGLE_APPLICATION_CREDENTIALS" "bigquery" "credentials")
    by (unfold overrides; set_solver).
  cbn [bind]. apply Hs. unfold overrides. set_solver.
Qed.

End EnvProps.

(** ** The properties at work on concrete data *)

(** An equation between closed terms, checked by evaluating both sides. *)
Ltac by_evaluation :=
  lazymatch goal with
  | |- ?a = ?b => exact (@eq_refl _ b <: a = b)
  end.

Module AuditExamples.
Import Examples Mini MoreExamples Selection Audit.
Local Open Scope list_scope.

(** Of the three extracted pairs the first one is selected, under its own
    index label, and each of the three is audited. *)
Lemma extracted_table_selection :
  df_rows (selected_of selection_extracted)
  = filter (fun r => passes cfg0 r = true) (df_rows df_extracted)
  /\ length (df_rows (audit_table_of selection_extracted)) = length (df_rows df_extracted)
  /\ forall i idx row,
       df_rows df_extracted !! i = Some (idx, row) ->
       exists include reasons,
         evaluate_row row cfg0 = Ok (include, reasons)
         /\ df_rows (audit_table_of selection_extracted) !! i
            = Some (Z.of_nat i, audit_entry row include reasons).
Proof.
  apply (apply_selection_filters_and_audits df_extracted
           (selected_of selection_extracted) (audit_table_of selection_extracted) cfg0).
  by_evaluation.
Defined.

Lemma extracted_table_verdicts :
  Frame.index (selected_of selection_extracted) = [10]
  /\ Frame.index (audit_table_of selection_extracted) = [0; 1; 2]
  /\ Frame.cell (audit_table_of selection_extracted) 1 "reasons"
     = Some (PStr "no_lung_nodules")
  /\ Frame.cell (audit_table_of selection_extracted) 2 "reasons"
     = Some (PStr "extraction_error").
Proof. repeat split; by_evaluation. Qed.

(** No pair passes: the selected table has no columns. *)
Lemma rejected_table_has_no_columns :
  (existsb (passes cfg0) (df_rows df_rejected) = true ->
   df_cols (selected_of selection_rejected) = df_cols df_rejected)
  /\ (existsb (passes cfg0) (df_rows df_rejected) = false ->
      df_cols (selected_of selection_rejected) = []
      /\ df_rows (selected_of selection_rejected) = []).
Proof.
  apply (selected_columns df_rejected (selected_of selection_rejected)
           (audit_table_of selection_rejected) cfg0).
  by_evaluation.
Defined.

(** A flattened column that contradicts the results changes nothing. *)
Lemma flattened_column_is_not_read :
  evaluate_row (<[ "ct_Lung_Nodules" := PStr "[]" ]> row_good) cfg0
  = evaluate_row row_good cfg_no_retry.
Proof.
  apply verdict_reads_three_cells; by_evaluation.
Defined.

End AuditExamples.

Module RetryExamples.
Import Examples Mini MoreExamples Llm.
Local Open Scope list_scope.

Lemma no_attempt_allowed :
  _extract_with_retry client_down "Extract the CT fields." "CT of a" cfg_no_retry world0
  = (Ok (PDict ∅), world0).
Proof.
  apply (no_retries_returns_empty client_down "Extract the CT fields." "CT of a"
           cfg_no_retry 0 2000 (FFinite 3602879701896397 (-54)) world0);
    [reflexivity | reflexivity | reflexivity | lia].
Defined.

(** The flaky API: some attempt before the fourth is the last one, and its
    outcome is returned. *)
Lemma flaky_client_last_attempt :
  exists last : nat,
    Z.of_nat last < 3
    /\ _extract_with_retry client_flaky "Extract the CT fields." "CT of a" cfg0 world0
       = (Spec.attempt_result client_flaky
            {| req_model := PStr "gpt-5.2";
               req_prompt := "Extract the CT fields."; req_report := "CT of a";
               req_temperature := FFinite 3602879701896397 (-54);
               req_max_output_tokens := 2000 |} (0 + last),
          {| api_calls := 0 + last + 1; slept := [] ++ Spec.backoff last |}).
Proof.
  destruct (retry_returns_last_attempt client_flaky "Extract the CT fields." "CT of a"
              cfg0 3 2000 (FFinite 3602879701896397 (-54)) world0
              eq_refl eq_refl eq_refl ltac:(lia))
    as (last & Hlt & _ & _ & Hrun).
  exists last. split; [exact Hlt | exact Hrun].
Defined.

(** The CT extraction is answered, the PET extraction refused three
    times: nothing of the CT result is kept. *)
Lemma pet_refused_after_ct :
  Extraction.future_result client_once "Extract the CT fields." "Extract the PET fields."
    cfg0 (pair_row "a" "CT of a" "PET of a")
  = Raise (ApiError "Rate limit reached.")
  /\ Extraction.collect 0
       (Extraction.future_result client_once "Extract the CT fields."
          "Extract the PET fields." cfg0 (pair_row "a" "CT of a" "PET of a"))
     = {| Extraction.e_idx := 0; Extraction.e_ct := PDict ∅;
          Extraction.e_pet := PDict ∅;
          Extraction.e_error := exn_str (ApiError "Rate limit reached.") |}.
Proof.
  apply (pet_failure_discards_ct client_once "Extract the CT fields."
           "Extract the PET fields." cfg0 (pair_row "a" "CT of a" "PET of a") 0
           (PDict ∅) (ApiError "Rate limit reached.")
           {| api_calls := 1; slept := [] |} {| api_calls := 4; slept := [2; 4] |});
    by_evaluation.
Defined.

End RetryExamples.

Module RunExamples.
Import Examples Mini MoreExamples Extraction.
Local Open Scope list_scope.

Lemma keys_of_swapped_results :
  _ordered_keys [PDict ct_good; PDict pet_good] _EXPECTED_CT_KEYS
  = _ordered_keys [PDict pet_good; PDict ct_good] _EXPECTED_CT_KEYS.
Proof. apply ordered_keys_permutation. apply perm_swap. Defined.

Lemma keys_of_good_ct :
  NoDup ["CT_Regions"; "CT_Contrast_Agent"; "Lung_Nodules"]
  /\ forall key,
       key ∈ ["CT_Regions"; "CT_Contrast_Agent"; "Lung_Nodules"]
       <-> exists d, PDict d ∈ [PDict ct_good] /\ is_Some (d !! key).
Proof.
  apply (ordered_keys_exact [PDict ct_good] _EXPECTED_CT_KEYS).
  - exact (proj1 expected_keys_NoDup).
  - by_evaluation.
Defined.

Lemma three_pairs_any_completion :
  run_extraction api_echo [2; 0; 1]%nat df_three cfg0 ct_path pet_path "out" None
  = run_extraction api_echo [0; 1; 2]%nat df_three cfg0 ct_path pet_path "out" None.
Proof.
  apply completion_order_is_irrelevant.
  - change (NoDup [0; 1; 2]). apply (bool_decide_unpack _). vm_compute. exact I.
  - exact (Permutation_cons_app [0; 1]%nat [] 2%nat (Permutation_refl _)).
  - apply Permutation_refl.
Defined.

Lemma no_pairs_no_files :
  run_extraction api_echo [] df_empty cfg0 ct_path pet_path "out" None
  = Ok ({| df_cols := Spec.base_cols df_empty; df_rows := [] |}, []).
Proof.
  apply (run_extraction_empty_table api_echo [] df_empty cfg0 ct_path pet_path "out" None
           "Extract the CT fields." "Extract the PET fields." 6);
    [reflexivity | reflexivity | reflexivity | reflexivity | lia | reflexivity].
Defined.

Lemma all_but_last_pair :
  df_rows (truncate (Some (-1)) df_three)
  = take (length (df_rows df_three) - Z.to_nat (- -1)) (df_rows df_three)
  /\ df_cols (truncate (Some (-1)) df_three) = df_cols df_three.
Proof. apply negative_max_rows_drops_last. lia. Defined.

Lemma all_but_last_pair_index :
  Frame.index (truncate (Some (-1)) df_three) = [0; 1].
Proof. reflexivity. Qed.

(** One task answered by a JSON array: the run over the three pairs is
    lost. *)
Lemma array_answer_aborts :
  run_extraction api_second_array [2; 0; 1]%nat df_three cfg0 ct_path pet_path "out" None
  = Raise AttributeError.
Proof.
  apply (non_mapping_result_aborts_run api_second_array [2; 0; 1]%nat df_three cfg0
           ct_path pet_path "out" None
           "Extract the CT fields." "Extract the PET fields." 6);
    [reflexivity | reflexivity | reflexivity | reflexivity | lia
    | exact (Permutation_cons_app [0; 1]%nat [] 2%nat (Permutation_refl _))
    | by_evaluation].
Defined.

Lemma files_of_three_pairs :
  files_three
  = flat_map (fun r => Cells.files_of_row ("out" ++ "/ct")%string
                         ("out" ++ "/pet")%string r.2) (df_rows table_three)
  /\ length files_three = (2 * length (df_rows (truncate None df_three)))%nat
  /\ Forall (fun r => is_str (map_get r.2 "ct_json" PNone) = true
                      /\ is_str (map_get r.2 "pet_json" PNone) = true)
       (df_rows table_three).
Proof.
  apply (artifacts_written_per_row api_echo [2; 0; 1]%nat df_three table_three cfg0
           ct_path pet_path "out" None files_three).
  by_evaluation.
Defined.

Lemma names_of_three_pairs_files :
  (fun w => (w_dir w, w_name w)) <$> files_three
  = [ ("out/ct", "ct-a.json"); ("out/pet", "pt-a.json");
      ("out/ct", "ct-b.json"); ("out/pet", "pt-b.json");
      ("out/ct", "ct-c.json"); ("out/pet", "pt-c.json") ].
Proof. by_evaluation. Qed.

Lemma three_pairs_keep_reports :
  Frame.index table_three = Frame.index (truncate None df_three)
  /\ exists (entries : list Entry) (cts pets : list (gmap string pyval)),
       Spec.attached api_echo [2; 0; 1]%nat df_three cfg0 ct_path pet_path None
       = Ok entries
       /\ (e_ct <$> entries) = (PDict <$> cts)
       /\ (e_pet <$> entries) = (PDict <$> pets)
       /\ (forall i name,
             name ∉ ["ct_json"; "pet_json"; "extraction_error"] ->
             (forall key, key ∈ Spec.found cts -> name <> ("ct_" ++ key)%string) ->
             (forall key, key ∈ Spec.found pets -> name <> ("pet_" ++ key)%string) ->
             Frame.cell table_three i name = Frame.cell (truncate None df_three) i name)
       /\ (forall i key text,
             key ∈ Spec.found cts ->
             Frame.cell (truncate None df_three) i ("ct_" ++ key)%string = Some text ->
             exists d, cts !! i = Some d
               /\ Frame.cell table_three i ("ct_" ++ key)%string
                  = Some match d !! key with
                         | Some v => _normalize_json_value v
                         | None => PStr ""
                         end).
Proof.
  apply (run_extraction_keeps_other_cells api_echo [2; 0; 1]%nat df_three table_three
           cfg0 ct_path pet_path "out" None files_three).
  by_evaluation.
Defined.

Lemma echo_cells_are_scalars :
  exists v, Frame.cell table_three 0 "ct_Seen" = Some v /\ Cells.scalar v = true.
Proof.
  apply (flattened_cells_are_scalars api_echo [2; 0; 1]%nat df_three table_three cfg0
           ct_path pet_path "out" None files_three).
  - by_evaluation.
  - apply (bool_decide_unpack _). vm_compute. exact I.
  - apply (bool_decide_unpack _). vm_compute. exact I.
  - vm_compute. lia.
Defined.

End RunExamples.

Module PipelineExamples.
Import Examples Mini MoreExamples Selection Audit Extraction Pipeline.
Local Open Scope list_scope.

(** The whole run over three pairs whose second extraction fails: the
    second pair is rejected for that reason. *)
Lemma failed_pair_rejected :
  exists row,
    df_rows extracted_three !! 1%nat = Some (1, row)
    /\ row !! "extraction_error"
       = Some (PStr (exn_str (ApiError "Connection error, call 2")))
    /\ ((1, row) ∉ df_rows selected_three)
    /\ df_rows audit_three !! 1%nat
       = Some (Z.of_nat 1, audit_entry row false ["extraction_error"]).
Proof.
  apply (failed_pair_is_never_selected api_good_second_down [2; 0; 1]%nat df_three cfg0
           ct_path pet_path "out" None "Extract the CT fields." "Extract the PET fields."
           extracted_three selected_three audit_three 1%nat 1
           (ApiError "Connection error, call 2"));
    [ reflexivity | reflexivity
    | exact (Permutation_cons_app [0; 1]%nat [] 2%nat (Permutation_refl _))
    | change (StronglySorted Z.lt [0; 1; 2]); repeat constructor
    | by_evaluation
    | by_evaluation
    | by_evaluation
    | intros Heq; vm_compute in Heq; discriminate Heq ].
Defined.


Lemma pipeline_three_selected :
  Frame.index selected_three = [0; 2]
  /\ Frame.cell audit_three 1 "selected" = Some (PBool false)
  /\ Frame.cell audit_three 0 "selected" = Some (PBool true).
Proof. repeat split; by_evaluation. Qed.

End PipelineExamples.

Module EnvExamples.
Import MoreExamples Env.
Local Open Scope list_scope.

Lemma key_from_environment :
  (forall name section key,
     (name, section, key) ∈ overrides ->
     setting cfg_overridden section key
     = if is_set env_key name then PStr <$> env_key !! name
       else setting cfg_file section key)
  /\ (forall section key,
        (forall name, (name, section, key) ∉ overrides) ->
        setting cfg_overridden section key = setting cfg_file section key)
  /\ (forall section,
        section <> "bigquery" -> section <> "llm" ->
        cfg_overridden !! section = cfg_file !! section).
Proof.
  apply (env_overrides_take_precedence env_key cfg_file cfg_overridden).
  by_evaluation.
Defined.

Lemma environment_key_wins :
  setting cfg_overridden "llm" "api_key" = Some (PStr "sk-env")
  /\ setting cfg_overridden "llm" "model" = Some (PStr "gpt-5.2")
  /\ setting cfg_overridden "bigquery" "project" = Some (PStr "radiology-dev")
  /\ _apply_env_overrides env_key (<[ "llm" := PNone ]> cfg_file) = Raise TypeError.
Proof. repeat split; by_evaluation. Qed.

Lemma overridden_twice :
  _apply_env_overrides env_key cfg_overridden = Ok cfg_overridden.
Proof.
  apply (env_overrides_idempotent env_key cfg_file cfg_overridden).
  by_evaluation.
Defined.

End EnvExamples.
